(** * FormBridge intake contract: state machine, validation, events, runtime

    A shallow embedding of the Python package [formbridge]
    ([types.py], [events.py], [state_machine.py], [validation.py],
    [runtime.py]) together with the properties of its specification that
    can be stated over it.

    Conventions of the embedding.
    - A Python [str] is a Rocq [string]; a character is a code point in
      the range 0..255.
    - A Python enumeration is an inductive type with its [value] function.
    - JSON-like Python objects ([None], [bool], [int], [str], [list],
      [dict]) are values of [json]; a [dict] is an association list in
      insertion order.  IEEE doubles are outside the model.
    - A method that mutates [self] is a function from the object to a
      pair of an outcome and the object afterwards; [raise] is the outcome
      [Raise].
    - What the operating system hands out during a call (random bytes,
      the clock) is an explicit argument of the call. *)

From Stdlib Require Import ZArith String Ascii List Bool Lia DecimalString DecimalZ.
From stdpp Require Import base gmap strings list.
Import ListNotations.

Local Open Scope string_scope.
Local Open Scope list_scope.

(** ** Outcomes of Python calls *)

Inductive outcome (E A : Type) : Type :=
| Return (a : A)
| Raise (e : E).
Arguments Return {E A} a.
Arguments Raise {E A} e.

(** Sequencing: the first [Raise] ends the computation. *)
#[global] Instance outcome_ret {E} : MRet (outcome E) := fun _ a => Return a.
#[global] Instance outcome_bind {E} : MBind (outcome E) :=
  fun _ _ k m =>
    match m with
    | Return a => k a
    | Raise e => Raise e
    end.

(** The built-in exceptions of the deserialisers.  [TypeError] also
    stands for the misbehaviour of a value whose JSON type is not the one
    the annotation of its field asks for. *)
Inductive pyerr : Type :=
| KeyError (key : string)
| ValueError (msg : string)
| TypeError (msg : string).

(** ** JSON-like Python values *)

#[local] Unset Elimination Schemes.
Inductive json : Type :=
| JNull
| JBool (b : bool)
| JInt (n : Z)
| JStr (s : string)
| JList (xs : list json)
| JDict (kvs : list (string * json)).
#[local] Set Elimination Schemes.

(** A Python [dict] with string keys, in insertion order. *)
Abbreviation pydict := (list (string * json)).

(** [d.get(k)] *)
Fixpoint dict_get (k : string) (d : pydict) : option json :=
  match d with
  | [] => None
  | (k', v) :: d' => if String.eqb k k' then Some v else dict_get k d'
  end.

(** [d[k]] *)
Definition dict_item (k : string) (d : pydict) : outcome pyerr json :=
  match dict_get k d with
  | Some v => Return v
  | None => Raise (KeyError k)
  end.

(** A value read where the annotation says [str]. *)
Definition as_str (what : string) (j : json) : outcome pyerr string :=
  match j with
  | JStr s => Return s
  | _ => Raise (TypeError (what +:+ " is not a str"))
  end.

(** A value read where the annotation says [Optional[str]]. *)
Definition as_optional_str (what : string) (j : option json)
    : outcome pyerr (option string) :=
  match j with
  | None | Some JNull => Return None
  | Some (JStr s) => Return (Some s)
  | Some _ => Raise (TypeError (what +:+ " is not a str"))
  end.

(** A value read where the annotation says [Optional[Dict[str, Any]]]. *)
Definition as_optional_dict (what : string) (j : option json)
    : outcome pyerr (option pydict) :=
  match j with
  | None | Some JNull => Return None
  | Some (JDict d) => Return (Some d)
  | Some _ => Raise (TypeError (what +:+ " is not a dict"))
  end.

(** [x is None] *)
Definition is_none (j : json) : bool :=
  match j with
  | JNull => true
  | _ => false
  end.

(** A value read where the annotation says [bool]. *)
Definition as_bool (what : string) (j : json) : outcome pyerr bool :=
  match j with
  | JBool b => Return b
  | _ => Raise (TypeError (what +:+ " is not a bool"))
  end.

(** A value read where the annotation says [Optional[int]]. *)
Definition as_optional_int (what : string) (j : option json)
    : outcome pyerr (option Z) :=
  match j with
  | None | Some JNull => Return None
  | Some (JInt n) => Return (Some n)
  | Some _ => Raise (TypeError (what +:+ " is not an int"))
  end.

(** The strings of a list of strings. *)
Fixpoint strings_of (xs : list json) : option (list string) :=
  match xs with
  | [] => Some []
  | JStr s :: rest => cons s <$> strings_of rest
  | _ :: _ => None
  end.

(** A value read where the annotation says [Optional[List[str]]]. *)
Definition as_optional_str_list (what : string) (j : option json)
    : outcome pyerr (option (list string)) :=
  match j with
  | None | Some JNull => Return None
  | Some (JList xs) =>
      match strings_of xs with
      | Some l => Return (Some l)
      | None => Raise (TypeError (what +:+ " is not a list of str"))
      end
  | Some _ => Raise (TypeError (what +:+ " is not a list of str"))
  end.

(** [[f(x) for x in xs]] where [f] may raise: the first error ends the
    comprehension. *)
Fixpoint comprehension {E A B : Type} (f : A -> outcome E B) (xs : list A)
    : outcome E (list B) :=
  match xs with
  | [] => Return []
  | x :: rest =>
      match f x with
      | Raise e => Raise e
      | Return y =>
          match comprehension f rest with
          | Raise e => Raise e
          | Return ys => Return (y :: ys)
          end
      end
  end.

(** ** Built-in operations of Python on these values *)

Module Py.
(** [str(n)] for an [int] *)
Definition str_int (n : Z) : string :=
  NilZero.string_of_int (Z.to_int n).

(** [c in s] for a one-character [c] *)
Fixpoint contains (c : ascii) (s : string) : bool :=
  match s with
  | EmptyString => false
  | String c' s' => Ascii.eqb c c' || contains c s'
  end.

(** [s.split(c)] for a one-character separator: the pieces between
    the occurrences of [c], empty pieces included. *)
Fixpoint split (c : ascii) (s : string) : list string :=
  match s with
  | EmptyString => [""]
  | String c' s' =>
      if Ascii.eqb c c' then "" :: split c s'
      else match split c s' with
           | piece :: pieces => String c' piece :: pieces
           | [] => [String c' ""]
           end
  end.

Definition hexdigit (d : N) : ascii :=
  nth (N.to_nat d) (list_ascii_of_string "0123456789abcdef") "0"%char.

(** [str.isprintable] on a code point below 256 *)
Definition printable (c : ascii) : bool :=
  let n := N_of_ascii c in
  ((32 <=? n) && (n <? 127) || (161 <=? n) && negb (n =? 173))%N.

Definition repr_char (quote : ascii) (c : ascii) : string :=
  if Ascii.eqb c quote || Ascii.eqb c "\"%char then String "\"%char (String c "")
  else if Ascii.eqb c "009"%char then "\t"
  else if Ascii.eqb c "010"%char then "\n"
  else if Ascii.eqb c "013"%char then "\r"
  else if printable c then String c ""
  else let n := N_of_ascii c in
       String "\"%char (String "x"%char
         (String (hexdigit (n / 16)) (String (hexdigit (n mod 16)) ""))).

Definition single_quote : ascii := "'"%char.
Definition double_quote : ascii := "034"%char.

(** [repr(s)] for a [str]: single quotes unless the text has a single
    quote and no double quote. *)
Definition repr_str (s : string) : string :=
  let quote :=
    if contains single_quote s && negb (contains double_quote s)
    then double_quote else single_quote in
  String quote
    (String.concat "" (map (repr_char quote) (list_ascii_of_string s))
     +:+ String quote "").

Fixpoint repr (j : json) : string :=
  match j with
  | JNull => "None"
  | JBool true => "True"
  | JBool false => "False"
  | JInt n => str_int n
  | JStr s => repr_str s
  | JList xs => "[" +:+ String.concat ", " (map repr xs) +:+ "]"
  | JDict kvs =>
      "{" +:+ String.concat ", "
                (map (fun kv => repr_str (fst kv) +:+ ": " +:+ repr (snd kv)) kvs)
      +:+ "}"
  end.

(** [str(x)], which is also what an f-string substitutes. *)
Definition str (j : json) : string :=
  match j with
  | JStr s => s
  | _ => repr j
  end.

(** [bool(x)] *)
Definition truthy (j : json) : bool :=
  match j with
  | JNull => false
  | JBool b => b
  | JInt n => negb (n =? 0)%Z
  | JStr s => negb (String.eqb s "")
  | JList xs => match xs with [] => false | _ => true end
  | JDict kvs => match kvs with [] => false | _ => true end
  end.

(** [len(x)] for the sized values; the callers below apply it to
    strings only. *)
Definition len (j : json) : Z :=
  match j with
  | JStr s => Z.of_nat (String.length s)
  | JList xs => Z.of_nat (length xs)
  | JDict kvs => Z.of_nat (length kvs)
  | _ => 0
  end.

(** [type(x).__name__] *)
Definition type_name (j : json) : string :=
  match j with
  | JNull => "NoneType"
  | JBool _ => "bool"
  | JInt _ => "int"
  | JStr _ => "str"
  | JList _ => "list"
  | JDict _ => "dict"
  end.
End Py.

(** ** The [json] module: [dumps] with compact separators, and [loads] *)

Module Json.
Definition dq : ascii := "034"%char.
Definition bs : ascii := "092"%char.

Definition chars (s : string) : list ascii := list_ascii_of_string s.

(** The four hexadecimal digits of ['\\u{0:04x}'.format(n)]. *)
Definition hex4 (n : N) : list ascii :=
  [Py.hexdigit (n / 4096 mod 16); Py.hexdigit (n / 256 mod 16);
   Py.hexdigit (n / 16 mod 16); Py.hexdigit (n mod 16)]%N.

(** [ESCAPE_ASCII]: the quote, the backslash and everything outside
    [' '..'~'] is replaced, a few by their short escape and the others by
    [\uXXXX]. *)
Definition escape_char (c : ascii) : list ascii :=
  let n := N_of_ascii c in
  if Ascii.eqb c dq then [bs; dq]
  else if Ascii.eqb c bs then [bs; bs]
  else if Ascii.eqb c "010"%char then [bs; "n"%char]
  else if Ascii.eqb c "013"%char then [bs; "r"%char]
  else if Ascii.eqb c "009"%char then [bs; "t"%char]
  else if Ascii.eqb c "008"%char then [bs; "b"%char]
  else if Ascii.eqb c "012"%char then [bs; "f"%char]
  else if ((32 <=? n) && (n <=? 126))%N then [c]
  else bs :: "u"%char :: hex4 n.

(** [py_encode_basestring_ascii] *)
Definition dump_string (s : string) : list ascii :=
  dq :: flat_map escape_char (chars s) ++ [dq].

(** [sep.join(pieces)] *)
Fixpoint join (sep : ascii) (pieces : list (list ascii)) : list ascii :=
  match pieces with
  | [] => []
  | [p] => p
  | p :: rest => p ++ sep :: join sep rest
  end.

Fixpoint dump (j : json) : list ascii :=
  match j with
  | JNull => chars "null"
  | JBool true => chars "true"
  | JBool false => chars "false"
  | JInt n => chars (Py.str_int n)
  | JStr s => dump_string s
  | JList xs => "["%char :: join ","%char (map dump xs) ++ ["]"%char]
  | JDict kvs =>
      "{"%char
      :: join ","%char
           (map (fun kv => dump_string (fst kv) ++ ":"%char :: dump (snd kv)) kvs)
      ++ ["}"%char]
  end.

(** [json.dumps(obj, separators=(',', ':'))] *)
Definition dumps (j : json) : string := string_of_list_ascii (dump j).

(** *** Decoding *)

Definition is_ws (c : ascii) : bool :=
  Ascii.eqb c " "%char || Ascii.eqb c "009"%char
  || Ascii.eqb c "010"%char || Ascii.eqb c "013"%char.

Fixpoint skip_ws (s : list ascii) : list ascii :=
  match s with
  | c :: s' => if is_ws c then skip_ws s' else s
  | [] => []
  end.













End Json.

(** ** types.py *)

Module SubmissionState.
Inductive t : Type :=
| DRAFT | IN_PROGRESS | AWAITING_INPUT | AWAITING_UPLOAD | SUBMITTED
| NEEDS_REVIEW | APPROVED | REJECTED | FINALIZED | CANCELLED | EXPIRED.

Definition value (s : t) : string :=
  match s with
  | DRAFT => "draft"
  | IN_PROGRESS => "in_progress"
  | AWAITING_INPUT => "awaiting_input"
  | AWAITING_UPLOAD => "awaiting_upload"
  | SUBMITTED => "submitted"
  | NEEDS_REVIEW => "needs_review"
  | APPROVED => "approved"
  | REJECTED => "rejected"
  | FINALIZED => "finalized"
  | CANCELLED => "cancelled"
  | EXPIRED => "expired"
  end.

Definition members : list t :=
  [DRAFT; IN_PROGRESS; AWAITING_INPUT; AWAITING_UPLOAD; SUBMITTED;
   NEEDS_REVIEW; APPROVED; REJECTED; FINALIZED; CANCELLED; EXPIRED].

(** [SubmissionState(v)]: lookup of a member by value. *)
Definition of_value (v : string) : option t :=
  find (fun s => String.eqb (value s) v) members.

#[global] Instance eq_dec : EqDecision t.
Proof. solve_decision. Defined.

Definition eqb (a b : t) : bool := bool_decide (a = b).
End SubmissionState.

Module EventType.
Inductive t : Type :=
| SUBMISSION_CREATED | FIELD_UPDATED | VALIDATION_PASSED | VALIDATION_FAILED
| UPLOAD_REQUESTED | UPLOAD_COMPLETED | UPLOAD_FAILED | SUBMISSION_SUBMITTED
| REVIEW_REQUESTED | REVIEW_APPROVED | REVIEW_REJECTED | DELIVERY_ATTEMPTED
| DELIVERY_SUCCEEDED | DELIVERY_FAILED | SUBMISSION_FINALIZED
| SUBMISSION_CANCELLED | SUBMISSION_EXPIRED | HANDOFF_LINK_ISSUED
| HANDOFF_RESUMED.

Definition value (e : t) : string :=
  match e with
  | SUBMISSION_CREATED => "submission.created"
  | FIELD_UPDATED => "field.updated"
  | VALIDATION_PASSED => "validation.passed"
  | VALIDATION_FAILED => "validation.failed"
  | UPLOAD_REQUESTED => "upload.requested"
  | UPLOAD_COMPLETED => "upload.completed"
  | UPLOAD_FAILED => "upload.failed"
  | SUBMISSION_SUBMITTED => "submission.submitted"
  | REVIEW_REQUESTED => "review.requested"
  | REVIEW_APPROVED => "review.approved"
  | REVIEW_REJECTED => "review.rejected"
  | DELIVERY_ATTEMPTED => "delivery.attempted"
  | DELIVERY_SUCCEEDED => "delivery.succeeded"
  | DELIVERY_FAILED => "delivery.failed"
  | SUBMISSION_FINALIZED => "submission.finalized"
  | SUBMISSION_CANCELLED => "submission.cancelled"
  | SUBMISSION_EXPIRED => "submission.expired"
  | HANDOFF_LINK_ISSUED => "handoff.link_issued"
  | HANDOFF_RESUMED => "handoff.resumed"
  end.

Definition members : list t :=
  [SUBMISSION_CREATED; FIELD_UPDATED; VALIDATION_PASSED; VALIDATION_FAILED;
   UPLOAD_REQUESTED; UPLOAD_COMPLETED; UPLOAD_FAILED; SUBMISSION_SUBMITTED;
   REVIEW_REQUESTED; REVIEW_APPROVED; REVIEW_REJECTED; DELIVERY_ATTEMPTED;
   DELIVERY_SUCCEEDED; DELIVERY_FAILED; SUBMISSION_FINALIZED;
   SUBMISSION_CANCELLED; SUBMISSION_EXPIRED; HANDOFF_LINK_ISSUED;
   HANDOFF_RESUMED].

Definition of_value (v : string) : option t :=
  find (fun e => String.eqb (value e) v) members.

#[global] Instance eq_dec : EqDecision t.
Proof. solve_decision. Defined.
End EventType.

Module FieldErrorCode.
Inductive t : Type :=
| REQUIRED | INVALID_TYPE | INVALID_FORMAT | INVALID_VALUE | TOO_LONG
| TOO_SHORT | FILE_REQUIRED | FILE_TOO_LARGE | FILE_WRONG_TYPE | CUSTOM.

Definition value (c : t) : string :=
  match c with
  | REQUIRED => "required"
  | INVALID_TYPE => "invalid_type"
  | INVALID_FORMAT => "invalid_format"
  | INVALID_VALUE => "invalid_value"
  | TOO_LONG => "too_long"
  | TOO_SHORT => "too_short"
  | FILE_REQUIRED => "file_required"
  | FILE_TOO_LARGE => "file_too_large"
  | FILE_WRONG_TYPE => "file_wrong_type"
  | CUSTOM => "custom"
  end.

#[global] Instance eq_dec : EqDecision t.
Proof. solve_decision. Defined.

Definition members : list t :=
  [REQUIRED; INVALID_TYPE; INVALID_FORMAT; INVALID_VALUE; TOO_LONG;
   TOO_SHORT; FILE_REQUIRED; FILE_TOO_LARGE; FILE_WRONG_TYPE; CUSTOM].

(** [FieldErrorCode(v)]: lookup of a member by value. *)
Definition of_value (v : string) : option t :=
  find (fun c => String.eqb (value c) v) members.
End FieldErrorCode.

Module ErrorType.
Inductive t : Type :=
| MISSING | INVALID | CONFLICT | NEEDS_APPROVAL | UPLOAD_PENDING
| DELIVERY_FAILED | EXPIRED | CANCELLED.

Definition value (e : t) : string :=
  match e with
  | MISSING => "missing"
  | INVALID => "invalid"
  | CONFLICT => "conflict"
  | NEEDS_APPROVAL => "needs_approval"
  | UPLOAD_PENDING => "upload_pending"
  | DELIVERY_FAILED => "delivery_failed"
  | EXPIRED => "expired"
  | CANCELLED => "cancelled"
  end.

Definition members : list t :=
  [MISSING; INVALID; CONFLICT; NEEDS_APPROVAL; UPLOAD_PENDING;
   DELIVERY_FAILED; EXPIRED; CANCELLED].

Definition of_value (v : string) : option t :=
  find (fun e => String.eqb (value e) v) members.

#[global] Instance eq_dec : EqDecision t.
Proof. solve_decision. Defined.
End ErrorType.

Module NextActionType.
Inductive t : Type :=
| COLLECT_FIELD | REQUEST_UPLOAD | WAIT_FOR_REVIEW | RETRY_DELIVERY | CANCEL.

Definition value (a : t) : string :=
  match a with
  | COLLECT_FIELD => "collect_field"
  | REQUEST_UPLOAD => "request_upload"
  | WAIT_FOR_REVIEW => "wait_for_review"
  | RETRY_DELIVERY => "retry_delivery"
  | CANCEL => "cancel"
  end.

Definition members : list t :=
  [COLLECT_FIELD; REQUEST_UPLOAD; WAIT_FOR_REVIEW; RETRY_DELIVERY; CANCEL].

Definition of_value (v : string) : option t :=
  find (fun a => String.eqb (value a) v) members.

#[global] Instance eq_dec : EqDecision t.
Proof. solve_decision. Defined.
End NextActionType.

Module ActorKind.
Inductive t : Type := AGENT | HUMAN | SYSTEM.

Definition value (k : t) : string :=
  match k with
  | AGENT => "agent"
  | HUMAN => "human"
  | SYSTEM => "system"
  end.

Definition members : list t := [AGENT; HUMAN; SYSTEM].

Definition of_value (v : string) : option t :=
  find (fun k => String.eqb (value k) v) members.

#[global] Instance eq_dec : EqDecision t.
Proof. solve_decision. Defined.
End ActorKind.

Module Actor.
(** [metadata] is [Optional[Dict[str, Any]]]: [None] and the empty
    dictionary are different values of the field. *)
Record t : Type := Build {
  kind : ActorKind.t;
  id : string;
  name : option string;
  metadata : option pydict;
}.

(** Truth value of [self.metadata]: [None] and [{}] are falsy. *)
Definition metadata_truthy (m : option pydict) : bool :=
  match m with
  | Some (_ :: _) => true
  | _ => false
  end.

Definition to_dict (a : t) : pydict :=
  [("kind", JStr (ActorKind.value (kind a))); ("id", JStr (id a))]
  ++ match name a with
     | Some n => [("name", JStr n)]
     | None => []
     end
  ++ (if metadata_truthy (metadata a)
      then match metadata a with
           | Some m => [("metadata", JDict m)]
           | None => []
           end
      else []).

(** [data.get("metadata", {})]: the default stands in for an absent key
    only; a key that is present with the value [None] gives [None]. *)
Definition from_dict (data : pydict) : outcome pyerr t :=
  kind_value ← dict_item "kind" data;
  kind_str ← as_str "kind" kind_value;
  kind ← match ActorKind.of_value kind_str with
         | Some k => Return k
         | None =>
             Raise (ValueError (Py.repr_str kind_str
                                +:+ " is not a valid ActorKind"))
         end;
  id_value ← dict_item "id" data;
  id ← as_str "id" id_value;
  name ← as_optional_str "name" (dict_get "name" data);
  metadata ← as_optional_dict "metadata"
               (Some (default (JDict []) (dict_get "metadata" data)));
  Return {| kind := kind; id := id; name := name; metadata := metadata |}.
End Actor.

(** ** Values handed out by the Python runtime and the operating system *)

Module datetime.
(** A [datetime.datetime]; [tzinfo] is the UTC offset in minutes of an
    aware value and [None] for a naive one.  Offsets that are not whole
    minutes are outside the model. *)
Record t : Type := Build {
  year : Z; month : Z; day : Z;
  hour : Z; minute : Z; second : Z; microsecond : Z;
  tzinfo : option Z;
}.

Definition is_leap (y : Z) : bool :=
  ((y mod 4 =? 0) && (negb (y mod 100 =? 0) || (y mod 400 =? 0)))%Z.

Definition days_in_month (y m : Z) : Z :=
  if (m =? 2)%Z then (if is_leap y then 29 else 28)%Z
  else if ((m =? 4) || (m =? 6) || (m =? 9) || (m =? 11))%Z then 30%Z
  else 31%Z.

Definition between (lo x hi : Z) : bool := ((lo <=? x) && (x <=? hi))%Z.

(** The checks of the constructor. *)
Definition valid (d : t) : bool :=
  between 1 (year d) 9999 && between 1 (month d) 12
  && between 1 (day d) (days_in_month (year d) (month d))
  && between 0 (hour d) 23 && between 0 (minute d) 59
  && between 0 (second d) 59 && between 0 (microsecond d) 999999
  && match tzinfo d with
     | Some off => between (-1439) off 1439
     | None => true
     end.

Definition digit (k : Z) : ascii :=
  nth (Z.to_nat (k mod 10)) (list_ascii_of_string "0123456789") "0"%char.

(** ['%0*d' % (width, n)] for [0 <= n < 10 ^ width] *)
Definition fixed (width : nat) (n : Z) : list ascii :=
  map (fun i => digit (n / 10 ^ Z.of_nat i)) (rev (seq 0 width)).

Definition format_offset (tz : option Z) : list ascii :=
  match tz with
  | None => []
  | Some off =>
      (if (off <? 0)%Z then "-"%char else "+"%char)
      :: fixed 2 (Z.abs off / 60) ++ ":"%char :: fixed 2 (Z.abs off mod 60)
  end.

Definition isoformat (d : t) : string :=
  string_of_list_ascii
    (fixed 4 (year d) ++ "-"%char :: fixed 2 (month d)
     ++ "-"%char :: fixed 2 (day d)
     ++ "T"%char :: fixed 2 (hour d) ++ ":"%char :: fixed 2 (minute d)
     ++ ":"%char :: fixed 2 (second d)
     ++ (if (microsecond d =? 0)%Z then []
         else "."%char :: fixed 6 (microsecond d))
     ++ format_offset (tzinfo d)).

Definition digit_value (c : ascii) : option Z :=
  let n := N_of_ascii c in
  if ((48 <=? n) && (n <=? 57))%N then Some (Z.of_N n - 48)%Z else None.

(** [int(cs)] for a run of decimal digits *)
Definition num (cs : list ascii) : option Z :=
  fold_left (fun acc c =>
               match acc, digit_value c with
               | Some a, Some v => Some (10 * a + v)%Z
               | _, _ => None
               end) cs (Some 0%Z).

(** [s.find(c)] *)
Fixpoint find_char (c : ascii) (s : list ascii) : option nat :=
  match s with
  | [] => None
  | c' :: s' => if Ascii.eqb c c' then Some 0 else S <$> find_char c s'
  end.

(** [_parse_hh_mm_ss_ff]: [HH], [HH:MM], [HH:MM:SS], and after the
    seconds a fraction of three or six digits. *)
Definition parse_hh_mm_ss_ff (s : list ascii) : option (Z * Z * Z * Z) :=
  match s with
  | [h1; h0] =>
      hh ← num [h1; h0]; Some (hh, 0, 0, 0)%Z
  | [h1; h0; c1; m1; m0] =>
      if negb (Ascii.eqb c1 ":"%char) then None else
      hh ← num [h1; h0]; mm ← num [m1; m0]; Some (hh, mm, 0, 0)%Z
  | h1 :: h0 :: c1 :: m1 :: m0 :: c2 :: s1 :: s0 :: frac =>
      if negb (Ascii.eqb c1 ":"%char && Ascii.eqb c2 ":"%char) then None else
      hh ← num [h1; h0]; mm ← num [m1; m0]; ss ← num [s1; s0];
      match frac with
      | [] => Some (hh, mm, ss, 0)%Z
      | [p; f2; f1; f0] =>
          if negb (Ascii.eqb p "."%char) then None else
          ff ← num [f2; f1; f0]; Some (hh, mm, ss, ff * 1000)%Z
      | [p; f5; f4; f3; f2; f1; f0] =>
          if negb (Ascii.eqb p "."%char) then None else
          ff ← num [f5; f4; f3; f2; f1; f0]; Some (hh, mm, ss, ff)%Z
      | _ => None
      end
  | _ => None
  end.

(** [_parse_isoformat_time]: the offset starts at the first [-] or, when
    there is none, at the first [+]. *)
Definition parse_isoformat_time (tstr : list ascii)
    : option (Z * Z * Z * Z * option Z) :=
  let tz_pos :=
    match find_char "-"%char tstr with
    | Some i => Some i
    | None => find_char "+"%char tstr
    end in
  match tz_pos with
  | None =>
      comps ← parse_hh_mm_ss_ff tstr; Some (comps, None)
  | Some i =>
      comps ← parse_hh_mm_ss_ff (take i tstr);
      match drop i tstr with
      | [sign; h1; h0; c; m1; m0] =>
          if negb (Ascii.eqb c ":"%char) then None else
          hh ← num [h1; h0]; mm ← num [m1; m0];
          let off := (hh * 60 + mm)%Z in
          Some (comps,
                Some (if Ascii.eqb sign "-"%char then (- off)%Z else off))
      | _ => None
      end
  end.

Definition checked (d : t) : option t := if valid d then Some d else None.

(** [datetime.fromisoformat]; [None] for a [ValueError]. *)
Definition fromisoformat (s : string) : option t :=
  let cs := list_ascii_of_string s in
  let dstr := take 10 cs in
  let tstr := drop 11 cs in
  match dstr with
  | [y3; y2; y1; y0; c1; m1; m0; c2; d1; d0] =>
      if negb (Ascii.eqb c1 "-"%char && Ascii.eqb c2 "-"%char) then None else
      y ← num [y3; y2; y1; y0]; m ← num [m1; m0]; d ← num [d1; d0];
      match tstr with
      | [] => checked (Build y m d 0 0 0 0 None)
      | _ :: _ =>
          match parse_isoformat_time tstr with
          | Some (hh, mm, ss, ff, tz) => checked (Build y m d hh mm ss ff tz)
          | None => None
          end
      end
  | _ => None
  end.
End datetime.

Module uuid.
(** [int.from_bytes(bs, 'big')] *)
Definition int_from_bytes (bs : list Byte.byte) : Z :=
  fold_left (fun acc b => acc * 256 + Z.of_N (Byte.to_N b))%Z bs 0%Z.

(** [uuid.uuid4()] is [UUID(bytes=os.urandom(16), version=4)]: the
    variant and version bits of the 128-bit integer are overwritten. *)
Definition uuid4 (rnd : list Byte.byte) : Z :=
  let i := int_from_bytes rnd in
  let i := Z.land i (Z.lnot (Z.shiftl 0xc000 48)) in
  let i := Z.lor i (Z.shiftl 0x8000 48) in
  let i := Z.land i (Z.lnot (Z.shiftl 0xf000 64)) in
  Z.lor i (Z.shiftl 4 76).

Definition hex_alphabet : list ascii :=
  list_ascii_of_string "0123456789abcdef".

Definition hexdigit (d : Z) : ascii :=
  nth (Z.to_nat d) hex_alphabet "0"%char.

(** The [i]-th nibble of [z], counted from the least significant. *)
Definition nibble (z : Z) (i : nat) : ascii :=
  hexdigit (Z.land (Z.shiftr z (4 * Z.of_nat i)) 15).

(** [UUID.hex], that is ['%032x' % self.int], for an integer below
    [2^128]. *)
Definition hex (u : Z) : string :=
  string_of_list_ascii (map (nibble u) (rev (seq 0 32))).
End uuid.

Module Os.
(** What one state-machine transition reads from its environment:
    the 16 bytes [uuid.uuid4()] takes from [os.urandom] and the result
    of [datetime.now(timezone.utc)]. *)
Record draw : Type := Build {
  urandom16 : list Byte.byte;
  utc_now : datetime.t;
}.
End Os.

(** ** events.py: the event record *)

Module IntakeEvent.
Record t : Type := Build {
  event_id : string;
  type : EventType.t;
  submission_id : string;
  ts : datetime.t;
  actor : Actor.t;
  state : SubmissionState.t;
  payload : option pydict;
}.

(** [__post_init__] converts string values of [actor.kind], [state] and
    [type] to the enumeration members; in this embedding the fields hold
    members to begin with. *)

Definition to_dict (self : t) : pydict :=
  [("eventId", JStr (event_id self));
   ("type", JStr (EventType.value (type self)));
   ("submissionId", JStr (submission_id self));
   ("ts", JStr (datetime.isoformat (ts self)));
   ("actor", JDict (Actor.to_dict (actor self)));
   ("state", JStr (SubmissionState.value (state self)))]
  ++ match payload self with
     | Some p => [("payload", JDict p)]
     | None => []
     end.

Definition to_jsonl (self : t) : string := Json.dumps (JDict (to_dict self)).

(** [s.replace('Z', '+00:00')] *)
Fixpoint replace_Z (s : string) : string :=
  match s with
  | EmptyString => EmptyString
  | String c s' =>
      if Ascii.eqb c "Z"%char then "+00:00" +:+ replace_Z s'
      else String c (replace_Z s')
  end.

Definition from_dict (data : pydict) : outcome pyerr t :=
  ts_value ← dict_item "ts" data;
  ts_str ← as_str "ts" ts_value;
  ts ← match datetime.fromisoformat (replace_Z ts_str) with
       | Some d => Return d
       | None =>
           Raise (ValueError ("Invalid isoformat string: "
                              +:+ Py.repr_str (replace_Z ts_str)))
       end;
  actor_value ← dict_item "actor" data;
  actor ← match actor_value with
          | JDict d => Actor.from_dict d
          | _ => Raise (TypeError "actor is not a dict")
          end;
  event_id_value ← dict_item "eventId" data;
  event_id ← as_str "eventId" event_id_value;
  type_value ← dict_item "type" data;
  type_str ← as_str "type" type_value;
  type ← match EventType.of_value type_str with
         | Some ty => Return ty
         | None =>
             Raise (ValueError (Py.repr_str type_str
                                +:+ " is not a valid EventType"))
         end;
  submission_id_value ← dict_item "submissionId" data;
  submission_id ← as_str "submissionId" submission_id_value;
  state_value ← dict_item "state" data;
  state_str ← as_str "state" state_value;
  state ← match SubmissionState.of_value state_str with
          | Some st => Return st
          | None =>
              Raise (ValueError (Py.repr_str state_str
                                 +:+ " is not a valid SubmissionState"))
          end;
  payload ← as_optional_dict "payload" (dict_get "payload" data);
  Return {| event_id := event_id; type := type;
            submission_id := submission_id; ts := ts; actor := actor;
            state := state; payload := payload |}.


End IntakeEvent.

(** ** state_machine.py *)

Module StateMachine.
Import SubmissionState.

Record InvalidStateTransitionError : Type := {
  current_state : SubmissionState.t;
  target_state : SubmissionState.t;
  message : string;
}.

(** The dictionary has no entry for the three intermediate states. *)
Definition STATE_TO_EVENT_TYPE (s : SubmissionState.t) : option EventType.t :=
  match s with
  | DRAFT => Some EventType.SUBMISSION_CREATED
  | SUBMITTED => Some EventType.SUBMISSION_SUBMITTED
  | NEEDS_REVIEW => Some EventType.REVIEW_REQUESTED
  | APPROVED => Some EventType.REVIEW_APPROVED
  | REJECTED => Some EventType.REVIEW_REJECTED
  | FINALIZED => Some EventType.SUBMISSION_FINALIZED
  | CANCELLED => Some EventType.SUBMISSION_CANCELLED
  | EXPIRED => Some EventType.SUBMISSION_EXPIRED
  | IN_PROGRESS | AWAITING_INPUT | AWAITING_UPLOAD => None
  end.

(** Every member of the enumeration is a key of the dictionary. *)
Definition VALID_TRANSITIONS (s : SubmissionState.t) : list SubmissionState.t :=
  match s with
  | DRAFT => [IN_PROGRESS; CANCELLED; EXPIRED]
  | IN_PROGRESS =>
      [AWAITING_INPUT; AWAITING_UPLOAD; SUBMITTED; CANCELLED; EXPIRED]
  | AWAITING_INPUT => [IN_PROGRESS; CANCELLED; EXPIRED]
  | AWAITING_UPLOAD => [IN_PROGRESS; CANCELLED; EXPIRED]
  | SUBMITTED => [NEEDS_REVIEW; FINALIZED; REJECTED; CANCELLED; EXPIRED]
  | NEEDS_REVIEW => [APPROVED; REJECTED; CANCELLED; EXPIRED]
  | APPROVED => [FINALIZED; CANCELLED; EXPIRED]
  | REJECTED | FINALIZED | CANCELLED | EXPIRED => []
  end.

Record t : Type := Build {
  submission_id : string;
  state : SubmissionState.t;
  _events : list IntakeEvent.t;
}.

(** [SubmissionStateMachine(submission_id=sid, state=st)] *)
Definition new (sid : string) (st : SubmissionState.t) : t :=
  {| submission_id := sid; state := st; _events := [] |}.

Definition can_transition_to (target_state : SubmissionState.t) (self : t) : bool :=
  bool_decide (target_state ∈ VALID_TRANSITIONS (state self)).

Definition is_terminal (self : t) : bool :=
  Nat.eqb (length (VALID_TRANSITIONS (state self))) 0.

(** [sorted(...)] on strings: insertion by code point order. *)
Fixpoint insert_sorted (x : string) (l : list string) : list string :=
  match l with
  | [] => [x]
  | y :: l' => if String.leb x y then x :: l else y :: insert_sorted x l'
  end.

Definition sorted (l : list string) : list string :=
  fold_right insert_sorted [] l.

Definition invalid_transition_message
    (cur target_state : SubmissionState.t) : string :=
  match VALID_TRANSITIONS cur with
  | _ :: _ =>
      "Invalid state transition: cannot transition from '" +:+ value cur
      +:+ "' to '" +:+ value target_state +:+ "'. "
      +:+ "Valid transitions from '" +:+ value cur +:+ "' are: "
      +:+ String.concat ", " (sorted (map value (VALID_TRANSITIONS cur)))
  | [] =>
      "Invalid state transition: '" +:+ value cur
      +:+ "' is a terminal state, " +:+ "no transitions are allowed."
  end.

Definition _emit_event
    (new_state : SubmissionState.t) (actor : Actor.t)
    (old_state : SubmissionState.t) (os : Os.draw) (self : t) : t :=
  let event_type :=
    default EventType.FIELD_UPDATED (STATE_TO_EVENT_TYPE new_state) in
  let event_id :=
    "evt_" +:+ substring 0 16 (uuid.hex (uuid.uuid4 (Os.urandom16 os))) in
  let event :=
    {| IntakeEvent.event_id := event_id;
       IntakeEvent.type := event_type;
       IntakeEvent.submission_id := submission_id self;
       IntakeEvent.ts := Os.utc_now os;
       IntakeEvent.actor := actor;
       IntakeEvent.state := new_state;
       IntakeEvent.payload :=
         Some [("from_state", JStr (value old_state));
               ("to_state", JStr (value new_state))] |} in
  {| submission_id := submission_id self;
     state := state self;
     _events := _events self ++ [event] |}.

Definition transition_to
    (target_state : SubmissionState.t) (actor : Actor.t) (os : Os.draw)
    (self : t) : outcome InvalidStateTransitionError unit * t :=
  if negb (can_transition_to target_state self) then
    (Raise {| current_state := state self;
              target_state := target_state;
              message := invalid_transition_message (state self) target_state |},
     self)
  else
    let old_state := state self in
    let self := {| submission_id := submission_id self;
                   state := target_state;
                   _events := _events self |} in
    (Return tt, _emit_event target_state actor old_state os self).

Definition get_events (self : t) : list IntakeEvent.t := _events self.

(** A caller that performs a sequence of transitions and stops at the
    first one that raises. *)
Definition call : Type := SubmissionState.t * Actor.t * Os.draw.

Fixpoint run (calls : list call) (self : t) : option t :=
  match calls with
  | [] => Some self
  | (target, actor, os) :: rest =>
      match transition_to target actor os self with
      | (Return _, self') => run rest self'
      | (Raise _, _) => None
      end
  end.
(** [to_dict] writes the identifier and the state; the event log is not
    part of the dictionary. *)
Definition to_dict (self : t) : pydict :=
  [("submissionId", JStr (submission_id self));
   ("state", JStr (value (state self)))].

(** [from_dict]: [data["state"]] is read first, then the enumeration
    member is looked up, then [data["submissionId"]] is read; the
    constructor starts the machine with an empty event log. *)
Definition from_dict (data : pydict) : outcome pyerr t :=
  state_value ← dict_item "state" data;
  state_str ← as_str "state" state_value;
  state ← match of_value state_str with
          | Some st => Return st
          | None =>
              Raise (ValueError (Py.repr_str state_str
                                 +:+ " is not a valid SubmissionState"))
          end;
  sid_value ← dict_item "submissionId" data;
  sid ← as_str "submissionId" sid_value;
  Return (new sid state).
End StateMachine.

(** ** errors.py: field errors *)

Module FieldError.
(** [expected] and [received] are [Optional[Any]]; [None] is [JNull]. *)
Record t : Type := Build {
  path : string;
  code : FieldErrorCode.t;
  message : string;
  expected : json;
  received : json;
}.

Definition to_dict (self : t) : pydict :=
  [("path", JStr (path self));
   ("code", JStr (FieldErrorCode.value (code self)));
   ("message", JStr (message self))]
  ++ (if is_none (expected self) then [] else [("expected", expected self)])
  ++ (if is_none (received self) then [] else [("received", received self)]).

(** [from_dict] reads [code] first and looks the member up, then reads
    [path] and [message]; [expected] and [received] are optional.
    Values are read at the annotated types. *)
Definition from_dict (data : pydict) : outcome pyerr t :=
  code_value ← dict_item "code" data;
  code_str ← as_str "code" code_value;
  code ← match FieldErrorCode.of_value code_str with
         | Some c => Return c
         | None =>
             Raise (ValueError (Py.repr_str code_str
                                +:+ " is not a valid FieldErrorCode"))
         end;
  path_value ← dict_item "path" data;
  path ← as_str "path" path_value;
  message_value ← dict_item "message" data;
  message ← as_str "message" message_value;
  Return {| path := path; code := code; message := message;
            expected := default JNull (dict_get "expected" data);
            received := default JNull (dict_get "received" data) |}.
End FieldError.

(** ** The interface of the [jsonschema] library used by validation.py *)

Module jsonschema.
(** An element of [error.path]: a property name or an array index. *)
Inductive path_elem : Type :=
| Key (k : string)
| Index (i : Z).

Record ValidationError : Type := {
  message : string;
  path : list path_elem;
  validator : string;
  validator_value : json;
  instance : json;
}.

Record SchemaError : Type := { schema_message : string }.

(** The two entry points of [Draft7Validator] the engine calls:
    [check_schema], which raises [SchemaError] on a malformed schema,
    and [iter_errors], the diagnostics of an instance in the order the
    library yields them. *)
Record Draft7Validator : Type := {
  check_schema : json -> outcome SchemaError unit;
  iter_errors : json -> json -> list ValidationError;
}.
End jsonschema.

(** ** validation.py *)

Module ValidationResult.
Record t : Type := Build {
  is_valid : bool;
  errors : list FieldError.t;
  data : option json;
  missing_fields : option (list string);
  invalid_fields : option (list string);
}.

Definition to_dict (self : t) : pydict :=
  [("isValid", JBool (is_valid self));
   ("errors", JList (map (fun e => JDict (FieldError.to_dict e))
                         (errors self)))]
  ++ match data self with
     | Some d => if is_none d then [] else [("data", d)]
     | None => []
     end
  ++ match missing_fields self with
     | Some l => [("missingFields", JList (map JStr l))]
     | None => []
     end
  ++ match invalid_fields self with
     | Some l => [("invalidFields", JList (map JStr l))]
     | None => []
     end.
End ValidationResult.

Module ValidationEngine.
Import jsonschema.

Record t : Type := Build {
  schema : json;
  validator : json -> list ValidationError;
}.

Definition __init__ (lib : Draft7Validator) (schema : json)
    : outcome SchemaError t :=
  match check_schema lib schema with
  | Raise e => Raise e
  | Return _ =>
      Return {| schema := schema; validator := iter_errors lib schema |}
  end.

(** [str(p)] for an element of the path *)
Definition str_elem (p : path_elem) : string :=
  match p with
  | Key k => k
  | Index i => Py.str_int i
  end.

Definition one_of (v : string) (names : list string) : bool :=
  existsb (String.eqb v) names.

Definition _translate_error (error : ValidationError) : FieldError.t :=
  let path :=
    match jsonschema.path error with
    | _ :: _ => String.concat "." (map str_elem (jsonschema.path error))
    | [] => ""
    end in
  if String.eqb (jsonschema.validator error) "required" then
    let missing_prop :=
      if Py.contains Py.single_quote (jsonschema.message error)
      then nth 1 (Py.split Py.single_quote (jsonschema.message error)) ""
      else "field" in
    let full_path :=
      if negb (String.eqb path "") then path +:+ "." +:+ missing_prop
      else missing_prop in
    {| FieldError.path := full_path;
       FieldError.code := FieldErrorCode.REQUIRED;
       FieldError.message :=
         "Field '" +:+ full_path +:+ "' is required but was not provided";
       FieldError.expected := JStr "required field";
       FieldError.received := JNull |}
  else if String.eqb (jsonschema.validator error) "type" then
    let expected_type := validator_value error in
    let received_value := instance error in
    let received_type := Py.type_name received_value in
    {| FieldError.path := path;
       FieldError.code := FieldErrorCode.INVALID_TYPE;
       FieldError.message :=
         "Field '" +:+ path +:+ "' has invalid type. Expected "
         +:+ Py.str expected_type +:+ ", got " +:+ received_type;
       FieldError.expected := expected_type;
       FieldError.received := JStr received_type |}
  else if String.eqb (jsonschema.validator error) "format" then
    let expected_format := validator_value error in
    {| FieldError.path := path;
       FieldError.code := FieldErrorCode.INVALID_FORMAT;
       FieldError.message :=
         "Field '" +:+ path +:+ "' has invalid format. Expected format: "
         +:+ Py.str expected_format;
       FieldError.expected := expected_format;
       FieldError.received := instance error |}
  else if one_of (jsonschema.validator error) ["enum"; "const"] then
    let expected_values := validator_value error in
    {| FieldError.path := path;
       FieldError.code := FieldErrorCode.INVALID_VALUE;
       FieldError.message :=
         "Field '" +:+ path +:+ "' has invalid value. Must be one of: "
         +:+ Py.str expected_values;
       FieldError.expected := expected_values;
       FieldError.received := instance error |}
  else if String.eqb (jsonschema.validator error) "minLength" then
    let min_length := validator_value error in
    let actual_length :=
      if Py.truthy (instance error) then Py.len (instance error) else 0%Z in
    {| FieldError.path := path;
       FieldError.code := FieldErrorCode.TOO_SHORT;
       FieldError.message :=
         "Field '" +:+ path +:+ "' is too short. Minimum length: "
         +:+ Py.str min_length +:+ ", got: " +:+ Py.str_int actual_length;
       FieldError.expected :=
         JStr ("minimum " +:+ Py.str min_length +:+ " characters");
       FieldError.received :=
         JStr (Py.str_int actual_length +:+ " characters") |}
  else if String.eqb (jsonschema.validator error) "maxLength" then
    let max_length := validator_value error in
    let actual_length :=
      if Py.truthy (instance error) then Py.len (instance error) else 0%Z in
    {| FieldError.path := path;
       FieldError.code := FieldErrorCode.TOO_LONG;
       FieldError.message :=
         "Field '" +:+ path +:+ "' is too long. Maximum length: "
         +:+ Py.str max_length +:+ ", got: " +:+ Py.str_int actual_length;
       FieldError.expected :=
         JStr ("maximum " +:+ Py.str max_length +:+ " characters");
       FieldError.received :=
         JStr (Py.str_int actual_length +:+ " characters") |}
  else if one_of (jsonschema.validator error)
            ["minimum"; "maximum"; "exclusiveMinimum"; "exclusiveMaximum"] then
    let constraint_value := validator_value error in
    {| FieldError.path := path;
       FieldError.code := FieldErrorCode.INVALID_VALUE;
       FieldError.message :=
         "Field '" +:+ path +:+ "' violates " +:+ jsonschema.validator error
         +:+ " constraint: " +:+ Py.str constraint_value;
       FieldError.expected :=
         JStr (jsonschema.validator error +:+ ": " +:+ Py.str constraint_value);
       FieldError.received := instance error |}
  else if String.eqb (jsonschema.validator error) "pattern" then
    let pattern := validator_value error in
    {| FieldError.path := path;
       FieldError.code := FieldErrorCode.INVALID_FORMAT;
       FieldError.message :=
         "Field '" +:+ path +:+ "' does not match required pattern: "
         +:+ Py.str pattern;
       FieldError.expected := JStr ("pattern: " +:+ Py.str pattern);
       FieldError.received := instance error |}
  else
    {| FieldError.path := path;
       FieldError.code := FieldErrorCode.CUSTOM;
       FieldError.message :=
         "Field '" +:+ path +:+ "' validation failed: "
         +:+ jsonschema.message error;
       FieldError.expected := validator_value error;
       FieldError.received := instance error |}.

(** The three lists the loop of [validate] appends to. *)
Record collected : Type := {
  field_errors : list FieldError.t;
  missing : list string;
  invalid : list string;
}.

(** One iteration of [for error in errors]. *)
Definition collect (acc : collected) (error : ValidationError) : collected :=
  let field_error := _translate_error error in
  let field_errors := field_errors acc ++ [field_error] in
  if bool_decide (FieldError.code field_error = FieldErrorCode.REQUIRED) then
    {| field_errors := field_errors;
       missing := missing acc ++ [FieldError.path field_error];
       invalid := invalid acc |}
  else
    {| field_errors := field_errors;
       missing := missing acc;
       invalid := invalid acc ++ [FieldError.path field_error] |}.

Definition validate (self : t) (data : json) : ValidationResult.t :=
  let errors := validator self data in
  match errors with
  | [] =>
      {| ValidationResult.is_valid := true;
         ValidationResult.errors := [];
         ValidationResult.data := Some data;
         ValidationResult.missing_fields := Some [];
         ValidationResult.invalid_fields := Some [] |}
  | _ :: _ =>
      let acc :=
        fold_left collect errors
          {| field_errors := []; missing := []; invalid := [] |} in
      {| ValidationResult.is_valid := false;
         ValidationResult.errors := field_errors acc;
         ValidationResult.data := Some data;
         ValidationResult.missing_fields := Some (missing acc);
         ValidationResult.invalid_fields := Some (invalid acc) |}
  end.
End ValidationEngine.

(** ** A fragment of [jsonschema.Draft7Validator]

    The library is an external dependency of the package.  This module
    gives its behaviour on schemas built from the keywords [type],
    [properties], [required] and [items] only, which is enough to run the
    engine on concrete schemas: keywords are visited in the order of the
    schema dictionary, [properties] and [items] descend with the property
    name or the index appended to the path, and the messages are the
    library's. *)

Module Draft7.
Import jsonschema.

(** [validator.is_type(instance, type)] *)
Definition is_type (instance : json) (ty : string) : bool :=
  match instance with
  | JNull => String.eqb ty "null"
  | JBool _ => String.eqb ty "boolean"
  | JInt _ => String.eqb ty "integer" || String.eqb ty "number"
  | JStr _ => String.eqb ty "string"
  | JList _ => String.eqb ty "array"
  | JDict _ => String.eqb ty "object"
  end.

(** [ensure_list(types)] *)
Definition ensure_list (types : json) : list json :=
  match types with
  | JList xs => xs
  | other => [other]
  end.

Definition is_any_type (instance : json) (types : list json) : bool :=
  existsb (fun ty => match ty with
                     | JStr name => is_type instance name
                     | _ => false
                     end) types.

Definition type_error (types instance : json) (path : list path_elem)
    : ValidationError :=
  {| message := Py.repr instance +:+ " is not of type "
                +:+ String.concat ", " (map Py.repr (ensure_list types));
     path := path;
     validator := "type";
     validator_value := types;
     instance := instance |}.

Definition required_error (required : json) (property : string)
    (instance : json) (path : list path_elem) : ValidationError :=
  {| message := Py.repr_str property +:+ " is a required property";
     path := path;
     validator := "required";
     validator_value := required;
     instance := instance |}.

Fixpoint descend (fuel : nat) (schema instance : json)
    (path : list path_elem) {struct fuel} : list ValidationError :=
  match fuel, schema with
  | S fuel', JDict keywords =>
      flat_map
        (fun kw =>
           let k := fst kw in
           let v := snd kw in
           if String.eqb k "type" then
             if is_any_type instance (ensure_list v) then []
             else [type_error v instance path]
           else if String.eqb k "properties" then
             match instance, v with
             | JDict fields, JDict properties =>
                 flat_map
                   (fun p =>
                      match dict_get (fst p) fields with
                      | Some sub =>
                          descend fuel' (snd p) sub (path ++ [Key (fst p)])
                      | None => []
                      end)
                   properties
             | _, _ => []
             end
           else if String.eqb k "required" then
             match instance, v with
             | JDict fields, JList names =>
                 flat_map
                   (fun n =>
                      match n with
                      | JStr property =>
                          match dict_get property fields with
                          | Some _ => []
                          | None => [required_error v property instance path]
                          end
                      | _ => []
                      end)
                   names
             | _, _ => []
             end
           else if String.eqb k "items" then
             match instance with
             | JList items =>
                 concat
                   (imap (fun i item =>
                            descend fuel' v item (path ++ [Index (Z.of_nat i)]))
                         items)
             | _ => []
             end
           else [])
        keywords
  | _, _ => []
  end.

Fixpoint size (j : json) : nat :=
  match j with
  | JList xs => S (list_sum (map size xs))
  | JDict kvs => S (list_sum (map (fun kv => size (snd kv)) kvs))
  | _ => 1
  end.

Definition fragment : Draft7Validator :=
  {| check_schema :=
       fun schema =>
         match schema with
         | JDict _ | JBool _ => Return tt
         | _ => Raise {| schema_message :=
                           Py.repr schema
                           +:+ " is not of type 'object', 'boolean'" |}
         end;
     iter_errors := fun schema data => descend (size schema) schema data [] |}.
End Draft7.

(** ** errors.py: next actions, error details and the error envelope *)

(** A dictionary read as an object of the class [what]: subscripting
    anything else with a string key raises [TypeError]. *)
Definition as_dict (what : string) (j : json) : outcome pyerr pydict :=
  match j with
  | JDict d => Return d
  | _ => Raise (TypeError (what +:+ " is not a dict"))
  end.

(** [[f(x) for x in v]] for a JSON value [v]: a list gives its items;
    an empty dictionary or string gives nothing; the keys of a
    dictionary and the characters of a string are strings, on which
    [from_dict] raises [TypeError], as does iterating a number, a
    boolean or [None]. *)
Definition each_dict {A : Type} (what : string)
    (from_dict : pydict -> outcome pyerr A) (v : json)
    : outcome pyerr (list A) :=
  match v with
  | JList xs => comprehension (fun x => as_dict what x ≫= from_dict) xs
  | JDict [] | JStr EmptyString => Return []
  | _ => Raise (TypeError (what +:+ " is not a dict"))
  end.

Module NextAction.
Record t : Type := Build {
  action : NextActionType.t;
  field : option string;
  hint : option string;
  accept : option (list string);
  max_bytes : option Z;
}.

Definition to_dict (self : t) : pydict :=
  [("action", JStr (NextActionType.value (action self)))]
  ++ match field self with
     | Some f => [("field", JStr f)]
     | None => []
     end
  ++ match hint self with
     | Some h => [("hint", JStr h)]
     | None => []
     end
  ++ match accept self with
     | Some l => [("accept", JList (map JStr l))]
     | None => []
     end
  ++ match max_bytes self with
     | Some n => [("maxBytes", JInt n)]
     | None => []
     end.

Definition from_dict (data : pydict) : outcome pyerr t :=
  action_value ← dict_item "action" data;
  action_str ← as_str "action" action_value;
  action ← match NextActionType.of_value action_str with
           | Some a => Return a
           | None =>
               Raise (ValueError (Py.repr_str action_str
                                  +:+ " is not a valid NextActionType"))
           end;
  field ← as_optional_str "field" (dict_get "field" data);
  hint ← as_optional_str "hint" (dict_get "hint" data);
  accept ← as_optional_str_list "accept" (dict_get "accept" data);
  max_bytes ← as_optional_int "maxBytes" (dict_get "maxBytes" data);
  Return {| action := action; field := field; hint := hint;
            accept := accept; max_bytes := max_bytes |}.
End NextAction.

Module ErrorDetail.
Record t : Type := Build {
  type : ErrorType.t;
  retryable : bool;
  message : option string;
  fields : option (list FieldError.t);
  next_actions : option (list NextAction.t);
  retry_after_ms : option Z;
}.

Definition to_dict (self : t) : pydict :=
  [("type", JStr (ErrorType.value (type self)));
   ("retryable", JBool (retryable self))]
  ++ match message self with
     | Some m => [("message", JStr m)]
     | None => []
     end
  ++ match fields self with
     | Some fs =>
         [("fields", JList (map (fun f => JDict (FieldError.to_dict f)) fs))]
     | None => []
     end
  ++ match next_actions self with
     | Some acts =>
         [("nextActions",
           JList (map (fun a => JDict (NextAction.to_dict a)) acts))]
     | None => []
     end
  ++ match retry_after_ms self with
     | Some n => [("retryAfterMs", JInt n)]
     | None => []
     end.

(** [k in data and data[k] is not None], then the list comprehension. *)
Definition optional_list {A : Type} (what : string)
    (from_dict : pydict -> outcome pyerr A) (j : option json)
    : outcome pyerr (option (list A)) :=
  match j with
  | None | Some JNull => Return None
  | Some v =>
      match each_dict what from_dict v with
      | Return l => Return (Some l)
      | Raise e => Raise e
      end
  end.

(** [from_dict] reads [type] and looks the member up, builds the two
    lists, then reads [retryable] and the optional entries. *)
Definition from_dict (data : pydict) : outcome pyerr t :=
  type_value ← dict_item "type" data;
  type_str ← as_str "type" type_value;
  error_type ← match ErrorType.of_value type_str with
               | Some ty => Return ty
               | None =>
                   Raise (ValueError (Py.repr_str type_str
                                      +:+ " is not a valid ErrorType"))
               end;
  fields ← optional_list "FieldError" FieldError.from_dict
             (dict_get "fields" data);
  next_actions ← optional_list "NextAction" NextAction.from_dict
                   (dict_get "nextActions" data);
  retryable_value ← dict_item "retryable" data;
  retryable ← as_bool "retryable" retryable_value;
  message ← as_optional_str "message" (dict_get "message" data);
  retry_after_ms ← as_optional_int "retryAfterMs"
                     (dict_get "retryAfterMs" data);
  Return {| type := error_type; retryable := retryable; message := message;
            fields := fields; next_actions := next_actions;
            retry_after_ms := retry_after_ms |}.
End ErrorDetail.

Module IntakeError.
Record t : Type := Build {
  submission_id : string;
  state : SubmissionState.t;
  resume_token : string;
  error : ErrorDetail.t;
}.

(** The property [ok] *)
Definition ok (self : t) : bool := false.

Definition to_dict (self : t) : pydict :=
  [("ok", JBool false);
   ("submissionId", JStr (submission_id self));
   ("state", JStr (SubmissionState.value (state self)));
   ("resumeToken", JStr (resume_token self));
   ("error", JDict (ErrorDetail.to_dict (error self)))].

Definition from_dict (data : pydict) : outcome pyerr t :=
  state_value ← dict_item "state" data;
  state_str ← as_str "state" state_value;
  state ← match SubmissionState.of_value state_str with
          | Some st => Return st
          | None =>
              Raise (ValueError (Py.repr_str state_str
                                 +:+ " is not a valid SubmissionState"))
          end;
  error_value ← dict_item "error" data;
  error_dict ← as_dict "ErrorDetail" error_value;
  error_detail ← ErrorDetail.from_dict error_dict;
  submission_id_value ← dict_item "submissionId" data;
  submission_id ← as_str "submissionId" submission_id_value;
  resume_token_value ← dict_item "resumeToken" data;
  resume_token ← as_str "resumeToken" resume_token_value;
  Return {| submission_id := submission_id; state := state;
            resume_token := resume_token; error := error_detail |}.
End IntakeError.

(** ** The [secrets] and [base64] modules, as runtime.py uses them *)

Module secrets.
Definition urlsafe_alphabet : list ascii :=
  list_ascii_of_string
    "ABCDEFGHIJKLMNOPQRSTUVWXYZabcdefghijklmnopqrstuvwxyz0123456789-_".

Definition b64char (n : N) : ascii :=
  nth (N.to_nat n) urlsafe_alphabet "A"%char.

Definition pad : ascii := "="%char.

(** [base64.urlsafe_b64encode]: three bytes give four characters, the
    last group is padded with [=]. *)
Fixpoint urlsafe_b64encode (bs : list Byte.byte) : list ascii :=
  match bs with
  | [] => []
  | [a] =>
      let a := Byte.to_N a in
      [b64char (a / 4); b64char ((a mod 4) * 16); pad; pad]
  | [a; b] =>
      let a := Byte.to_N a in
      let b := Byte.to_N b in
      [b64char (a / 4); b64char ((a mod 4) * 16 + b / 16);
       b64char ((b mod 16) * 4); pad]
  | a :: b :: c :: rest =>
      let a := Byte.to_N a in
      let b := Byte.to_N b in
      let c := Byte.to_N c in
      b64char (a / 4) :: b64char ((a mod 4) * 16 + b / 16)
      :: b64char ((b mod 16) * 4 + c / 64) :: b64char (c mod 64)
      :: urlsafe_b64encode rest
  end%N.

Fixpoint drop_leading (c : ascii) (s : list ascii) : list ascii :=
  match s with
  | c' :: s' => if Ascii.eqb c c' then drop_leading c s' else s
  | [] => []
  end.

(** [s.rstrip(b'=')] *)
Definition rstrip (c : ascii) (s : list ascii) : list ascii :=
  rev (drop_leading c (rev s)).

(** [secrets.token_urlsafe(nbytes)], given the [nbytes] bytes that
    [token_bytes(nbytes)] returned. *)
Definition token_urlsafe (tok : list Byte.byte) : string :=
  string_of_list_ascii (rstrip pad (urlsafe_b64encode tok)).
End secrets.

(** ** runtime.py *)

Module IntakeRuntime.
Import SubmissionState.

(** The [actor] argument is [Union[Dict[str, Any], Actor]]; a
    dictionary carries the keys [kind] and [id] and optionally [name]
    and [metadata]. *)
Inductive actor_arg : Type :=
| ActorObj (a : Actor.t)
| ActorDict (kind : string) (id : string) (name : option string)
            (metadata : option pydict).

Inductive exn : Type :=
| ValueError (msg : string)
| InvalidTransition (e : StateMachine.InvalidStateTransitionError).

(** What one [create_submission] call reads from its environment:
    [os.urandom(16)] for the identifier, [secrets.token_bytes(32)] for
    the resume token, and the draw of the state-machine transition. *)
Record draw : Type := {
  id_bytes : list Byte.byte;
  token_bytes : list Byte.byte;
  transition : Os.draw;
}.

(** The dictionary stored under [self._submissions[submission_id]]. *)
Record submission : Type := {
  s_submission_id : string;
  s_intake_id : string;
  s_state : string;
  s_resume_token : string;
  s_created_by : pydict;
  s_ttl_ms : option Z;
}.

(** The success reply; [missingFields] is [None] when the key is
    absent from the dictionary. *)
Record response : Type := {
  ok : bool;
  submissionId : string;
  state : string;
  resumeToken : string;
  r_schema : json;
  missingFields : option (list string);
}.

Record t : Type := Build {
  intake_id : string;
  schema : json;
  _validation_engine : ValidationEngine.t;
  _submissions : gmap string submission;
  _state_machines : gmap string StateMachine.t;
  _resume_tokens : gmap string string;
  _submission_data : gmap string pydict;
  _idempotency_keys : gmap string string;
}.

Definition __init__ (lib : jsonschema.Draft7Validator)
    (intake_id : string) (schema : json) : outcome jsonschema.SchemaError t :=
  match ValidationEngine.__init__ lib schema with
  | Raise e => Raise e
  | Return engine =>
      Return {| intake_id := intake_id; schema := schema;
                _validation_engine := engine;
                _submissions := ∅; _state_machines := ∅;
                _resume_tokens := ∅; _submission_data := ∅;
                _idempotency_keys := ∅ |}
  end.

(** Assignments to the dictionaries of [self]. *)
Definition set_submission (k : string) (v : submission) (self : t) : t :=
  Build (intake_id self) (schema self) (_validation_engine self)
        (<[k := v]> (_submissions self)) (_state_machines self)
        (_resume_tokens self) (_submission_data self) (_idempotency_keys self).

Definition set_state_machine (k : string) (v : StateMachine.t) (self : t) : t :=
  Build (intake_id self) (schema self) (_validation_engine self)
        (_submissions self) (<[k := v]> (_state_machines self))
        (_resume_tokens self) (_submission_data self) (_idempotency_keys self).

Definition set_resume_token (k : string) (v : string) (self : t) : t :=
  Build (intake_id self) (schema self) (_validation_engine self)
        (_submissions self) (_state_machines self)
        (<[k := v]> (_resume_tokens self)) (_submission_data self)
        (_idempotency_keys self).

Definition set_submission_data (k : string) (v : pydict) (self : t) : t :=
  Build (intake_id self) (schema self) (_validation_engine self)
        (_submissions self) (_state_machines self)
        (_resume_tokens self) (<[k := v]> (_submission_data self))
        (_idempotency_keys self).

Definition set_idempotency_key (k : string) (v : string) (self : t) : t :=
  Build (intake_id self) (schema self) (_validation_engine self)
        (_submissions self) (_state_machines self)
        (_resume_tokens self) (_submission_data self)
        (<[k := v]> (_idempotency_keys self)).

(** Truth value of an [Optional[str]]: [None] and [""] are falsy. *)
Definition key_truthy (k : option string) : option string :=
  match k with
  | Some s => if String.eqb s "" then None else Some s
  | None => None
  end.

(** Truth value of an [Optional[Dict]]: [None] and [{}] are falsy. *)
Definition fields_truthy (f : option pydict) : option pydict :=
  match f with
  | Some (kv :: rest) => Some (kv :: rest)
  | _ => None
  end.

Definition _generate_resume_token (tok : list Byte.byte) : string :=
  "rt_" +:+ secrets.token_urlsafe tok.

Definition _get_submission_response (submission_id : string) (self : t)
    : outcome exn response :=
  match _submissions self !! submission_id with
  | None => Raise (ValueError ("Submission " +:+ submission_id +:+ " not found"))
  | Some submission =>
      match _state_machines self !! submission_id with
      | None =>
          Raise (ValueError
                   ("State machine for " +:+ submission_id +:+ " not found"))
      | Some state_machine =>
          Return {| ok := true;
                    submissionId := submission_id;
                    state := value (StateMachine.state state_machine);
                    resumeToken := s_resume_token submission;
                    r_schema := schema self;
                    missingFields := None |}
      end
  end.

(** The normalisation of a dictionary actor; [ActorKind(kind)] raises
    [ValueError] for a string that is no member's value. *)
Definition normalize_actor (actor : actor_arg) : outcome exn Actor.t :=
  match actor with
  | ActorObj a => Return a
  | ActorDict kind id name metadata =>
      match ActorKind.of_value kind with
      | None =>
          Raise (ValueError (Py.repr_str kind +:+ " is not a valid ActorKind"))
      | Some k =>
          Return {| Actor.kind := k; Actor.id := id; Actor.name := name;
                    Actor.metadata := metadata |}
      end
  end.

Definition create_submission
    (actor : actor_arg) (idempotency_key : option string)
    (initial_fields : option pydict) (ttl_ms : option Z)
    (os : draw) (self : t) : outcome exn response * t :=
  match key_truthy idempotency_key ≫= (fun k => _idempotency_keys self !! k) with
  | Some existing_submission_id =>
      (_get_submission_response existing_submission_id self, self)
  | None =>
  match normalize_actor actor with
  | Raise e => (Raise e, self)
  | Return actor =>
  let submission_id :=
    "sub_" +:+ substring 0 16 (uuid.hex (uuid.uuid4 (id_bytes os))) in
  let resume_token := _generate_resume_token (token_bytes os) in
  let state_machine := StateMachine.new submission_id DRAFT in
  let self := set_state_machine submission_id state_machine self in
  let self := set_resume_token resume_token submission_id self in
  let self :=
    set_submission_data submission_id (default [] (fields_truthy initial_fields))
                        self in
  let transitioned :=
    match fields_truthy initial_fields with
    | Some _ =>
        match StateMachine.transition_to IN_PROGRESS actor (transition os)
                                         state_machine with
        | (Return _, state_machine') =>
            Return (set_state_machine submission_id state_machine' self,
                    IN_PROGRESS)
        | (Raise e, state_machine') =>
            Raise (e, set_state_machine submission_id state_machine' self)
        end
    | None => Return (self, DRAFT)
    end in
  match transitioned with
  | Raise (e, self) => (Raise (InvalidTransition e), self)
  | Return (self, state) =>
  let self :=
    match key_truthy idempotency_key with
    | Some k => set_idempotency_key k submission_id self
    | None => self
    end in
  let missing :=
    match fields_truthy initial_fields with
    | Some fields =>
        let validation_result :=
          ValidationEngine.validate (_validation_engine self) (JDict fields) in
        if negb (ValidationResult.is_valid validation_result)
        then Some (default [] (ValidationResult.missing_fields validation_result))
        else None
    | None => None
    end in
  let response :=
    {| ok := true;
       submissionId := submission_id;
       state := value state;
       resumeToken := resume_token;
       r_schema := schema self;
       missingFields := missing |} in
  let self :=
    set_submission submission_id
      {| s_submission_id := submission_id;
         s_intake_id := intake_id self;
         s_state := value state;
         s_resume_token := resume_token;
         s_created_by := Actor.to_dict actor;
         s_ttl_ms := ttl_ms |}
      self in
  (Return response, self)
  end end end.
(** The reply of [get_submission]. *)
Record details : Type := {
  d_ok : bool;
  d_submissionId : string;
  d_intakeId : string;
  d_state : string;
  d_resumeToken : string;
  d_fields : pydict;
  d_events : list pydict;
  d_createdBy : pydict;
}.

Definition get_submission (submission_id : string) (self : t)
    : outcome exn details :=
  match _submissions self !! submission_id with
  | None => Raise (ValueError ("Submission " +:+ submission_id +:+ " not found"))
  | Some submission =>
      match _state_machines self !! submission_id with
      | None =>
          Raise (ValueError
                   ("State machine for " +:+ submission_id +:+ " not found"))
      | Some state_machine =>
          let data := default [] (_submission_data self !! submission_id) in
          let events := StateMachine.get_events state_machine in
          Return {| d_ok := true;
                    d_submissionId := submission_id;
                    d_intakeId := intake_id self;
                    d_state := value (StateMachine.state state_machine);
                    d_resumeToken := s_resume_token submission;
                    d_fields := data;
                    d_events := map IntakeEvent.to_dict events;
                    d_createdBy := s_created_by submission |}
      end
  end.
End IntakeRuntime.

(** ** events.py: the event emitter *)

Module PyExc.
(** What a listener can raise.  [except Exception] catches the instances
    of [Exception] and its subclasses; [KeyboardInterrupt], [SystemExit]
    and [GeneratorExit] derive from [BaseException] only. *)
Inductive t : Type :=
| Exception (cls : string) (msg : string)
| KeyboardInterrupt
| SystemExit (code : Z)
| GeneratorExit.

(** [isinstance(e, Exception)] *)
Definition is_exception (e : t) : bool :=
  match e with
  | Exception _ _ => true
  | KeyboardInterrupt | SystemExit _ | GeneratorExit => false
  end.
End PyExc.

Module EventEmitter.
Section Emitter.
(** The state listeners read and write (what they print, append to,
    count). *)
Context {W : Type}.

(** A listener is a callable: [lid] is its identity as an object, by
    which [list.remove] finds it, and [call] is what calling it does: it
    returns or raises, and changes the state.  A listener does not
    subscribe or unsubscribe listeners of the emitter that is calling
    it. *)
Record listener : Type := {
  lid : nat;
  call : IntakeEvent.t -> W -> outcome PyExc.t unit * W;
}.

Record t : Type := Build {
  _listeners : EventType.t -> option (list listener);
  _any_listeners : list listener;
}.

(** [EventEmitter()] *)
Definition new : t :=
  {| _listeners := fun _ => None; _any_listeners := [] |}.

(** [d[k] = v] on the dictionary of listener lists *)
Definition set_listeners (k : EventType.t) (v : list listener)
    (d : EventType.t -> option (list listener))
    : EventType.t -> option (list listener) :=
  fun k' => if decide (k' = k) then Some v else d k'.

Definition on (event_type : EventType.t) (l : listener) (self : t) : t :=
  let d :=
    match _listeners self event_type with
    | None => set_listeners event_type [] (_listeners self)
    | Some _ => _listeners self
    end in
  {| _listeners := set_listeners event_type (default [] (d event_type) ++ [l]) d;
     _any_listeners := _any_listeners self |}.

Definition on_any (l : listener) (self : t) : t :=
  {| _listeners := _listeners self;
     _any_listeners := _any_listeners self ++ [l] |}.

(** [ls.remove(l)] with the [ValueError] of an absent [l] caught: the
    first occurrence goes. *)
Fixpoint remove_first (l : listener) (ls : list listener) : list listener :=
  match ls with
  | [] => []
  | l' :: rest =>
      if Nat.eqb (lid l) (lid l') then rest else l' :: remove_first l rest
  end.

Definition off (event_type : EventType.t) (l : listener) (self : t) : t :=
  match _listeners self event_type with
  | Some ls =>
      {| _listeners := set_listeners event_type (remove_first l ls) (_listeners self);
         _any_listeners := _any_listeners self |}
  | None => self
  end.

Definition off_any (l : listener) (self : t) : t :=
  {| _listeners := _listeners self;
     _any_listeners := remove_first l (_any_listeners self) |}.

Definition clear (self : t) : t := new.

(** One [for listener in ...: try: listener(event) except Exception: pass]
    loop.  [log] records the identities of the listeners called so far. *)
Fixpoint dispatch (ls : list listener) (event : IntakeEvent.t)
    (w : W) (log : list nat) : outcome PyExc.t unit * W * list nat :=
  match ls with
  | [] => (Return tt, w, log)
  | l :: rest =>
      match call l event w with
      | (Return _, w') => dispatch rest event w' (log ++ [lid l])
      | (Raise e, w') =>
          if PyExc.is_exception e
          then dispatch rest event w' (log ++ [lid l])
          else (Raise e, w', log ++ [lid l])
      end
  end.

(** [emit(event)]: the outcome for the caller, the state afterwards and
    the identities of the listeners called, in the order of the calls. *)
Definition emit (event : IntakeEvent.t) (self : t) (w : W)
    : outcome PyExc.t unit * W * list nat :=
  let specific :=
    match _listeners self (IntakeEvent.type event) with
    | Some ls => dispatch ls event w []
    | None => (Return tt, w, [])
    end in
  match specific with
  | (Return _, w', log) => dispatch (_any_listeners self) event w' log
  | (Raise e, w', log) => (Raise e, w', log)
  end.

Definition listener_count (event_type : option EventType.t) (self : t) : nat :=
  match event_type with
  | Some ty => length (default [] (_listeners self ty))
  | None =>
      length (_any_listeners self)
      + list_sum (map (fun ty => length (default [] (_listeners self ty)))
                      EventType.members)
  end.
End Emitter.

Arguments listener : clear implicits.
Arguments t : clear implicits.
End EventEmitter.

(** * Properties *)

(** ** Identifier formats *)

Module Ident.
(** [s] with the prefix [p] removed, if it starts with [p]. *)
Fixpoint strip_prefix (p s : string) : option string :=
  match p, s with
  | EmptyString, _ => Some s
  | String a p', String b s' =>
      if Ascii.eqb a b then strip_prefix p' s' else None
  | String _ _, EmptyString => None
  end.

(** [s] is [prefix] followed by a body whose length satisfies [len_ok]
    and whose characters all satisfy [ok]. *)
Definition has_format (prefix : string) (ok : ascii -> bool)
    (len_ok : nat -> bool) (s : string) : bool :=
  match strip_prefix prefix s with
  | Some body =>
      len_ok (String.length body) && forallb ok (list_ascii_of_string body)
  | None => false
  end.

Definition is_hex (c : ascii) : bool :=
  existsb (Ascii.eqb c) uuid.hex_alphabet.

Definition is_urlsafe (c : ascii) : bool :=
  existsb (Ascii.eqb c) secrets.urlsafe_alphabet.

Lemma strip_prefix_app p s : strip_prefix p (p +:+ s) = Some s.
Proof.
  induction p as [| a p IH]; simpl; [reflexivity |].
  rewrite Ascii.eqb_refl. exact IH.
Qed.

Lemma has_format_intro prefix ok len_ok cs :
  len_ok (length cs) = true ->
  forallb ok cs = true ->
  has_format prefix ok len_ok (prefix +:+ string_of_list_ascii cs) = true.
Proof.
  intros Hlen Hall. unfold has_format. rewrite strip_prefix_app.
  rewrite list_ascii_of_string_of_list_ascii.
  assert (String.length (string_of_list_ascii cs) = length cs) as ->.
  { clear. induction cs; simpl; congruence. }
  by rewrite Hlen, Hall.
Qed.

Lemma substring_take n cs :
  substring 0 n (string_of_list_ascii cs) = string_of_list_ascii (take n cs).
Proof.
  revert cs. induction n as [| n IH]; intros [| c cs]; simpl;
    try reflexivity. by rewrite IH.
Qed.

Lemma hexdigit_is_hex d : is_hex (uuid.hexdigit d) = true.
Proof.
  unfold uuid.hexdigit. generalize (Z.to_nat d) as n. intros n.
  do 17 (destruct n as [| n]; [reflexivity |]).
  destruct n; reflexivity.
Qed.

Lemma hex_chars u :
  exists cs, uuid.hex u = string_of_list_ascii cs
             /\ length cs = 32 /\ forallb is_hex cs = true.
Proof.
  exists (map (uuid.nibble u) (rev (seq 0 32))). split; [reflexivity |].
  split; [reflexivity |].
  apply forallb_forall. intros c Hc. apply in_map_iff in Hc.
  destruct Hc as (i & <- & _). apply hexdigit_is_hex.
Qed.

(** The first sixteen characters of a [UUID.hex] behind a prefix. *)
Lemma hex16_format prefix u :
  has_format prefix is_hex (Nat.eqb 16)
             (prefix +:+ substring 0 16 (uuid.hex u)) = true.
Proof.
  destruct (hex_chars u) as (cs & -> & Hlen & Hall).
  rewrite substring_take. apply has_format_intro.
  - rewrite length_take, Hlen. reflexivity.
  - apply forallb_forall. intros c Hc.
    rewrite forallb_forall in Hall. apply Hall.
    apply list_elem_of_In. apply list_elem_of_In in Hc.
    by apply (subseteq_take 16 cs).
Qed.

Lemma hex16_length prefix u :
  String.length (prefix +:+ substring 0 16 (uuid.hex u))
  = String.length prefix + 16.
Proof.
  destruct (hex_chars u) as (cs & -> & Hlen & _).
  rewrite substring_take.
  assert (Happ : forall a b, String.length (a +:+ b)
                             = String.length a + String.length b).
  { clear. induction a; simpl; intros; [reflexivity | by rewrite IHa]. }
  rewrite Happ. f_equal.
  assert (Hl : forall l, String.length (string_of_list_ascii l) = length l).
  { clear. induction l; simpl; congruence. }
  rewrite Hl, length_take, Hlen. reflexivity.
Qed.

Lemma b64char_is_urlsafe n : is_urlsafe (secrets.b64char n) = true.
Proof.
  unfold secrets.b64char. generalize (N.to_nat n) as k. intros k.
  do 65 (destruct k as [| k]; [reflexivity |]).
  destruct k; reflexivity.
Qed.

Lemma pad_not_urlsafe : is_urlsafe secrets.pad = false.
Proof. reflexivity. Qed.

Lemma pad_neq_b64char n : Ascii.eqb secrets.pad (secrets.b64char n) = false.
Proof.
  destruct (Ascii.eqb secrets.pad (secrets.b64char n)) eqn:E; [| reflexivity].
  apply Ascii.eqb_eq in E.
  pose proof (b64char_is_urlsafe n) as H. rewrite <- E in H.
  discriminate H.
Qed.

Lemma drop_leading_pad l :
  secrets.drop_leading secrets.pad (secrets.pad :: l)
  = secrets.drop_leading secrets.pad l.
Proof. reflexivity. Qed.

Lemma drop_leading_b64char n l :
  secrets.drop_leading secrets.pad (secrets.b64char n :: l)
  = secrets.b64char n :: l.
Proof. cbn [secrets.drop_leading]. by rewrite pad_neq_b64char. Qed.

(** Thirty-two bytes encode to 43 characters of the alphabet and one
    pad, which [rstrip] removes. *)
Lemma token_urlsafe_32 tok :
  length tok = 32 ->
  exists cs, secrets.token_urlsafe tok = string_of_list_ascii cs
             /\ length cs = 43 /\ forallb is_urlsafe cs = true.
Proof.
  intros Hlen.
  do 32 (destruct tok as [| ? tok]; [discriminate Hlen |]).
  destruct tok; [| discriminate Hlen].
  unfold secrets.token_urlsafe, secrets.rstrip.
  cbn [secrets.urlsafe_b64encode rev app].
  rewrite drop_leading_pad, drop_leading_b64char.
  cbn [rev app].
  eexists. split; [reflexivity |]. split; [reflexivity |].
  cbn [forallb]. rewrite !b64char_is_urlsafe. reflexivity.
Qed.
End Ident.

(** ** The state machine *)

Module StateMachineProps.
Import SubmissionState StateMachine.

Definition sample_actor : Actor.t :=
  {| Actor.kind := ActorKind.AGENT; Actor.id := "bot_1";
     Actor.name := None; Actor.metadata := Some [] |}.

Definition sample_now : datetime.t :=
  {| datetime.year := 2024; datetime.month := 1; datetime.day := 15;
     datetime.hour := 10; datetime.minute := 30; datetime.second := 0;
     datetime.microsecond := 0; datetime.tzinfo := Some 0%Z |}.

Definition sample_os : Os.draw :=
  {| Os.urandom16 := repeat Byte.xa7 16; Os.utc_now := sample_now |}.

Example draft_to_in_progress :
  transition_to IN_PROGRESS sample_actor sample_os (new "sub_123" DRAFT)
  = (Return tt,
     {| submission_id := "sub_123"; state := IN_PROGRESS;
        _events :=
          [ {| IntakeEvent.event_id := "evt_a7a7a7a7a7a747a7";
               IntakeEvent.type := EventType.FIELD_UPDATED;
               IntakeEvent.submission_id := "sub_123";
               IntakeEvent.ts := sample_now;
               IntakeEvent.actor := sample_actor;
               IntakeEvent.state := IN_PROGRESS;
               IntakeEvent.payload :=
                 Some [("from_state", JStr "draft");
                       ("to_state", JStr "in_progress")] |} ] |}).
Proof. vm_compute. reflexivity. Qed.

Example draft_to_submitted_message :
  fst (transition_to SUBMITTED sample_actor sample_os (new "sub_123" DRAFT))
  = Raise {| current_state := DRAFT; target_state := SUBMITTED;
             message := "Invalid state transition: cannot transition from 'draft' to 'submitted'. Valid transitions from 'draft' are: cancelled, expired, in_progress" |}.
Proof. vm_compute. reflexivity. Qed.

Example finalized_message :
  invalid_transition_message FINALIZED DRAFT
  = "Invalid state transition: 'finalized' is a terminal state, no transitions are allowed.".
Proof. vm_compute. reflexivity. Qed.

Lemma can_transition_to_spec target self :
  can_transition_to target self = true
  <-> target ∈ VALID_TRANSITIONS (state self).
Proof. unfold can_transition_to. apply bool_decide_eq_true. Qed.

Lemma is_terminal_spec self :
  is_terminal self = true <-> VALID_TRANSITIONS (state self) = [].
Proof.
  unfold is_terminal. destruct (VALID_TRANSITIONS (state self)); simpl;
    split; intros; congruence.
Qed.

(** The four terminal states, and only they, have no outgoing edge. *)
Lemma is_terminal_states self :
  is_terminal self = true
  <-> state self ∈ [REJECTED; FINALIZED; CANCELLED; EXPIRED].
Proof.
  assert (is_terminal self
          = bool_decide (state self ∈ [REJECTED; FINALIZED; CANCELLED; EXPIRED]))
    as -> by (unfold is_terminal; destruct (state self); reflexivity).
  apply bool_decide_eq_true.
Qed.

(** The raising branch of [transition_to]. *)
Lemma transition_to_illegal self dst actor os :
  dst ∉ VALID_TRANSITIONS (state self) ->
  transition_to dst actor os self
  = (Raise {| current_state := state self; target_state := dst;
              message := invalid_transition_message (state self) dst |},
     self).
Proof.
  intros Hbad. unfold transition_to.
  assert (Hnot : can_transition_to dst self = false).
  { apply not_true_iff_false. by rewrite can_transition_to_spec. }
  by rewrite Hnot.
Qed.

(** C1. An illegal transition raises [InvalidStateTransitionError] and
    leaves the machine as it was: for every source state [state self]
    and target [dst] that is not an edge of the transition table (in
    particular for every target when the source is terminal),
    [transition_to] raises, the error records source and target, and
    the machine after the call is the machine before it, so its state
    is still the source and no event has been appended. *)
Theorem transition_to_illegal_raises
    (self : t) (dst : SubmissionState.t) (actor : Actor.t) (os : Os.draw) :
  dst ∉ VALID_TRANSITIONS (state self) \/ is_terminal self = true ->
  exists err self',
    transition_to dst actor os self = (Raise err, self')
    /\ current_state err = state self
    /\ target_state err = dst
    /\ self' = self
    /\ state self' = state self
    /\ get_events self' = get_events self.
Proof.
  intros Hbad.
  assert (Hout : dst ∉ VALID_TRANSITIONS (state self)).
  { destruct Hbad as [Hbad | Hterm]; [exact Hbad |].
    apply is_terminal_spec in Hterm. rewrite Hterm. apply not_elem_of_nil. }
  rewrite (transition_to_illegal _ _ actor os Hout).
  eexists _, self. repeat split; reflexivity.
Qed.

Lemma transition_to_illegal_raises_witness :
  exists err self',
    transition_to SUBMITTED sample_actor sample_os (new "sub_123" DRAFT)
    = (Raise err, self')
    /\ current_state err = DRAFT
    /\ target_state err = SUBMITTED
    /\ self' = new "sub_123" DRAFT
    /\ state self' = DRAFT
    /\ get_events self' = [].
Proof.
  apply (transition_to_illegal_raises (new "sub_123" DRAFT) SUBMITTED).
  left. simpl. apply (bool_decide_unpack _). vm_compute. exact I.
Defined.

(** What a legal transition does to the machine. *)
Lemma transition_to_legal self dst actor os :
  dst ∈ VALID_TRANSITIONS (state self) ->
  transition_to dst actor os self
  = (Return tt,
     _emit_event dst actor (state self) os
       {| submission_id := submission_id self; state := dst;
          _events := _events self |}).
Proof.
  intros Hok. apply can_transition_to_spec in Hok.
  unfold transition_to. rewrite Hok. reflexivity.
Qed.

Lemma transition_to_cases dst actor os self :
  (exists err, transition_to dst actor os self = (Raise err, self))
  \/ (dst ∈ VALID_TRANSITIONS (state self)
      /\ transition_to dst actor os self
         = (Return tt,
            _emit_event dst actor (state self) os
              {| submission_id := submission_id self; state := dst;
                 _events := _events self |})).
Proof.
  destruct (decide (dst ∈ VALID_TRANSITIONS (state self))) as [Hin | Hout].
  - right. split; [exact Hin | by apply transition_to_legal].
  - left. eexists. by apply transition_to_illegal.
Qed.

(** The event [_emit_event] mints. *)
Definition minted_event
    (new_state : SubmissionState.t) (actor : Actor.t)
    (old_state : SubmissionState.t) (os : Os.draw) (sid : string)
    : IntakeEvent.t :=
  {| IntakeEvent.event_id :=
       "evt_" +:+ substring 0 16 (uuid.hex (uuid.uuid4 (Os.urandom16 os)));
     IntakeEvent.type :=
       default EventType.FIELD_UPDATED (STATE_TO_EVENT_TYPE new_state);
     IntakeEvent.submission_id := sid;
     IntakeEvent.ts := Os.utc_now os;
     IntakeEvent.actor := actor;
     IntakeEvent.state := new_state;
     IntakeEvent.payload :=
       Some [("from_state", JStr (value old_state));
             ("to_state", JStr (value new_state))] |}.

Lemma _emit_event_eq new_state actor old_state os self :
  _emit_event new_state actor old_state os self
  = {| submission_id := submission_id self;
       state := state self;
       _events :=
         _events self
         ++ [minted_event new_state actor old_state os (submission_id self)] |}.
Proof. reflexivity. Qed.

(** The audit invariant of a machine. *)
Definition events_consistent (self : t) : Prop :=
  Forall (fun e => IntakeEvent.submission_id e = submission_id self)
         (_events self)
  /\ (forall e, last (_events self) = Some e ->
                IntakeEvent.state e = state self).

Lemma events_consistent_new sid st : events_consistent (new sid st).
Proof. split; [constructor | simpl; discriminate]. Qed.

Lemma events_consistent_step dst actor os self self' :
  events_consistent self ->
  transition_to dst actor os self = (Return tt, self') ->
  events_consistent self'.
Proof.
  intros [Hall Hlast] Hstep.
  destruct (transition_to_cases dst actor os self) as [[err He] | [_ He]];
    rewrite He in Hstep; [discriminate |].
  injection Hstep as <-. rewrite _emit_event_eq.
  set (ev := minted_event dst actor (state self) os (submission_id self)).
  split.
  - change (Forall (fun e => IntakeEvent.submission_id e = submission_id self)
                   (_events self ++ [ev])).
    apply Forall_app. split; [exact Hall |]. by repeat constructor.
  - intros e.
    change (last (_events self ++ [ev]) = Some e -> IntakeEvent.state e = dst).
    rewrite last_snoc. by intros [= <-].
Qed.

Lemma run_preserves calls : forall self self',
  events_consistent self -> run calls self = Some self' ->
  events_consistent self'.
Proof.
  induction calls as [| [[dst actor] os] rest IH]; intros self self' Hinv Hrun.
  - simpl in Hrun. by injection Hrun as <-.
  - simpl in Hrun.
    destruct (transition_to dst actor os self) as [[[] | err] mid] eqn:Hstep;
      [| discriminate].
    eapply IH; [| exact Hrun].
    eapply events_consistent_step; eauto.
Qed.

Lemma run_submission_id calls : forall self self',
  run calls self = Some self' -> submission_id self' = submission_id self.
Proof.
  induction calls as [| [[dst actor] os] rest IH]; intros self self' Hrun.
  - simpl in Hrun. by injection Hrun as <-.
  - simpl in Hrun.
    destruct (transition_to_cases dst actor os self) as [[err He] | [_ He]];
      rewrite He in Hrun; [discriminate |].
    apply IH in Hrun. exact Hrun.
Qed.

(** C2. After any sequence of successful [transition_to] calls on a
    freshly constructed machine, every event of the log carries the
    machine's [submission_id], and if the log is not empty its last
    event's [state] is the machine's current state. *)
Theorem events_carry_id_and_last_state
    (sid : string) (st : SubmissionState.t) (calls : list call) (self : t) :
  run calls (new sid st) = Some self ->
  submission_id self = sid
  /\ (forall e, e ∈ get_events self -> IntakeEvent.submission_id e = sid)
  /\ (forall e, last (get_events self) = Some e ->
                IntakeEvent.state e = state self).
Proof.
  intros Hrun.
  pose proof (run_submission_id _ _ _ Hrun) as Hsid. simpl in Hsid.
  destruct (run_preserves _ _ _ (events_consistent_new sid st) Hrun)
    as [Hall Hlast].
  split; [exact Hsid |]. split; [| exact Hlast].
  intros e He. rewrite Forall_forall in Hall.
  rewrite <- Hsid. apply Hall. exact He.
Qed.

Definition approval_calls : list call :=
  [(IN_PROGRESS, sample_actor, sample_os);
   (SUBMITTED, sample_actor, sample_os);
   (NEEDS_REVIEW, sample_actor, sample_os);
   (APPROVED, sample_actor, sample_os);
   (FINALIZED, sample_actor, sample_os)].

Definition approval_final : t :=
  Eval vm_compute in
    match run approval_calls (new "sub_123" DRAFT) with
    | Some m => m
    | None => new "" DRAFT
    end.

Example approval_types :
  map IntakeEvent.type (get_events approval_final)
  = [EventType.FIELD_UPDATED; EventType.SUBMISSION_SUBMITTED;
     EventType.REVIEW_REQUESTED; EventType.REVIEW_APPROVED;
     EventType.SUBMISSION_FINALIZED]
  /\ state approval_final = FINALIZED.
Proof. split; reflexivity. Qed.

Lemma events_carry_id_and_last_state_witness :
  submission_id approval_final = "sub_123"
  /\ (forall e, e ∈ get_events approval_final ->
                IntakeEvent.submission_id e = "sub_123")
  /\ (forall e, last (get_events approval_final) = Some e ->
                IntakeEvent.state e = state approval_final).
Proof.
  apply (events_carry_id_and_last_state "sub_123" DRAFT approval_calls).
  vm_compute. reflexivity.
Defined.

(** The table of section 4.1 of the specification: the event type
    selected by the target state of a transition.  [draft] is the
    target of no transition and has no row. *)
Definition event_type_by_target (dst : SubmissionState.t)
    : option EventType.t :=
  match dst with
  | IN_PROGRESS | AWAITING_INPUT | AWAITING_UPLOAD =>
      Some EventType.FIELD_UPDATED
  | SUBMITTED => Some EventType.SUBMISSION_SUBMITTED
  | NEEDS_REVIEW => Some EventType.REVIEW_REQUESTED
  | APPROVED => Some EventType.REVIEW_APPROVED
  | REJECTED => Some EventType.REVIEW_REJECTED
  | FINALIZED => Some EventType.SUBMISSION_FINALIZED
  | CANCELLED => Some EventType.SUBMISSION_CANCELLED
  | EXPIRED => Some EventType.SUBMISSION_EXPIRED
  | DRAFT => None
  end.

Lemma draft_is_no_target src : DRAFT ∉ VALID_TRANSITIONS src.
Proof.
  apply (bool_decide_unpack _). destruct src; vm_compute; exact I.
Qed.

Lemma minted_event_type dst actor old os sid :
  dst <> DRAFT ->
  event_type_by_target dst
  = Some (IntakeEvent.type (minted_event dst actor old os sid)).
Proof. intros Hne. destruct dst; try reflexivity. by destruct Hne. Qed.

(** C5. Every legal transition returns normally, moves the machine to
    the target and appends exactly one event; the type of that event is
    the one the table assigns to the target state, its payload is the
    dictionary with [from_state] the value of the source state and
    [to_state] the value of the target, and its [event_id] starts with
    [evt_]. *)
Theorem legal_transition_mints_event
    (self : t) (dst : SubmissionState.t) (actor : Actor.t) (os : Os.draw) :
  dst ∈ VALID_TRANSITIONS (state self) ->
  exists e self',
    transition_to dst actor os self = (Return tt, self')
    /\ state self' = dst
    /\ get_events self' = get_events self ++ [e]
    /\ event_type_by_target dst = Some (IntakeEvent.type e)
    /\ IntakeEvent.payload e
       = Some [("from_state", JStr (value (state self)));
               ("to_state", JStr (value dst))]
    /\ String.prefix "evt_" (IntakeEvent.event_id e) = true.
Proof.
  intros Hok.
  assert (Hne : dst <> DRAFT).
  { intros ->. by apply (draft_is_no_target (state self)). }
  rewrite (transition_to_legal _ _ actor os Hok), _emit_event_eq.
  eexists _, _. split; [reflexivity |].
  split; [reflexivity |]. split; [reflexivity |].
  split; [by apply minted_event_type |].
  split; reflexivity.
Qed.

Lemma legal_transition_mints_event_witness :
  exists e self',
    transition_to SUBMITTED sample_actor sample_os (new "sub_123" IN_PROGRESS)
    = (Return tt, self')
    /\ state self' = SUBMITTED
    /\ get_events self' = [] ++ [e]
    /\ Some EventType.SUBMISSION_SUBMITTED = Some (IntakeEvent.type e)
    /\ IntakeEvent.payload e
       = Some [("from_state", JStr "in_progress");
               ("to_state", JStr "submitted")]
    /\ String.prefix "evt_" (IntakeEvent.event_id e) = true.
Proof.
  apply (legal_transition_mints_event (new "sub_123" IN_PROGRESS) SUBMITTED).
  apply (bool_decide_unpack _). vm_compute. exact I.
Defined.
End StateMachineProps.

(** ** state_machine.py: the life cycle as a whole *)

Module LifecycleProps.
Import SubmissionState StateMachine StateMachineProps.

(** The machine after a sequence of [transition_to] calls by a caller
    that catches [InvalidStateTransitionError] and goes on. *)
Definition after (calls : list call) (self : t) : t :=
  fold_left (fun sm '(target, actor, os) =>
               snd (transition_to target actor os sm))
            calls self.

(** The state a log leads to from [from]. *)
Definition leads_to (from : SubmissionState.t) (evs : list IntakeEvent.t)
    : SubmissionState.t :=
  default from (IntakeEvent.state <$> last evs).

(** The log is a walk through the transition table that starts at
    [from]: every event records an edge of the table, with the state
    before it in [from_state] and its own state in [to_state], and has
    the type [STATE_TO_EVENT_TYPE.get(state, FIELD_UPDATED)]. *)
Fixpoint walk (from : SubmissionState.t) (evs : list IntakeEvent.t) : Prop :=
  match evs with
  | [] => True
  | e :: rest =>
      IntakeEvent.state e ∈ VALID_TRANSITIONS from
      /\ IntakeEvent.payload e
         = Some [("from_state", JStr (value from));
                 ("to_state", JStr (value (IntakeEvent.state e)))]
      /\ IntakeEvent.type e
         = default EventType.FIELD_UPDATED
             (STATE_TO_EVENT_TYPE (IntakeEvent.state e))
      /\ walk (IntakeEvent.state e) rest
  end.

Lemma leads_to_snoc from evs e :
  leads_to from (evs ++ [e]) = IntakeEvent.state e.
Proof. unfold leads_to. by rewrite last_snoc. Qed.

Lemma leads_to_cons from e evs :
  leads_to from (e :: evs) = leads_to (IntakeEvent.state e) evs.
Proof. unfold leads_to. rewrite last_cons. by destruct (last evs). Qed.

Lemma walk_snoc e : forall evs from,
  walk from evs ->
  IntakeEvent.state e ∈ VALID_TRANSITIONS (leads_to from evs) ->
  IntakeEvent.payload e
  = Some [("from_state", JStr (value (leads_to from evs)));
          ("to_state", JStr (value (IntakeEvent.state e)))] ->
  IntakeEvent.type e
  = default EventType.FIELD_UPDATED
      (STATE_TO_EVENT_TYPE (IntakeEvent.state e)) ->
  walk from (evs ++ [e]).
Proof.
  induction evs as [| e' evs IH]; intros from Hw Hin Hp Hty.
  - simpl. by repeat split.
  - destruct Hw as (Hin' & Hp' & Hty' & Hw).
    rewrite leads_to_cons in Hin, Hp.
    simpl. repeat split; [exact Hin' | exact Hp' | exact Hty' |].
    by apply IH.
Qed.

(** One call keeps the invariant, whether it returns or raises. *)
Lemma walk_step from dst actor os self :
  walk from (_events self) -> leads_to from (_events self) = state self ->
  let self' := snd (transition_to dst actor os self) in
  walk from (_events self')
  /\ leads_to from (_events self') = state self'
  /\ submission_id self' = submission_id self.
Proof.
  intros Hw Hl.
  destruct (transition_to_cases dst actor os self) as [[err He] | [Hin He]];
    rewrite He; cbn [snd]; [by repeat split |].
  rewrite _emit_event_eq.
  cbn [_events state submission_id].
  rewrite leads_to_snoc. split; [| by split].
  apply walk_snoc;
    cbn [minted_event IntakeEvent.state IntakeEvent.payload IntakeEvent.type];
    rewrite ?Hl; done.
Qed.

Lemma walk_after calls : forall from self,
  walk from (_events self) -> leads_to from (_events self) = state self ->
  walk from (_events (after calls self))
  /\ leads_to from (_events (after calls self)) = state (after calls self)
  /\ submission_id (after calls self) = submission_id self.
Proof.
  induction calls as [| [[dst actor] os] rest IH]; intros from self Hw Hl.
  - by repeat split.
  - destruct (walk_step from dst actor os self Hw Hl) as (Hw' & Hl' & Hs').
    destruct (IH from _ Hw' Hl') as (? & ? & Hs).
    cbn [after fold_left]. repeat split; try done.
    etrans; [exact Hs | exact Hs'].
Qed.

(** X1. Whatever calls are made on a machine constructed in state [st]
    (legal ones, illegal ones whose error is caught, in any order), its
    event log is a walk through the transition table from [st] to the
    current state: each event records one edge of [VALID_TRANSITIONS],
    its payload names the state before it and its own state, and the
    state of the last event (or [st], when the log is empty) is the
    state of the machine. *)
Theorem event_log_is_a_walk
    (sid : string) (st : SubmissionState.t) (calls : list call) :
  let sm := after calls (new sid st) in
  walk st (get_events sm)
  /\ leads_to st (get_events sm) = state sm
  /\ submission_id sm = sid.
Proof.
  apply (walk_after calls st (new sid st)); [exact I | reflexivity].
Qed.

Lemma after_terminal calls : forall self,
  is_terminal self = true -> after calls self = self.
Proof.
  induction calls as [| [[dst actor] os] rest IH]; intros self Hterm;
    [reflexivity |].
  cbn [after fold_left].
  rewrite transition_to_illegal.
  - cbn [snd]. by apply IH.
  - apply is_terminal_spec in Hterm. rewrite Hterm. apply not_elem_of_nil.
Qed.

(** X2. A terminal state is final: once the machine is in [rejected],
    [finalized], [cancelled] or [expired], no sequence of calls changes
    its state or appends an event. *)
Theorem terminal_state_is_final (calls : list call) (self : t) :
  state self ∈ [REJECTED; FINALIZED; CANCELLED; EXPIRED] ->
  after calls self = self.
Proof. intros H. apply after_terminal. by apply is_terminal_states. Qed.

Lemma terminal_state_is_final_witness :
  after approval_calls approval_final = approval_final.
Proof.
  apply (terminal_state_is_final approval_calls approval_final).
  apply (bool_decide_unpack _). vm_compute. exact I.
Defined.

Lemma walk_no_draft : forall evs from,
  walk from evs ->
  Forall (fun e => IntakeEvent.state e <> DRAFT) evs.
Proof.
  induction evs as [| e evs IH]; intros from Hw; [constructor |].
  destruct Hw as (Hin & _ & _ & Hw). constructor; [| by eapply IH].
  intros Hd. rewrite Hd in Hin. by apply (draft_is_no_target from).
Qed.

Lemma walk_types : forall evs from,
  walk from evs ->
  Forall (fun e => IntakeEvent.type e
                   = default EventType.FIELD_UPDATED
                       (STATE_TO_EVENT_TYPE (IntakeEvent.state e))) evs.
Proof.
  induction evs as [| e evs IH]; intros from Hw; [constructor |].
  destruct Hw as (_ & _ & Hty & Hw). constructor; [exact Hty | by eapply IH].
Qed.

(** X3. No transition leads back to [draft], and the machine never
    emits [submission.created]: in the log of a machine, after any
    calls, no event has state [draft] or type [submission.created]
    (the entry of [STATE_TO_EVENT_TYPE] for [draft] is never used);
    and a machine found in [draft] was constructed in [draft] and has
    an empty log. *)
Theorem draft_is_never_entered
    (sid : string) (st : SubmissionState.t) (calls : list call) :
  let sm := after calls (new sid st) in
  Forall (fun e => IntakeEvent.state e <> DRAFT
                   /\ IntakeEvent.type e <> EventType.SUBMISSION_CREATED)
         (get_events sm)
  /\ (state sm = DRAFT -> get_events sm = [] /\ st = DRAFT).
Proof.
  intros sm.
  destruct (walk_after calls st (new sid st) I eq_refl) as (Hw & Hl & _).
  fold sm in Hw, Hl. unfold get_events.
  pose proof (walk_no_draft _ _ Hw) as Hnd.
  pose proof (walk_types _ _ Hw) as Hty.
  split.
  - rewrite Forall_forall in Hnd, Hty. apply Forall_forall. intros e He.
    specialize (Hnd e He). specialize (Hty e He).
    split; [exact Hnd |].
    rewrite Hty. by destruct (IntakeEvent.state e).
  - intros Hd. rewrite Hd in Hl. unfold leads_to in Hl.
    destruct (last (_events sm)) as [e |] eqn:Hlast.
    + cbn in Hl. rewrite Forall_forall in Hnd.
      destruct (Hnd e); [| exact Hl].
      apply last_Some in Hlast as [l' ->]. set_solver.
    + apply last_None in Hlast. by split.
Qed.

(** X4. A submission can be cancelled, and can expire, exactly as long
    as its state is not terminal. *)
Theorem cancellable_until_terminal (self : t) :
  (can_transition_to CANCELLED self = negb (is_terminal self))
  /\ (can_transition_to EXPIRED self = negb (is_terminal self)).
Proof.
  unfold can_transition_to, is_terminal.
  destruct (state self); split; vm_compute; reflexivity.
Qed.

(** X28. [is_terminal] and [can_transition_to] agree: a machine is
    terminal exactly when [can_transition_to] refuses every target, and
    a machine that is not terminal has a target it accepts. *)
Theorem terminal_iff_no_target (self : t) :
  (is_terminal self = true
   <-> forall dst, can_transition_to dst self = false)
  /\ (is_terminal self = false
      <-> exists dst, can_transition_to dst self = true).
Proof.
  unfold is_terminal, can_transition_to. split; split.
  - intros Hterm dst. destruct (state self); try discriminate Hterm;
      by destruct dst.
  - intros Hnone. destruct (state self); try reflexivity.
    all: try (specialize (Hnone CANCELLED); vm_compute in Hnone;
              discriminate Hnone).
  - intros Hlive. exists CANCELLED.
    by destruct (state self); try discriminate Hlive.
  - intros [dst Hdst].
    destruct (state self); try reflexivity; destruct dst;
      vm_compute in Hdst; discriminate Hdst.
Qed.

Lemma of_value_value st : of_value (value st) = Some st.
Proof. destruct st; reflexivity. Qed.

(** X5. [from_dict (to_dict sm)] returns a machine with the identifier
    and the state of [sm] and an empty event log: the dictionary form
    does not carry the audit trail.  The result is [sm] itself exactly
    when [sm] has no events. *)
Theorem from_dict_to_dict_drops_events (sm : t) :
  from_dict (to_dict sm) = Return (new (submission_id sm) (state sm))
  /\ (new (submission_id sm) (state sm) = sm <-> get_events sm = []).
Proof.
  split.
  - unfold from_dict, to_dict.
    cbn [dict_item dict_get String.eqb Ascii.eqb Bool.eqb mbind outcome_bind
         as_str].
    rewrite of_value_value. reflexivity.
  - destruct sm as [sid st evs]. unfold new, get_events. cbn.
    split; [by intros [= <-] | by intros ->].
Qed.

(** X6. What [from_dict] rejects: a dictionary without [state] raises
    [KeyError('state')], whether or not [submissionId] is there; a
    [state] that is the value of no member raises [ValueError]; with a
    good [state], a missing [submissionId] raises
    [KeyError('submissionId')]. *)
Theorem from_dict_rejects (data : pydict) :
  (dict_get "state" data = None -> from_dict data = Raise (KeyError "state"))
  /\ (forall s,
        dict_get "state" data = Some (JStr s) -> of_value s = None ->
        from_dict data
        = Raise (ValueError (Py.repr_str s
                             +:+ " is not a valid SubmissionState")))
  /\ (forall s st,
        dict_get "state" data = Some (JStr s) -> of_value s = Some st ->
        dict_get "submissionId" data = None ->
        from_dict data = Raise (KeyError "submissionId")).
Proof.
  unfold from_dict, dict_item. repeat split.
  - by intros ->.
  - intros s -> Hs. cbn [mbind outcome_bind as_str]. by rewrite Hs.
  - intros s st -> Hs Hid. cbn [mbind outcome_bind as_str].
    rewrite Hs. cbn [mbind outcome_bind]. by rewrite Hid.
Qed.

Lemma from_dict_rejects_witness :
  from_dict [("submissionId", JStr "sub_1")] = Raise (KeyError "state")
  /\ from_dict [("submissionId", JStr "sub_1"); ("state", JStr "done")]
     = Raise (ValueError "'done' is not a valid SubmissionState")
  /\ from_dict [("state", JStr "draft")] = Raise (KeyError "submissionId").
Proof.
  split; [| split].
  - exact (proj1 (from_dict_rejects [("submissionId", JStr "sub_1")]) eq_refl).
  - exact (proj1 (proj2 (from_dict_rejects
                           [("submissionId", JStr "sub_1");
                            ("state", JStr "done")]))
                 "done" eq_refl eq_refl).
  - exact (proj2 (proj2 (from_dict_rejects [("state", JStr "draft")]))
                 "draft" DRAFT eq_refl eq_refl eq_refl).
Defined.
End LifecycleProps.

(** ** The validation engine *)

Module ValidationProps.
Import jsonschema ValidationEngine.

Definition is_required (fe : FieldError.t) : bool :=
  bool_decide (FieldError.code fe = FieldErrorCode.REQUIRED).

(** The loop of [validate], as list operations. *)
Lemma fold_collect errors : forall acc,
  let out := fold_left collect errors acc in
  field_errors out = field_errors acc ++ map _translate_error errors
  /\ missing out
     = missing acc
       ++ map FieldError.path
            (filter (fun fe => is_required fe = true)
                    (map _translate_error errors))
  /\ invalid out
     = invalid acc
       ++ map FieldError.path
            (filter (fun fe => is_required fe = false)
                    (map _translate_error errors)).
Proof.
  induction errors as [| error errors IH]; intros acc; cbn zeta.
  - cbn. by rewrite !app_nil_r.
  - cbn [fold_left map]. destruct (IH (collect acc error)) as (Hf & Hm & Hi).
    rewrite Hf, Hm, Hi. unfold collect. fold (is_required (_translate_error error)).
    rewrite !filter_cons.
    destruct (is_required (_translate_error error)) eqn:Hreq;
      repeat case_decide; try congruence; cbn;
      rewrite <- ?app_assoc; cbn; repeat split; reflexivity.
Qed.

Lemma validate_invalid self data :
  validator self data <> [] ->
  let fes := map _translate_error (validator self data) in
  validate self data
  = {| ValidationResult.is_valid := false;
       ValidationResult.errors := fes;
       ValidationResult.data := Some data;
       ValidationResult.missing_fields :=
         Some (map FieldError.path
                   (filter (fun fe => is_required fe = true) fes));
       ValidationResult.invalid_fields :=
         Some (map FieldError.path
                   (filter (fun fe => is_required fe = false) fes)) |}.
Proof.
  intros Hne. cbn zeta. unfold validate.
  destruct (validator self data) as [| e es] eqn:Herrs; [by destruct Hne |].
  destruct (fold_collect (e :: es)
              {| field_errors := []; missing := []; invalid := [] |})
    as (Hf & Hm & Hi).
  cbn zeta in Hf, Hm, Hi. by rewrite Hf, Hm, Hi.
Qed.

Lemma validate_valid self data :
  validator self data = [] ->
  validate self data
  = {| ValidationResult.is_valid := true;
       ValidationResult.errors := [];
       ValidationResult.data := Some data;
       ValidationResult.missing_fields := Some [];
       ValidationResult.invalid_fields := Some [] |}.
Proof. intros Hnil. unfold validate. by rewrite Hnil. Qed.

Lemma filter_partition_length {A} (f : A -> bool) (l : list A) :
  length l
  = length (filter (fun x => f x = true) l)
    + length (filter (fun x => f x = false) l).
Proof.
  induction l as [| x l IH]; [reflexivity |].
  rewrite !filter_cons. destruct (f x) eqn:E;
    repeat case_decide; try congruence; cbn; lia.
Qed.

(** *** Concrete runs on the [Draft7] fragment *)

Definition engine_for (schema : json) : t :=
  {| schema := schema;
     validator := iter_errors Draft7.fragment schema |}.

Definition contact_schema : json :=
  JDict [("type", JStr "object");
         ("required", JList [JStr "name"; JStr "email"]);
         ("properties",
          JDict [("name", JDict [("type", JStr "string")]);
                 ("email", JDict [("type", JStr "string")])])].

Example contact_engine_init :
  __init__ Draft7.fragment contact_schema = Return (engine_for contact_schema).
Proof. reflexivity. Qed.

(** A missing field and an invalid one in the same document. *)
Example missing_and_invalid_mixed :
  validate (engine_for contact_schema) (JDict [("email", JInt 5)])
  = {| ValidationResult.is_valid := false;
       ValidationResult.errors :=
         [ {| FieldError.path := "name";
              FieldError.code := FieldErrorCode.REQUIRED;
              FieldError.message :=
                "Field 'name' is required but was not provided";
              FieldError.expected := JStr "required field";
              FieldError.received := JNull |};
           {| FieldError.path := "email";
              FieldError.code := FieldErrorCode.INVALID_TYPE;
              FieldError.message :=
                "Field 'email' has invalid type. Expected string, got int";
              FieldError.expected := JStr "string";
              FieldError.received := JStr "int" |} ];
       ValidationResult.data := Some (JDict [("email", JInt 5)]);
       ValidationResult.missing_fields := Some ["name"];
       ValidationResult.invalid_fields := Some ["email"] |}.
Proof. vm_compute. reflexivity. Qed.

Definition nested_schema : json :=
  JDict [("type", JStr "object");
         ("properties",
          JDict [("contact",
                  JDict [("type", JStr "object");
                         ("properties",
                          JDict [("email", JDict [("type", JStr "string")]);
                                 ("phone", JDict [("type", JStr "string")])]);
                         ("required", JList [JStr "email"; JStr "phone"])]);
                 ("tags",
                  JDict [("type", JStr "array");
                         ("items", JDict [("type", JStr "string")])])]);
         ("required", JList [JStr "contact"])].

(** Paths join property names and array indices with dots. *)
Example nested_paths :
  let r := validate (engine_for nested_schema)
             (JDict [("contact", JDict [("email", JBool true)]);
                     ("tags", JList [JStr "x"; JNull])]) in
  map FieldError.path (ValidationResult.errors r)
  = ["contact.email"; "contact.phone"; "tags.1"]
  /\ ValidationResult.missing_fields r = Some ["contact.phone"]
  /\ ValidationResult.invalid_fields r = Some ["contact.email"; "tags.1"].
Proof. cbv zeta. repeat split; vm_compute; reflexivity. Qed.

(** *** C3 *)

(** A schema with a property [a] that requires [b] and a property whose
    name is the five characters [a.b]. *)
Definition dotted_schema : json :=
  JDict [("type", JStr "object");
         ("properties",
          JDict [("a", JDict [("type", JStr "object");
                              ("required", JList [JStr "b"])]);
                 ("a.b", JDict [("type", JStr "string")])])].

Definition dotted_data : json :=
  JDict [("a", JDict []); ("a.b", JInt 5)].

(** The path lists of a result are not always disjoint: the missing
    property [b] of [a] and the ill-typed property [a.b] are both
    reported under the path [a.b]. *)
Lemma missing_and_invalid_share_a_path :
  __init__ Draft7.fragment dotted_schema = Return (engine_for dotted_schema)
  /\ iter_errors Draft7.fragment dotted_schema dotted_data
     = [ {| message := "'b' is a required property";
            path := [Key "a"];
            jsonschema.validator := "required";
            validator_value := JList [JStr "b"];
            instance := JDict [] |};
         {| message := "5 is not of type 'string'";
            path := [Key "a.b"];
            jsonschema.validator := "type";
            validator_value := JStr "string";
            instance := JInt 5 |} ]
  /\ ValidationResult.missing_fields
       (validate (engine_for dotted_schema) dotted_data) = Some ["a.b"]
  /\ ValidationResult.invalid_fields
       (validate (engine_for dotted_schema) dotted_data) = Some ["a.b"]
  /\ ~ (forall p,
          p ∈ default [] (ValidationResult.missing_fields
                            (validate (engine_for dotted_schema) dotted_data)) ->
          p ∉ default [] (ValidationResult.invalid_fields
                            (validate (engine_for dotted_schema) dotted_data))).
Proof.
  split; [reflexivity |]. split; [vm_compute; reflexivity |].
  assert (Hm : ValidationResult.missing_fields
                 (validate (engine_for dotted_schema) dotted_data)
               = Some ["a.b"]) by (vm_compute; reflexivity).
  assert (Hi : ValidationResult.invalid_fields
                 (validate (engine_for dotted_schema) dotted_data)
               = Some ["a.b"]) by (vm_compute; reflexivity).
  split; [exact Hm |]. split; [exact Hi |].
  rewrite Hm, Hi. cbn. intros Hdisj.
  apply (Hdisj "a.b"); apply list_elem_of_singleton; reflexivity.
Qed.

(** C3 (amended: the path lists need not be disjoint).  The result of
    [validate] carries the translation of every diagnostic of the
    validator, in the validator's order, not only of the first;
    [missing_fields] is the list of the paths of the errors of code
    [required] and [invalid_fields] the list of the paths of all other
    errors, so that each error contributes its path to exactly one of
    the two lists and the number of errors is the sum of their lengths;
    and the result is valid exactly when the validator reports nothing,
    in which case both lists and the error list are empty and [data] is
    the input document. *)
Theorem validate_reports_all_and_partitions (self : t) (document : json) :
  let r := validate self document in
  let fes := map _translate_error (validator self document) in
  ValidationResult.errors r = fes
  /\ length (ValidationResult.errors r) = length (validator self document)
  /\ ValidationResult.missing_fields r
     = Some (map FieldError.path
                 (filter (fun fe => is_required fe = true) fes))
  /\ ValidationResult.invalid_fields r
     = Some (map FieldError.path
                 (filter (fun fe => is_required fe = false) fes))
  /\ length (ValidationResult.errors r)
     = length (default [] (ValidationResult.missing_fields r))
       + length (default [] (ValidationResult.invalid_fields r))
  /\ (ValidationResult.is_valid r = true <-> validator self document = [])
  /\ (ValidationResult.is_valid r = true ->
      ValidationResult.errors r = []
      /\ ValidationResult.missing_fields r = Some []
      /\ ValidationResult.invalid_fields r = Some []
      /\ ValidationResult.data r = Some document).
Proof.
  cbv zeta.
  destruct (validator self document) as [| e es] eqn:Herrs.
  - rewrite (validate_valid _ _ Herrs). cbn. repeat split; reflexivity.
  - assert (Hne : validator self document <> []) by (by rewrite Herrs).
    pose proof (validate_invalid self document Hne) as Hv.
    cbv zeta in Hv. rewrite Hv, Herrs. clear Hv. cbn [ValidationResult.errors
      ValidationResult.missing_fields ValidationResult.invalid_fields
      ValidationResult.is_valid ValidationResult.data default from_option].
    split; [reflexivity |]. split; [by rewrite length_map |].
    split; [reflexivity |]. split; [reflexivity |].
    split.
    { unfold id. rewrite !(length_map FieldError.path).
      apply (filter_partition_length is_required). }
    split; [split; discriminate | discriminate].
Qed.

(** *** C10 *)



(** *** C7 *)

(** What [_translate_error] makes of a type mismatch. *)
Lemma translate_type_error error :
  jsonschema.validator error = "type" ->
  let fe := _translate_error error in
  FieldError.code fe = FieldErrorCode.INVALID_TYPE
  /\ FieldError.expected fe = validator_value error
  /\ FieldError.received fe = JStr (Py.type_name (instance error)).
Proof.
  intros Hv. cbv zeta. unfold _translate_error. rewrite Hv.
  cbn. repeat split; reflexivity.
Qed.

Definition json_type_names : list string :=
  ["string"; "number"; "integer"; "boolean"; "array"; "object"; "null"].

(** [type(x).__name__] is never the name of a JSON type. *)
Lemma type_name_is_no_json_type_name (x : json) :
  Py.type_name x ∉ json_type_names.
Proof.
  apply (bool_decide_unpack _). destruct x; vm_compute; exact I.
Qed.

Definition name_schema : json :=
  JDict [("type", JStr "object");
         ("properties", JDict [("name", JDict [("type", JStr "string")])]);
         ("required", JList [JStr "name"])].

(** C7 at the input of [test_string_expected_number_received]: the
    schema declares [name] a string and the document gives the integer
    123.  The error has code [invalid_type] and [expected] is the
    declared type, but [received] is Python's type name [int], where
    the test and the specification want the JSON type name [number]. *)
Theorem type_mismatch_received_is_python_type_name :
  validate (engine_for name_schema) (JDict [("name", JInt 123)])
  = {| ValidationResult.is_valid := false;
       ValidationResult.errors :=
         [ {| FieldError.path := "name";
              FieldError.code := FieldErrorCode.INVALID_TYPE;
              FieldError.message :=
                "Field 'name' has invalid type. Expected string, got int";
              FieldError.expected := JStr "string";
              FieldError.received := JStr "int" |} ];
       ValidationResult.data := Some (JDict [("name", JInt 123)]);
       ValidationResult.missing_fields := Some [];
       ValidationResult.invalid_fields := Some ["name"] |}
  /\ JStr "int" <> JStr "number".
Proof. split; [vm_compute; reflexivity | discriminate]. Qed.
End ValidationProps.

(** ** errors.py: the dictionary forms *)

Module ErrorsProps.

Lemma FieldErrorCode_of_value c :
  FieldErrorCode.of_value (FieldErrorCode.value c) = Some c.
Proof. destruct c; reflexivity. Qed.

Lemma NextActionType_of_value a :
  NextActionType.of_value (NextActionType.value a) = Some a.
Proof. destruct a; reflexivity. Qed.

Lemma ErrorType_of_value e : ErrorType.of_value (ErrorType.value e) = Some e.
Proof. destruct e; reflexivity. Qed.

Lemma state_of_value s :
  SubmissionState.of_value (SubmissionState.value s) = Some s.
Proof. destruct s; reflexivity. Qed.

Lemma strings_of_strs l : strings_of (map JStr l) = Some l.
Proof. induction l as [| s l IH]; [reflexivity |]. cbn. by rewrite IH. Qed.

Ltac read_keys :=
  cbn [app dict_item dict_get String.eqb Ascii.eqb Bool.eqb mbind
       outcome_bind as_str as_bool as_dict as_optional_str as_optional_int
       as_optional_str_list default from_option id].

Lemma field_error_from_to (e : FieldError.t) :
  FieldError.from_dict (FieldError.to_dict e) = Return e.
Proof.
  destruct e as [p c m ex rc].
  unfold FieldError.from_dict, FieldError.to_dict.
  cbn [FieldError.path FieldError.code FieldError.message
       FieldError.expected FieldError.received].
  read_keys. rewrite FieldErrorCode_of_value. read_keys.
  destruct ex, rc; reflexivity.
Qed.

Lemma next_action_from_to (a : NextAction.t) :
  NextAction.from_dict (NextAction.to_dict a) = Return a.
Proof.
  destruct a as [act f h acc mb].
  unfold NextAction.from_dict, NextAction.to_dict.
  cbn [NextAction.action NextAction.field NextAction.hint NextAction.accept
       NextAction.max_bytes].
  read_keys. rewrite NextActionType_of_value. read_keys.
  destruct f, h, acc, mb; read_keys; rewrite ?strings_of_strs; reflexivity.
Qed.

(** A list comprehension over the dictionaries of a list of objects
    gives the objects back. *)
Lemma each_dict_from_to {A : Type} what
    (to_dict : A -> pydict) (from_dict : pydict -> outcome pyerr A) xs :
  (forall x, from_dict (to_dict x) = Return x) ->
  each_dict what from_dict (JList (map (fun x => JDict (to_dict x)) xs))
  = Return xs.
Proof.
  intros Hrt. cbn [each_dict]. induction xs as [| x xs IH]; [reflexivity |].
  cbn [map comprehension as_dict mbind outcome_bind].
  by rewrite Hrt, IH.
Qed.

Lemma error_detail_from_to (d : ErrorDetail.t) :
  ErrorDetail.from_dict (ErrorDetail.to_dict d) = Return d.
Proof.
  destruct d as [ty rt m fs acts ms].
  unfold ErrorDetail.from_dict, ErrorDetail.to_dict.
  cbn [ErrorDetail.type ErrorDetail.retryable ErrorDetail.message
       ErrorDetail.fields ErrorDetail.next_actions
       ErrorDetail.retry_after_ms].
  read_keys. rewrite ErrorType_of_value. read_keys.
  destruct m, fs as [fs |], acts as [acts |], ms; read_keys;
    unfold ErrorDetail.optional_list;
    rewrite ?(each_dict_from_to "FieldError" FieldError.to_dict
                FieldError.from_dict fs field_error_from_to),
            ?(each_dict_from_to "NextAction" NextAction.to_dict
                NextAction.from_dict acts next_action_from_to);
    reflexivity.
Qed.

Lemma intake_error_from_to (e : IntakeError.t) :
  IntakeError.from_dict (IntakeError.to_dict e) = Return e.
Proof.
  destruct e as [sid st tok d].
  unfold IntakeError.from_dict, IntakeError.to_dict.
  cbn [IntakeError.submission_id IntakeError.state IntakeError.resume_token
       IntakeError.error].
  read_keys. rewrite state_of_value. read_keys.
  rewrite error_detail_from_to. reflexivity.
Qed.

(** X17. [FieldError.from_dict] undoes [FieldError.to_dict]: every
    field error is read back from its dictionary unchanged.  The keys
    [expected] and [received] are in the dictionary exactly when the
    fields are not [None]. *)
Theorem field_error_round_trip (e : FieldError.t) :
  FieldError.from_dict (FieldError.to_dict e) = Return e
  /\ (dict_get "expected" (FieldError.to_dict e) = None
      <-> FieldError.expected e = JNull)
  /\ (dict_get "received" (FieldError.to_dict e) = None
      <-> FieldError.received e = JNull).
Proof.
  split; [apply field_error_from_to |].
  destruct e as [p c m ex rc]. unfold FieldError.to_dict. cbn.
  destruct ex, rc; cbn; repeat split; congruence.
Qed.

(** X18. [NextAction.from_dict] undoes [NextAction.to_dict] for every
    combination of present and absent optional fields; an empty
    [accept] list is written as [[]] and kept apart from an absent
    one. *)
Theorem next_action_round_trip (a : NextAction.t) :
  NextAction.from_dict (NextAction.to_dict a) = Return a
  /\ dict_get "accept" (NextAction.to_dict a)
     = (fun l => JList (map JStr l)) <$> NextAction.accept a.
Proof.
  split; [apply next_action_from_to |].
  destruct a as [act f h acc mb]. unfold NextAction.to_dict. cbn.
  by destruct f, h, acc, mb.
Qed.

(** X19. [ErrorDetail.from_dict] undoes [ErrorDetail.to_dict],
    through the nested lists of field errors and next actions. *)
Theorem error_detail_round_trip (d : ErrorDetail.t) :
  ErrorDetail.from_dict (ErrorDetail.to_dict d) = Return d.
Proof. apply error_detail_from_to. Qed.

(** X20. [IntakeError.from_dict] undoes [IntakeError.to_dict], and
    the dictionary of an error envelope always says [ok: False]. *)
Theorem intake_error_round_trip (e : IntakeError.t) :
  IntakeError.from_dict (IntakeError.to_dict e) = Return e
  /\ dict_get "ok" (IntakeError.to_dict e) = Some (JBool (IntakeError.ok e))
  /\ IntakeError.ok e = false.
Proof. split; [apply intake_error_from_to | by split]. Qed.
End ErrorsProps.

(** ** validation.py: the translation of diagnostics *)

Module TranslationProps.
Import jsonschema ValidationEngine.

(** The keywords that [_translate_error] tells apart. *)
Definition value_keywords : list string :=
  ["enum"; "const"; "minimum"; "maximum"; "exclusiveMinimum";
   "exclusiveMaximum"].

Definition known_keywords : list string :=
  ["required"; "type"; "format"; "pattern"; "minLength"; "maxLength"]
  ++ value_keywords.

(** The code [c] is the one the keyword [kw] is translated to. *)
Definition table (kw : string) (c : FieldErrorCode.t) : Prop :=
  (c = FieldErrorCode.REQUIRED <-> kw = "required")
  /\ (c = FieldErrorCode.INVALID_TYPE <-> kw = "type")
  /\ (c = FieldErrorCode.INVALID_FORMAT <-> kw ∈ ["format"; "pattern"])
  /\ (c = FieldErrorCode.INVALID_VALUE <-> kw ∈ value_keywords)
  /\ (c = FieldErrorCode.TOO_SHORT <-> kw = "minLength")
  /\ (c = FieldErrorCode.TOO_LONG <-> kw = "maxLength")
  /\ (c = FieldErrorCode.CUSTOM <-> kw ∉ known_keywords)
  /\ c ∉ [FieldErrorCode.FILE_REQUIRED; FieldErrorCode.FILE_TOO_LARGE;
          FieldErrorCode.FILE_WRONG_TYPE].

Ltac known_keyword :=
  subst; cbn [FieldError.code orb]; apply (bool_decide_unpack _);
  vm_compute; exact I.

(** X21. The code of a translated diagnostic is fixed by the keyword
    that failed: [required] gives [required], [type] gives
    [invalid_type], [format] and [pattern] give [invalid_format],
    [enum], [const] and the four numeric bounds give [invalid_value],
    [minLength] gives [too_short], [maxLength] gives [too_long], and
    every other keyword gives [custom]; the three file codes are never
    produced. *)
Theorem codes_by_keyword (error : ValidationError) :
  table (jsonschema.validator error)
        (FieldError.code (_translate_error error)).
Proof.
  unfold _translate_error, one_of. cbn [existsb orb].
  generalize (jsonschema.validator error) as kw. intros kw.
  destruct (String.eqb_spec kw "required") as [-> | H1]; [known_keyword |].
  destruct (String.eqb_spec kw "type") as [-> | H2]; [known_keyword |].
  destruct (String.eqb_spec kw "format") as [-> | H3]; [known_keyword |].
  destruct (String.eqb_spec kw "enum") as [-> | H4]; [known_keyword |].
  destruct (String.eqb_spec kw "const") as [-> | H5]; [known_keyword |].
  cbn [orb].
  destruct (String.eqb_spec kw "minLength") as [-> | H6]; [known_keyword |].
  destruct (String.eqb_spec kw "maxLength") as [-> | H7]; [known_keyword |].
  destruct (String.eqb_spec kw "minimum") as [-> | H8]; [known_keyword |].
  destruct (String.eqb_spec kw "maximum") as [-> | H9]; [known_keyword |].
  destruct (String.eqb_spec kw "exclusiveMinimum") as [-> | H10];
    [known_keyword |].
  destruct (String.eqb_spec kw "exclusiveMaximum") as [-> | H11];
    [known_keyword |].
  cbn [orb].
  destruct (String.eqb_spec kw "pattern") as [-> | H12]; [known_keyword |].
  cbn [FieldError.code]. unfold table, known_keywords, value_keywords.
  cbn [app]. rewrite !not_elem_of_cons, !elem_of_cons, !elem_of_nil.
  repeat split; intros; try discriminate; try tauto; try done.
Qed.

(** *** The name of a missing property *)

Lemma split_piece c (piece rest : string) :
  Py.contains c piece = false ->
  Py.split c (piece +:+ String c rest) = piece :: Py.split c rest.
Proof.
  induction piece as [| c' piece IH]; intros Hc; simpl.
  - by rewrite Ascii.eqb_refl.
  - simpl in Hc. apply orb_false_iff in Hc as [Hne Hc].
    rewrite Hne, (IH Hc). reflexivity.
Qed.

Lemma split_nonempty c s : Py.split c s <> [].
Proof.
  destruct s as [| c' s]; cbn; [discriminate |].
  destruct (Ascii.eqb c c'); [discriminate |].
  destruct (Py.split c s); discriminate.
Qed.

(** The dotted form of [error.path]. *)
Definition dotted (path : list path_elem) : string :=
  String.concat "." (map str_elem path).

(** X22. The library words a missing property [name] as
    ['name' is a required property].  For such a diagnostic, with a
    [name] that has no single quote in it, the translated error has
    code [required] and the path of the property: [name] itself at the
    root (and whenever the dotted path of the object is empty), the
    dotted path of the object followed by [.name] otherwise; its
    message quotes that path, [expected] is ['required field'] and
    [received] is [None]. *)
Theorem required_error_names_the_property
    (error : ValidationError) (name tail : string) :
  jsonschema.validator error = "required" ->
  jsonschema.message error
  = String Py.single_quote (name +:+ String Py.single_quote tail) ->
  Py.contains Py.single_quote name = false ->
  let full_path :=
    if String.eqb (dotted (jsonschema.path error)) "" then name
    else dotted (jsonschema.path error) +:+ "." +:+ name in
  _translate_error error
  = {| FieldError.path := full_path;
       FieldError.code := FieldErrorCode.REQUIRED;
       FieldError.message :=
         "Field '" +:+ full_path +:+ "' is required but was not provided";
       FieldError.expected := JStr "required field";
       FieldError.received := JNull |}.
Proof.
  intros Hkw Hmsg Hname. cbv zeta. unfold _translate_error.
  rewrite Hkw, Hmsg. cbn [String.eqb Ascii.eqb Bool.eqb].
  assert (Hc : Py.contains Py.single_quote
                 (String Py.single_quote
                    (name +:+ String Py.single_quote tail)) = true)
    by reflexivity.
  rewrite Hc.
  assert (Hs : nth 1 (Py.split Py.single_quote
                        (String Py.single_quote
                           (name +:+ String Py.single_quote tail))) ""
               = name).
  { change (String Py.single_quote (name +:+ String Py.single_quote tail))
      with ("" +:+ String Py.single_quote
                     (name +:+ String Py.single_quote tail)).
    rewrite (split_piece Py.single_quote "") by reflexivity.
    rewrite (split_piece _ _ _ Hname). reflexivity. }
  rewrite Hs.
  assert (Hp : match jsonschema.path error with
               | [] => ""
               | _ :: _ =>
                   String.concat "." (map str_elem (jsonschema.path error))
               end = dotted (jsonschema.path error)).
  { unfold dotted. by destruct (jsonschema.path error). }
  rewrite Hp. by destruct (String.eqb (dotted (jsonschema.path error)) "").
Qed.

Lemma required_error_names_the_property_witness :
  _translate_error
    (Draft7.required_error (JList [JStr "email"]) "email" (JDict [])
                           [Key "contact"])
  = {| FieldError.path := "contact.email";
       FieldError.code := FieldErrorCode.REQUIRED;
       FieldError.message :=
         "Field 'contact.email' is required but was not provided";
       FieldError.expected := JStr "required field";
       FieldError.received := JNull |}.
Proof.
  apply (required_error_names_the_property
           (Draft7.required_error (JList [JStr "email"]) "email" (JDict [])
                                  [Key "contact"])
           "email" " is a required property"); reflexivity.
Defined.

(** A property name with a single quote in it is worded by the library
    with double quotes, and the text between the first two single
    quotes of the message is not the name. *)
Example quoted_name_is_cut :
  FieldError.path
    (_translate_error
       (Draft7.required_error (JList [JStr "o'brien's"]) "o'brien's"
                              (JDict []) []))
  = "brien".
Proof. vm_compute. reflexivity. Qed.

(** *** The dictionary of a result *)

(** The three optional fields of a result are always filled in. *)
Lemma validate_reports_parts self data :
  ValidationResult.data (validate self data) = Some data
  /\ exists missing invalid,
       ValidationResult.missing_fields (validate self data) = Some missing
       /\ ValidationResult.invalid_fields (validate self data) = Some invalid
       /\ length (ValidationResult.errors (validate self data))
          = length missing + length invalid.
Proof.
  destruct (validator self data) as [| e es] eqn:Herrs.
  - rewrite (ValidationProps.validate_valid _ _ Herrs). split; [reflexivity |].
    by exists [], [].
  - rewrite ValidationProps.validate_invalid by (by rewrite Herrs).
    split; [reflexivity |]. eexists _, _.
    split; [reflexivity |]. split; [reflexivity |].
    cbn [ValidationResult.errors]. rewrite !(length_map FieldError.path).
    apply (ValidationProps.filter_partition_length ValidationProps.is_required).
Qed.

(** X23. The dictionary form of what [validate] returns: [isValid]
    and [errors] are always there, [missingFields] and [invalidFields]
    too, [data] unless the document is [None]; [isValid] is true
    exactly when [errors] is empty; and every entry of [errors] is read
    back by [FieldError.from_dict] as the error it was written from. *)
Theorem validate_to_dict (self : t) (document : json) :
  let r := validate self document in
  let d := ValidationResult.to_dict r in
  dict_get "isValid" d
  = Some (JBool (bool_decide (ValidationResult.errors r = [])))
  /\ dict_get "errors" d
     = Some (JList (map (fun e => JDict (FieldError.to_dict e))
                        (ValidationResult.errors r)))
  /\ comprehension FieldError.from_dict
       (map FieldError.to_dict (ValidationResult.errors r))
     = Return (ValidationResult.errors r)
  /\ dict_get "data" d
     = (if is_none document then None else Some document)
  /\ (exists missing invalid,
        dict_get "missingFields" d = Some (JList (map JStr missing))
        /\ dict_get "invalidFields" d = Some (JList (map JStr invalid))
        /\ length (ValidationResult.errors r)
           = length missing + length invalid).
Proof.
  cbv zeta.
  assert (Hrt : forall l,
            comprehension FieldError.from_dict (map FieldError.to_dict l)
            = Return l).
  { induction l as [| e l IH]; [reflexivity |].
    cbn [map comprehension].
    by rewrite ErrorsProps.field_error_from_to, IH. }
  split; [| split; [| split; [apply Hrt |]]].
  - destruct (validator self document) as [| e es] eqn:Herrs.
    + by rewrite (ValidationProps.validate_valid _ _ Herrs).
    + rewrite ValidationProps.validate_invalid by (by rewrite Herrs).
      by rewrite Herrs.
  - destruct (validator self document) as [| e es] eqn:Herrs.
    + by rewrite (ValidationProps.validate_valid _ _ Herrs).
    + by rewrite ValidationProps.validate_invalid by (by rewrite Herrs).
  - destruct (validate_reports_parts self document)
      as (Hdata & missing & invalid & Hm & Hi & Hlen).
    unfold ValidationResult.to_dict. rewrite Hdata, Hm, Hi.
    split; [by destruct (is_none document) |].
    exists missing, invalid.
    split; [by destruct (is_none document) |].
    split; [by destruct (is_none document) | exact Hlen].
Qed.
End TranslationProps.

(** ** The runtime orchestrator *)

Module RuntimeProps.
Import SubmissionState IntakeRuntime Ident.

(** The identifier and the token a creation mints from its draw. *)
Definition fresh_id (os : draw) : string :=
  "sub_" +:+ substring 0 16 (uuid.hex (uuid.uuid4 (id_bytes os))).

Definition fresh_token (os : draw) : string :=
  _generate_resume_token (token_bytes os).

(** The state machine a creation leaves behind. *)
Definition fresh_machine (a : Actor.t) (fields : option pydict) (os : draw)
    : StateMachine.t :=
  match fields_truthy fields with
  | Some _ =>
      StateMachine._emit_event IN_PROGRESS a DRAFT (transition os)
        (StateMachine.Build (fresh_id os) IN_PROGRESS [])
  | None => StateMachine.new (fresh_id os) DRAFT
  end.

Definition seen (key : option string) (self : t) : option string :=
  key_truthy key ≫= (fun k => _idempotency_keys self !! k).

Lemma create_submission_seen actor key fields ttl os self sid :
  seen key self = Some sid ->
  create_submission actor key fields ttl os self
  = (_get_submission_response sid self, self).
Proof.
  intros Hseen. unfold create_submission. fold (seen key self).
  by rewrite Hseen.
Qed.

Lemma create_submission_bad_actor actor key fields ttl os self e :
  seen key self = None ->
  normalize_actor actor = Raise e ->
  create_submission actor key fields ttl os self = (Raise e, self).
Proof.
  intros Hseen Hact. unfold create_submission. fold (seen key self).
  by rewrite Hseen, Hact.
Qed.

(** A creation under an unseen key with a well-formed actor returns,
    and this is what it stores. *)
Lemma create_submission_fresh actor key fields ttl os self a :
  seen key self = None ->
  normalize_actor actor = Return a ->
  exists r self' rec,
    create_submission actor key fields ttl os self = (Return r, self')
    /\ submissionId r = fresh_id os
    /\ resumeToken r = fresh_token os
    /\ state r = value (StateMachine.state (fresh_machine a fields os))
    /\ _state_machines self'
       = <[fresh_id os := fresh_machine a fields os]> (_state_machines self)
    /\ _submissions self' = <[fresh_id os := rec]> (_submissions self)
    /\ s_resume_token rec = fresh_token os
    /\ _idempotency_keys self'
       = match key_truthy key with
         | Some k => <[k := fresh_id os]> (_idempotency_keys self)
         | None => _idempotency_keys self
         end.
Proof.
  intros Hseen Hact. unfold create_submission. fold (seen key self).
  rewrite Hseen, Hact. fold (fresh_id os). fold (fresh_token os).
  unfold fresh_machine.
  destruct (fields_truthy fields) as [fs |] eqn:Hf.
  - rewrite (StateMachineProps.transition_to_legal
               (StateMachine.new (fresh_id os) DRAFT) IN_PROGRESS a
               (transition os))
      by (apply (bool_decide_unpack _); vm_compute; exact I).
    destruct (key_truthy key) as [k |]; eexists _, _, _;
      (split; [reflexivity |]); cbn;
      rewrite insert_insert_eq; repeat split; reflexivity.
  - destruct (key_truthy key) as [k |]; eexists _, _, _;
      (split; [reflexivity |]); cbn; repeat split; reflexivity.
Qed.


Lemma _get_submission_response_returns sid self r :
  _get_submission_response sid self = Return r ->
  exists rec sm,
    _submissions self !! sid = Some rec
    /\ _state_machines self !! sid = Some sm
    /\ r = {| ok := true; submissionId := sid;
              state := value (StateMachine.state sm);
              resumeToken := s_resume_token rec;
              r_schema := schema self; missingFields := None |}.
Proof.
  unfold _get_submission_response.
  destruct (_submissions self !! sid) as [rec |]; [| discriminate].
  destruct (_state_machines self !! sid) as [sm |]; [| discriminate].
  intros [= <-]. by exists rec, sm.
Qed.




(** *** Concrete runs *)

Definition sample_schema : json :=
  JDict [("type", JStr "object");
         ("required", JList [JStr "name"; JStr "email"]);
         ("properties",
          JDict [("name", JDict [("type", JStr "string")]);
                 ("email", JDict [("type", JStr "string")])])].

(** [IntakeRuntime(intake_id="test", schema=sample_schema)] *)
Definition sample_runtime : t :=
  {| intake_id := "test"; schema := sample_schema;
     _validation_engine :=
       {| ValidationEngine.schema := sample_schema;
          ValidationEngine.validator :=
            jsonschema.iter_errors Draft7.fragment sample_schema |};
     _submissions := ∅; _state_machines := ∅; _resume_tokens := ∅;
     _submission_data := ∅; _idempotency_keys := ∅ |}.

Example sample_runtime_init :
  __init__ Draft7.fragment "test" sample_schema = Return sample_runtime.
Proof. reflexivity. Qed.

Definition bot : actor_arg := ActorDict "agent" "bot_1" None None.

Definition draw_of (b : Byte.byte) : draw :=
  {| id_bytes := repeat b 16; token_bytes := repeat b 32;
     transition := {| Os.urandom16 := repeat b 16;
                      Os.utc_now := StateMachineProps.sample_now |} |}.

Definition reply_id (o : outcome exn response) : option string :=
  match o with
  | Return r => Some (submissionId r)
  | Raise _ => None
  end.


Lemma pair_with_fst {A B} (p : A * B) (a : A) : fst p = a -> p = (a, snd p).
Proof. intros <-. by destruct p. Qed.

(** Scenario 5 of the specification: two creations under the key [k1]
    and a third under [k2]. *)
Definition after_k1 : t :=
  snd (create_submission bot (Some "k1") None None (draw_of Byte.x01)
                         sample_runtime).

Example idempotent_creation :
  reply_id (fst (create_submission bot (Some "k1") None None
                   (draw_of Byte.x01) sample_runtime))
  = Some "sub_0101010101014101"
  /\ reply_id (fst (create_submission bot (Some "k1") None None
                      (draw_of Byte.x02) after_k1))
     = Some "sub_0101010101014101"
  /\ reply_id (fst (create_submission bot (Some "k2") None None
                      (draw_of Byte.x02) after_k1))
     = Some "sub_0202020202024202".
Proof. repeat split; vm_compute; reflexivity. Qed.




(** The runtime does not check a drawn identifier against the ones in
    use: a creation whose draw repeats an earlier one replies with the
    identifier of the earlier submission. *)
Example repeated_draw_collides :
  reply_id (fst (create_submission bot (Some "k2") None None
                   (draw_of Byte.x01) after_k1))
  = Some "sub_0101010101014101".
Proof. vm_compute. reflexivity. Qed.

(** *** Identifier formats *)

(** Every minted identifier has its format: a [submissionId] is [sub_]
    and the first 16 hexadecimal digits of a version 4 UUID, and so is
    an [event_id] behind [evt_]; they are not followed by 32 digits. *)
Lemma minted_ids_have_16_digits :
  match fst (create_submission bot None None None (draw_of Byte.x01)
                               sample_runtime) with
  | Return r =>
      submissionId r = "sub_0101010101014101"
      /\ has_format "sub_" is_hex (Nat.eqb 32) (submissionId r) = false
  | Raise _ => False
  end
  /\ match StateMachine.transition_to IN_PROGRESS
             StateMachineProps.sample_actor StateMachineProps.sample_os
             (StateMachine.new "sub_123" DRAFT) with
     | (Return _, sm) =>
         map IntakeEvent.event_id (StateMachine.get_events sm)
         = ["evt_a7a7a7a7a7a747a7"]
         /\ forallb (has_format "evt_" is_hex (Nat.eqb 32))
                    (map IntakeEvent.event_id (StateMachine.get_events sm))
            = false
     | (Raise _, _) => False
     end.
Proof. split; vm_compute; split; reflexivity. Qed.

(** C8 (amended to 16 digits).  A creation that is not a replay and
    draws 32 token bytes replies with a [submissionId] that is [sub_]
    followed by 16 hexadecimal digits and a [resumeToken] that is [rt_]
    followed by the 43 URL-safe base64 characters encoding the 32
    bytes; the events of the state machine it stores, and the event
    any successful transition appends, have an [event_id] that is
    [evt_] followed by 16 hexadecimal digits. *)
Theorem minted_identifier_formats
    (self : t) (actor : actor_arg) (key : option string)
    (fields : option pydict) (ttl : option Z) (os : draw)
    (r : response) (self' : t) :
  length (token_bytes os) = 32 ->
  seen key self = None ->
  create_submission actor key fields ttl os self = (Return r, self') ->
  has_format "sub_" is_hex (Nat.eqb 16) (submissionId r) = true
  /\ has_format "rt_" is_urlsafe (Nat.eqb 43) (resumeToken r) = true
  /\ (exists sm,
        _state_machines self' !! submissionId r = Some sm
        /\ forall e, e ∈ StateMachine.get_events sm ->
             has_format "evt_" is_hex (Nat.eqb 16) (IntakeEvent.event_id e)
             = true)
  /\ (forall sm dst a d sm',
        StateMachine.transition_to dst a d sm = (Return tt, sm') ->
        exists e,
          StateMachine.get_events sm' = StateMachine.get_events sm ++ [e]
          /\ has_format "evt_" is_hex (Nat.eqb 16) (IntakeEvent.event_id e)
             = true).
Proof.
  intros Htok Hseen Hcall.
  assert (Hevt : forall sm dst a d sm',
             StateMachine.transition_to dst a d sm = (Return tt, sm') ->
             exists e,
               StateMachine.get_events sm' = StateMachine.get_events sm ++ [e]
               /\ has_format "evt_" is_hex (Nat.eqb 16)
                              (IntakeEvent.event_id e) = true).
  { intros sm dst a d sm' Hstep.
    destruct (StateMachineProps.transition_to_cases dst a d sm)
      as [[err He] | [_ He]]; rewrite He in Hstep; [discriminate |].
    injection Hstep as <-. rewrite StateMachineProps._emit_event_eq.
    eexists. split; [reflexivity |]. apply hex16_format. }
  destruct (normalize_actor actor) as [a | e] eqn:Hact.
  2: { rewrite (create_submission_bad_actor _ _ _ _ _ _ _ Hseen Hact) in Hcall.
       discriminate. }
  destruct (create_submission_fresh actor key fields ttl os self a Hseen Hact)
    as (r0 & self0 & rec & Hcall0 & Hid & Hrtok & Hst & Hsms & _).
  rewrite Hcall0 in Hcall. injection Hcall as <- <-.
  split; [rewrite Hid; apply hex16_format |].
  split.
  { rewrite Hrtok. unfold fresh_token, _generate_resume_token.
    destruct (token_urlsafe_32 _ Htok) as (cs & -> & Hlen & Hall).
    apply has_format_intro; [by rewrite Hlen | exact Hall]. }
  split; [| exact Hevt].
  exists (fresh_machine a fields os). split.
  { rewrite Hsms, Hid. apply lookup_insert_eq. }
  intros e He. unfold fresh_machine in He.
  destruct (fields_truthy fields).
  - rewrite StateMachineProps._emit_event_eq in He.
    cbn [StateMachine.get_events StateMachine._events app] in He.
    apply list_elem_of_singleton in He. subst e. apply hex16_format.
  - cbn in He. by apply elem_of_nil in He.
Qed.

Definition fresh_reply : response :=
  {| ok := true; submissionId := "sub_0101010101014101";
     state := "in_progress";
     resumeToken := "rt_AQEBAQEBAQEBAQEBAQEBAQEBAQEBAQEBAQEBAQEBAQE";
     r_schema := sample_schema; missingFields := Some ["email"] |}.

Definition after_fresh : t :=
  snd (create_submission bot None (Some [("name", JStr "A")]) None
                         (draw_of Byte.x01) sample_runtime).

Lemma minted_identifier_formats_witness :
  has_format "sub_" is_hex (Nat.eqb 16) (submissionId fresh_reply) = true
  /\ has_format "rt_" is_urlsafe (Nat.eqb 43) (resumeToken fresh_reply) = true
  /\ (exists sm,
        _state_machines after_fresh !! submissionId fresh_reply = Some sm
        /\ forall e, e ∈ StateMachine.get_events sm ->
             has_format "evt_" is_hex (Nat.eqb 16) (IntakeEvent.event_id e)
             = true)
  /\ (forall sm dst a d sm',
        StateMachine.transition_to dst a d sm = (Return tt, sm') ->
        exists e,
          StateMachine.get_events sm' = StateMachine.get_events sm ++ [e]
          /\ has_format "evt_" is_hex (Nat.eqb 16) (IntakeEvent.event_id e)
             = true).
Proof.
  apply (minted_identifier_formats sample_runtime bot None
           (Some [("name", JStr "A")]) None (draw_of Byte.x01)
           fresh_reply after_fresh).
  - reflexivity.
  - reflexivity.
  - apply pair_with_fst. vm_compute. reflexivity.
Defined.
End RuntimeProps.

(** ** The runtime orchestrator: what it stores and what it serves *)

Module StoreProps.
Import SubmissionState IntakeRuntime RuntimeProps.

(** The [missingFields] entry of a reply. *)
Definition missing_of (self : t) (fields : option pydict)
    : option (list string) :=
  match fields_truthy fields with
  | Some fs =>
      let result :=
        ValidationEngine.validate (_validation_engine self) (JDict fs) in
      if negb (ValidationResult.is_valid result)
      then Some (default [] (ValidationResult.missing_fields result))
      else None
  | None => None
  end.

(** The record a creation stores under the new identifier. *)
Definition fresh_record (a : Actor.t) (fields : option pydict)
    (ttl : option Z) (os : draw) (self : t) : submission :=
  {| s_submission_id := fresh_id os;
     s_intake_id := intake_id self;
     s_state := value (StateMachine.state (fresh_machine a fields os));
     s_resume_token := fresh_token os;
     s_created_by := Actor.to_dict a;
     s_ttl_ms := ttl |}.

(** The whole effect of a creation under an unseen key. *)
Lemma create_submission_stores actor key fields ttl os self a :
  seen key self = None ->
  normalize_actor actor = Return a ->
  create_submission actor key fields ttl os self
  = (Return {| ok := true;
               submissionId := fresh_id os;
               state := value (StateMachine.state (fresh_machine a fields os));
               resumeToken := fresh_token os;
               r_schema := schema self;
               missingFields := missing_of self fields |},
     {| intake_id := intake_id self;
        schema := schema self;
        _validation_engine := _validation_engine self;
        _submissions :=
          <[fresh_id os := fresh_record a fields ttl os self]>
            (_submissions self);
        _state_machines :=
          <[fresh_id os := fresh_machine a fields os]> (_state_machines self);
        _resume_tokens :=
          <[fresh_token os := fresh_id os]> (_resume_tokens self);
        _submission_data :=
          <[fresh_id os := default [] (fields_truthy fields)]>
            (_submission_data self);
        _idempotency_keys :=
          match key_truthy key with
          | Some k => <[k := fresh_id os]> (_idempotency_keys self)
          | None => _idempotency_keys self
          end |}).
Proof.
  intros Hseen Hact. unfold create_submission. fold (seen key self).
  rewrite Hseen, Hact. fold (fresh_id os). fold (fresh_token os).
  unfold fresh_record, fresh_machine, missing_of.
  destruct (fields_truthy fields) as [fs |] eqn:Hf.
  - rewrite (StateMachineProps.transition_to_legal
               (StateMachine.new (fresh_id os) DRAFT) IN_PROGRESS a
               (transition os))
      by (apply (bool_decide_unpack _); vm_compute; exact I).
    destruct (key_truthy key) as [k |];
      unfold set_submission, set_idempotency_key, set_state_machine,
        set_submission_data, set_resume_token; cbn;
      rewrite insert_insert_eq; reflexivity.
  - destruct (key_truthy key) as [k |]; reflexivity.
Qed.



(** What [get_submission] finds right after a creation. *)
Lemma fresh_submission_is_served actor key fields ttl os self a :
  seen key self = None ->
  normalize_actor actor = Return a ->
  exists r self' d,
    create_submission actor key fields ttl os self = (Return r, self')
    /\ get_submission (submissionId r) self' = Return d
    /\ d_ok d = true
    /\ d_submissionId d = submissionId r
    /\ d_state d = state r
    /\ d_resumeToken d = resumeToken r
    /\ d_intakeId d = intake_id self.
Proof.
  intros Hseen Hact.
  rewrite (create_submission_stores _ _ _ _ _ _ _ Hseen Hact).
  eexists _, _, _. split; [reflexivity |].
  cbn [state submissionId resumeToken]. unfold get_submission.
  cbn [_submissions _state_machines _submission_data intake_id].
  rewrite !lookup_insert_eq. split; [reflexivity |]. by repeat split.
Qed.

(** X13. Whenever [create_submission] returns, on a fresh creation or
    on the replay of a key, [get_submission] finds the submission of
    the reply in the runtime the call leaves behind, with the state and
    the resume token the reply shows. *)
Theorem created_submission_is_found
    (actor : actor_arg) (key : option string) (fields : option pydict)
    (ttl : option Z) (os : draw) (self self' : t) (r : response) :
  create_submission actor key fields ttl os self = (Return r, self') ->
  exists d,
    get_submission (submissionId r) self' = Return d
    /\ d_ok d = true
    /\ d_submissionId d = submissionId r
    /\ d_state d = state r
    /\ d_resumeToken d = resumeToken r
    /\ d_intakeId d = intake_id self.
Proof.
  intros Hcall.
  destruct (seen key self) as [sid |] eqn:Hseen.
  - rewrite (create_submission_seen _ _ _ _ _ _ _ Hseen) in Hcall.
    injection Hcall as Hresp <-.
    apply _get_submission_response_returns in Hresp
      as (rec & sm & Hrec & Hsm & ->).
    cbn [submissionId state resumeToken]. unfold get_submission.
    rewrite Hrec, Hsm. eexists. split; [reflexivity |]. by repeat split.
  - destruct (normalize_actor actor) as [a | e] eqn:Hact.
    + destruct (fresh_submission_is_served actor key fields ttl os self a
                  Hseen Hact) as (r0 & self0 & d & Hcall0 & Hget & Hd).
      rewrite Hcall0 in Hcall. injection Hcall as <- <-.
      by exists d.
    + rewrite (create_submission_bad_actor _ _ _ _ _ _ _ Hseen Hact) in Hcall.
      discriminate.
Qed.

(** *** Runtimes reached by calls *)

(** The arguments and the draw of one [create_submission] call. *)
Record request : Type := {
  q_actor : actor_arg;
  q_key : option string;
  q_fields : option pydict;
  q_ttl : option Z;
  q_os : draw;
}.

Definition serve (self : t) (q : request) : outcome exn response * t :=
  create_submission (q_actor q) (q_key q) (q_fields q) (q_ttl q) (q_os q) self.

(** The runtime after a sequence of calls, whatever their outcomes. *)
Definition after (qs : list request) (self : t) : t :=
  fold_left (fun rt q => snd (serve rt q)) qs self.

(** Every registered key leads to a submission record, and every
    submission record has its state machine. *)
Definition registered (self : t) : Prop :=
  (forall k sid, _idempotency_keys self !! k = Some sid ->
                 is_Some (_submissions self !! sid))
  /\ (forall sid, is_Some (_submissions self !! sid) ->
                  is_Some (_state_machines self !! sid)).

Lemma registered_init lib iid schema self :
  __init__ lib iid schema = Return self -> registered self.
Proof.
  unfold __init__. destruct (ValidationEngine.__init__ lib schema);
    [| discriminate].
  intros [= <-]. split; cbn.
  - intros k sid H. by rewrite lookup_empty in H.
  - intros sid [x H]. by rewrite lookup_empty in H.
Qed.

Lemma serve_cases self q :
  (exists sid, seen (q_key q) self = Some sid
               /\ serve self q = (_get_submission_response sid self, self))
  \/ (exists e, seen (q_key q) self = None
                /\ normalize_actor (q_actor q) = Raise e
                /\ serve self q = (Raise e, self))
  \/ (exists a, seen (q_key q) self = None
                /\ normalize_actor (q_actor q) = Return a
                /\ serve self q
                   = create_submission (q_actor q) (q_key q) (q_fields q)
                       (q_ttl q) (q_os q) self
                /\ exists r self',
                     serve self q = (Return r, self')
                     /\ _submissions self'
                        = <[fresh_id (q_os q) :=
                              fresh_record a (q_fields q) (q_ttl q) (q_os q)
                                self]> (_submissions self)
                     /\ _state_machines self'
                        = <[fresh_id (q_os q) :=
                              fresh_machine a (q_fields q) (q_os q)]>
                            (_state_machines self)
                     /\ _idempotency_keys self'
                        = match key_truthy (q_key q) with
                          | Some k =>
                              <[k := fresh_id (q_os q)]>
                                (_idempotency_keys self)
                          | None => _idempotency_keys self
                          end).
Proof.
  unfold serve. destruct (seen (q_key q) self) as [sid |] eqn:Hseen.
  - left. exists sid. split; [done |]. by apply create_submission_seen.
  - right. destruct (normalize_actor (q_actor q)) as [a | e] eqn:Hact.
    + right. exists a. do 3 (split; [done |]).
      rewrite (create_submission_stores _ _ _ _ _ _ _ Hseen Hact).
      eexists _, _. split; [reflexivity |]. by repeat split.
    + left. exists e. do 2 (split; [done |]).
      by apply create_submission_bad_actor.
Qed.

Lemma registered_serve self q :
  registered self -> registered (snd (serve self q)).
Proof.
  intros [Hkeys Hsubs].
  destruct (serve_cases self q)
    as [(sid & _ & ->) | [(e & _ & _ & ->)
        | (a & _ & _ & _ & r & self' & -> & Hs & Hm & Hk)]];
    cbn [snd]; [by split | by split |].
  split.
  - intros k sid Hlook. rewrite Hs. rewrite Hk in Hlook.
    destruct (decide (sid = fresh_id (q_os q))) as [-> | Hne].
    + rewrite lookup_insert_eq. by eexists.
    + rewrite lookup_insert_ne by done. apply (Hkeys k).
      destruct (key_truthy (q_key q)) as [k0 |]; [| exact Hlook].
      destruct (decide (k0 = k)) as [-> | Hk0].
      * rewrite lookup_insert_eq in Hlook. congruence.
      * by rewrite lookup_insert_ne in Hlook.
  - intros sid. rewrite Hs, Hm.
    destruct (decide (sid = fresh_id (q_os q))) as [-> | Hne].
    + rewrite !lookup_insert_eq. by eexists.
    + rewrite !lookup_insert_ne by done. apply Hsubs.
Qed.

Lemma registered_after qs : forall self,
  registered self -> registered (after qs self).
Proof.
  induction qs as [| q qs IH]; intros self Hreg; [exact Hreg |].
  cbn [after fold_left]. apply IH. by apply registered_serve.
Qed.


(** X15. In such a runtime [get_submission] returns for exactly the
    identifiers that have a submission record, with the resume token
    and the creator of that record, and raises
    [ValueError('Submission ... not found')] for every other
    identifier; its error about a missing state machine never
    occurs. *)
Theorem get_submission_found_iff_created
    (lib : jsonschema.Draft7Validator) (iid : string) (schema : json)
    (rt0 : t) (qs : list request) (sid : string) :
  __init__ lib iid schema = Return rt0 ->
  let rt := after qs rt0 in
  match _submissions rt !! sid with
  | Some rec =>
      exists d,
        get_submission sid rt = Return d
        /\ d_submissionId d = sid
        /\ d_resumeToken d = s_resume_token rec
        /\ d_createdBy d = s_created_by rec
  | None =>
      get_submission sid rt
      = Raise (ValueError ("Submission " +:+ sid +:+ " not found"))
  end.
Proof.
  intros Hinit rt.
  assert (Hreg : registered rt).
  { apply registered_after. by eapply registered_init. }
  destruct Hreg as [_ Hsubs]. unfold get_submission.
  destruct (_submissions rt !! sid) as [rec |] eqn:Hrec; [| reflexivity].
  destruct (Hsubs sid (ex_intro _ rec Hrec)) as [sm Hsm].
  rewrite Hsm. eexists. split; [reflexivity |]. by repeat split.
Qed.

(** *** Concrete runs *)


Definition name_only : option pydict := Some [("name", JStr "A")].


Lemma created_submission_is_found_witness :
  exists d,
    get_submission (submissionId fresh_reply) after_fresh = Return d
    /\ d_ok d = true
    /\ d_submissionId d = submissionId fresh_reply
    /\ d_state d = state fresh_reply
    /\ d_resumeToken d = resumeToken fresh_reply
    /\ d_intakeId d = intake_id sample_runtime.
Proof.
  apply (created_submission_is_found bot None name_only None
           (draw_of Byte.x01) sample_runtime after_fresh fresh_reply).
  apply pair_with_fst. vm_compute. reflexivity.
Defined.

Definition first_request : request :=
  {| q_actor := bot; q_key := Some "k1"; q_fields := None; q_ttl := None;
     q_os := draw_of Byte.x01 |}.

Definition robot_request : request :=
  {| q_actor := ActorDict "robot" "r2" None None; q_key := Some "k2";
     q_fields := name_only; q_ttl := None; q_os := draw_of Byte.x02 |}.


Example robot_is_rejected :
  fst (serve (after [first_request] sample_runtime) robot_request)
  = Raise (ValueError "'robot' is not a valid ActorKind").
Proof. vm_compute. reflexivity. Qed.

Lemma get_submission_found_iff_created_witness :
  let rt := after [first_request] sample_runtime in
  match _submissions rt !! "sub_404" with
  | Some rec =>
      exists d,
        get_submission "sub_404" rt = Return d
        /\ d_submissionId d = "sub_404"
        /\ d_resumeToken d = s_resume_token rec
        /\ d_createdBy d = s_created_by rec
  | None =>
      get_submission "sub_404" rt
      = Raise (ValueError ("Submission " +:+ "sub_404" +:+ " not found"))
  end.
Proof.
  apply (get_submission_found_iff_created Draft7.fragment "test"
           sample_schema sample_runtime [first_request] "sub_404").
  reflexivity.
Defined.


Example missing_fields_of_sample :
  missingFields fresh_reply = Some ["email"]
  /\ fst (create_submission bot None name_only None (draw_of Byte.x01)
                            sample_runtime)
     = Return fresh_reply.
Proof. split; [reflexivity | vm_compute; reflexivity]. Qed.
End StoreProps.

(** ** The event emitter *)

Module EmitterProps.
Import EventEmitter.

Section Dispatch.
Context {W : Type}.
Implicit Types (l : listener W) (ls : list (listener W)) (w : W).




(** The calls made are always an initial segment of the registration
    order, whatever the listeners do. *)
Lemma dispatch_log_prefix ls event : forall w log,
  exists called,
    snd (dispatch ls event w log) = log ++ called
    /\ called `prefix_of` map lid ls.
Proof.
  induction ls as [| l ls IH]; intros w log; cbn.
  - exists []. by rewrite app_nil_r.
  - destruct (call l event w) as [[[] | e] w'].
    + destruct (IH w' (log ++ [lid l])) as (called & -> & Hp).
      exists (lid l :: called). rewrite <- app_assoc. split; [done |].
      by apply prefix_cons.
    + destruct (PyExc.is_exception e).
      * destruct (IH w' (log ++ [lid l])) as (called & -> & Hp).
        exists (lid l :: called). rewrite <- app_assoc. split; [done |].
        by apply prefix_cons.
      * exists [lid l]. split; [done |]. apply prefix_cons, prefix_nil.
Qed.

(** A listener that raises outside [Exception] ends the loop. *)
Lemma dispatch_stops l ls event w log e w' :
  call l event w = (Raise e, w') ->
  PyExc.is_exception e = false ->
  dispatch (l :: ls) event w log = (Raise e, w', log ++ [lid l]).
Proof. intros Hcall He. cbn. by rewrite Hcall, He. Qed.

End Dispatch.

(** *** Concrete listeners; the state is the list of lines written *)

Definition writes (n : nat) (line : string) : listener (list string) :=
  {| lid := n; call := fun _ out => (Return tt, out ++ [line]) |}.

Definition fails (n : nat) (line : string) (e : PyExc.t)
    : listener (list string) :=
  {| lid := n; call := fun _ out => (Raise e, out ++ [line]) |}.

Definition submitted_event : IntakeEvent.t :=
  {| IntakeEvent.event_id := "evt_016";
     IntakeEvent.type := EventType.SUBMISSION_SUBMITTED;
     IntakeEvent.submission_id := "sub_016";
     IntakeEvent.ts := StateMachineProps.sample_now;
     IntakeEvent.actor := StateMachineProps.sample_actor;
     IntakeEvent.state := SubmissionState.SUBMITTED;
     IntakeEvent.payload := None |}.

(** [on_any(a); on(SUBMITTED, b); on(SUBMITTED, c); on(CREATED, d);
    on_any(e)] where [c] raises [ValueError]. *)
Definition mixed_emitter : t (list string) :=
  on_any (writes 5 "e")
    (on EventType.SUBMISSION_CREATED (writes 4 "d")
       (on EventType.SUBMISSION_SUBMITTED
          (fails 3 "c" (PyExc.Exception "ValueError" "Listener error"))
          (on EventType.SUBMISSION_SUBMITTED (writes 2 "b")
             (on_any (writes 1 "a") new)))).

Example mixed_emit :
  emit submitted_event mixed_emitter []
  = (Return tt, ["b"; "c"; "a"; "e"], [2; 3; 1; 5]).
Proof. vm_compute. reflexivity. Qed.

Example on_then_off :
  let f := writes 7 "f" in
  let em := on EventType.SUBMISSION_SUBMITTED f new in
  emit submitted_event em [] = (Return tt, ["f"], [7])
  /\ emit submitted_event (off EventType.SUBMISSION_SUBMITTED f em) ["f"]
     = (Return tt, ["f"], []).
Proof. split; vm_compute; reflexivity. Qed.



End EmitterProps.

(** ** The event emitter: subscribing and unsubscribing *)

Module RegistryProps.
Import EventEmitter EmitterProps.

Section Registry.
Context {W : Type}.
Implicit Types (l : listener W) (ls : list (listener W)) (w : W)
  (em : t W) (ty : EventType.t).

(** [self._listeners.get(ty, [])] *)
Definition registered ty em : list (listener W) :=
  default [] (_listeners em ty).

(** [l] is subscribed to [ty]: it occurs in the list of [ty]. *)
Definition subscribed ty l em : Prop := lid l ∈ map lid (registered ty em).

Lemma registered_new ty : registered ty (@new W) = [].
Proof. reflexivity. Qed.

Lemma registered_on ty' ty l em :
  registered ty' (on ty l em)
  = if decide (ty' = ty) then registered ty em ++ [l] else registered ty' em.
Proof.
  unfold registered, on, set_listeners.
  destruct (_listeners em ty) as [ls |] eqn:Hls; cbn;
    repeat case_decide; subst; rewrite ?Hls; done.
Qed.

Lemma registered_off ty' ty l em :
  registered ty' (off ty l em)
  = if decide (ty' = ty) then remove_first l (registered ty em)
    else registered ty' em.
Proof.
  unfold registered, off, set_listeners.
  destruct (_listeners em ty) as [ls |] eqn:Hls; cbn.
  - destruct (decide (ty' = ty)); reflexivity.
  - destruct (decide (ty' = ty)) as [-> | Hne]; [| reflexivity].
    by rewrite Hls.
Qed.

Lemma any_off ty l em : _any_listeners (off ty l em) = _any_listeners em.
Proof. unfold off. by destruct (_listeners em ty). Qed.

(** [emit] and [listener_count] read the dictionary through
    [registered] only: an absent key and an empty list are the same to
    them. *)
Lemma emit_registered event em w :
  emit event em w
  = match dispatch (registered (IntakeEvent.type event) em) event w [] with
    | (Return _, w', log) => dispatch (_any_listeners em) event w' log
    | (Raise e, w', log) => (Raise e, w', log)
    end.
Proof.
  unfold emit, registered.
  by destruct (_listeners em (IntakeEvent.type event)).
Qed.

Lemma listener_count_registered q em :
  listener_count q em
  = match q with
    | Some ty => length (registered ty em)
    | None =>
        length (_any_listeners em)
        + list_sum (map (fun ty => length (registered ty em))
                        EventType.members)
    end.
Proof. by destruct q. Qed.

(** Two emitters with the same lists behave alike. *)
Lemma same_lists em em' :
  (forall ty, registered ty em' = registered ty em) ->
  _any_listeners em' = _any_listeners em ->
  (forall event w, emit event em' w = emit event em w)
  /\ (forall q, listener_count q em' = listener_count q em).
Proof.
  intros Hreg Hany. split.
  - intros event w. by rewrite !emit_registered, Hreg, Hany.
  - intros q. rewrite !listener_count_registered, Hany.
    destruct q as [ty |]; [by rewrite Hreg |].
    f_equal. f_equal. apply map_ext. intros ty. by rewrite Hreg.
Qed.

Lemma remove_first_absent l ls :
  lid l ∉ map lid ls -> remove_first l ls = ls.
Proof.
  induction ls as [| l' ls IH]; intros Hout; [reflexivity |].
  cbn in *. apply not_elem_of_cons in Hout as [Hne Hout].
  apply Nat.eqb_neq in Hne. rewrite Hne. by rewrite IH.
Qed.

Lemma remove_first_snoc l ls :
  lid l ∉ map lid ls -> remove_first l (ls ++ [l]) = ls.
Proof.
  induction ls as [| l' ls IH]; intros Hout; cbn.
  - by rewrite Nat.eqb_refl.
  - cbn in Hout. apply not_elem_of_cons in Hout as [Hne Hout].
    apply Nat.eqb_neq in Hne. rewrite Hne. by rewrite IH.
Qed.

Lemma remove_first_present l ls :
  lid l ∈ map lid ls -> S (length (remove_first l ls)) = length ls.
Proof.
  induction ls as [| l' ls IH]; intros Hin; cbn in *.
  - by apply elem_of_nil in Hin.
  - destruct (Nat.eqb_spec (lid l) (lid l')) as [_ | Hne]; [reflexivity |].
    apply elem_of_cons in Hin as [Heq | Hin]; [done |].
    cbn. by rewrite IH.
Qed.

(** X7. A listener subscribed to one event type is never called for an
    event of another type: subscribing it changes nothing about what
    [emit] does with such an event. *)
Theorem on_is_type_specific ty l em (event : IntakeEvent.t) w :
  IntakeEvent.type event <> ty ->
  emit event (on ty l em) w = emit event em w.
Proof.
  intros Hne. rewrite !emit_registered, registered_on.
  by rewrite decide_False.
Qed.

(** X8. [off] undoes [on]: after subscribing a listener that was not
    yet subscribed to [ty] and unsubscribing it again, [emit] and
    [listener_count] behave as before. *)
Theorem off_undoes_on ty l em :
  ~ subscribed ty l em ->
  (forall event w, emit event (off ty l (on ty l em)) w = emit event em w)
  /\ (forall q,
        listener_count q (off ty l (on ty l em)) = listener_count q em).
Proof.
  intros Hfresh. apply same_lists; [| by rewrite any_off].
  intros ty'. rewrite registered_off, registered_on.
  destruct (decide (ty' = ty)) as [-> | Hne].
  - rewrite decide_True by done. by apply remove_first_snoc.
  - rewrite registered_on. by rewrite decide_False.
Qed.

(** X9. Unsubscribing a listener that is not subscribed to [ty] (in
    particular when [ty] has no listeners at all) raises nothing and
    changes nothing: [emit] and [listener_count] behave as before. *)
Theorem off_unsubscribed_is_noop ty l em :
  ~ subscribed ty l em ->
  (forall event w, emit event (off ty l em) w = emit event em w)
  /\ (forall q, listener_count q (off ty l em) = listener_count q em).
Proof.
  intros Hout. apply same_lists; [| by rewrite any_off].
  intros ty'. rewrite registered_off.
  destruct (decide (ty' = ty)) as [-> | Hne]; [| reflexivity].
  by apply remove_first_absent.
Qed.

Lemma members_nodup : NoDup EventType.members.
Proof. apply (bool_decide_unpack _). vm_compute. exact I. Qed.

Lemma members_all ty : ty ∈ EventType.members.
Proof. apply (bool_decide_unpack _). destruct ty; vm_compute; exact I. Qed.

Lemma list_sum_step (n : nat) ns : list_sum (n :: ns) = n + list_sum ns.
Proof. reflexivity. Qed.

(** A sum over keys when the summand changes at one key only. *)
Lemma list_sum_change (f g : EventType.t -> nat) ty : forall tys,
  NoDup tys ->
  (forall ty', ty' <> ty -> g ty' = f ty') ->
  list_sum (map g tys) + (if decide (ty ∈ tys) then f ty else 0)
  = list_sum (map f tys) + (if decide (ty ∈ tys) then g ty else 0).
Proof.
  intros tys Hnd Hsame. induction Hnd as [| ty0 tys Hout _ IH];
    cbn [map]; rewrite ?list_sum_step.
  - by rewrite !decide_False by apply not_elem_of_nil.
  - destruct (decide (ty0 = ty)) as [-> | Hne].
    + rewrite !decide_True by apply list_elem_of_here.
      rewrite !decide_False in IH by done. lia.
    + rewrite (Hsame ty0 Hne).
      destruct (decide (ty ∈ tys)) as [Hin | Hnin].
      * rewrite !decide_True by (by apply list_elem_of_further).
        lia.
      * rewrite !decide_False by (intros [? | ?]%elem_of_cons; done).
        lia.
Qed.

Lemma total_change em em' ty :
  (forall ty', ty' <> ty -> registered ty' em' = registered ty' em) ->
  _any_listeners em' = _any_listeners em ->
  listener_count None em' + length (registered ty em)
  = listener_count None em + length (registered ty em').
Proof.
  intros Hsame Hany. rewrite !listener_count_registered, Hany.
  pose proof (list_sum_change (fun k => length (registered k em))
                (fun k => length (registered k em')) ty
                EventType.members members_nodup) as Hsum.
  rewrite !decide_True in Hsum by apply members_all.
  rewrite <- !Nat.add_assoc. f_equal. apply Hsum.
  intros ty' Hne. by rewrite Hsame.
Qed.

(** X10. [off] removes one subscription, not all of them: when the
    listener is subscribed to [ty], the count for [ty] and the total
    count both go down by exactly one, however often it was
    subscribed. *)
Theorem off_removes_one ty l em :
  subscribed ty l em ->
  S (listener_count (Some ty) (off ty l em)) = listener_count (Some ty) em
  /\ S (listener_count None (off ty l em)) = listener_count None em.
Proof.
  intros Hin.
  assert (Hty : S (length (registered ty (off ty l em)))
                = length (registered ty em)).
  { rewrite registered_off, decide_True by done.
    by apply remove_first_present. }
  split; [by rewrite !listener_count_registered |].
  pose proof (total_change em (off ty l em) ty) as Htot.
  rewrite <- Hty in Htot.
  assert (listener_count None (off ty l em)
          + S (length (registered ty (off ty l em)))
          = listener_count None em + length (registered ty (off ty l em)))
    as Heq.
  { apply Htot; [| by rewrite any_off].
    intros ty' Hne. by rewrite registered_off, decide_False. }
  lia.
Qed.

(** X11. [listener_count] follows the subscriptions: a new emitter
    counts 0; [on] adds one to the count of its type and to the total
    and leaves the other types alone; [on_any] adds one to the total
    only; after [clear] every count is 0. *)
Theorem listener_count_tracks ty l em :
  (forall q, listener_count q (@new W) = 0)
  /\ listener_count (Some ty) (on ty l em)
     = S (listener_count (Some ty) em)
  /\ (forall ty', ty' <> ty ->
        listener_count (Some ty') (on ty l em)
        = listener_count (Some ty') em)
  /\ listener_count None (on ty l em) = S (listener_count None em)
  /\ (forall ty',
        listener_count (Some ty') (on_any l em)
        = listener_count (Some ty') em)
  /\ listener_count None (on_any l em) = S (listener_count None em)
  /\ (forall q, listener_count q (clear em) = 0).
Proof.
  assert (Hnew : forall q, listener_count q (@new W) = 0).
  { intros [ty' |]; [reflexivity |]. vm_compute. reflexivity. }
  split; [exact Hnew |].
  assert (Hty : length (registered ty (on ty l em))
                = S (length (registered ty em))).
  { rewrite registered_on, decide_True by done.
    rewrite length_app. cbn. lia. }
  split; [by rewrite !listener_count_registered |].
  split.
  { intros ty' Hne.
    by rewrite !listener_count_registered, registered_on, decide_False. }
  split.
  { pose proof (total_change em (on ty l em) ty) as Htot.
    rewrite Hty in Htot.
    assert (listener_count None (on ty l em) + length (registered ty em)
            = listener_count None em + S (length (registered ty em)))
      as Heq; [| lia].
    apply Htot; [| reflexivity].
    intros ty' Hne. by rewrite registered_on, decide_False. }
  split; [reflexivity |].
  split.
  { rewrite !listener_count_registered. cbn [on_any _any_listeners].
    rewrite length_app. cbn. unfold registered. cbn. lia. }
  exact Hnew.
Qed.

End Registry.

(** Subscriptions with the listeners of the examples. *)
Lemma off_undoes_on_witness :
  let f := writes 7 "f" in
  (forall event w,
     emit event
          (off EventType.SUBMISSION_SUBMITTED f
               (on EventType.SUBMISSION_SUBMITTED f mixed_emitter)) w
     = emit event mixed_emitter w)
  /\ (forall q,
        listener_count q
          (off EventType.SUBMISSION_SUBMITTED f
               (on EventType.SUBMISSION_SUBMITTED f mixed_emitter))
        = listener_count q mixed_emitter).
Proof.
  apply (off_undoes_on EventType.SUBMISSION_SUBMITTED (writes 7 "f")
                       mixed_emitter).
  unfold subscribed. apply (bool_decide_unpack _). vm_compute. exact I.
Defined.

Lemma on_is_type_specific_witness :
  emit submitted_event
       (on EventType.SUBMISSION_CREATED (writes 7 "f") mixed_emitter) []
  = emit submitted_event mixed_emitter [].
Proof.
  apply (on_is_type_specific EventType.SUBMISSION_CREATED (writes 7 "f")
                             mixed_emitter submitted_event []).
  simpl. discriminate.
Defined.

Lemma off_unsubscribed_is_noop_witness :
  (forall event w,
     emit event (off EventType.FIELD_UPDATED (writes 2 "b") mixed_emitter) w
     = emit event mixed_emitter w)
  /\ (forall q,
        listener_count q
          (off EventType.FIELD_UPDATED (writes 2 "b") mixed_emitter)
        = listener_count q mixed_emitter).
Proof.
  apply (off_unsubscribed_is_noop EventType.FIELD_UPDATED (writes 2 "b")
                                  mixed_emitter).
  unfold subscribed. apply (bool_decide_unpack _). vm_compute. exact I.
Defined.

Lemma off_removes_one_witness :
  S (listener_count (Some EventType.SUBMISSION_SUBMITTED)
       (off EventType.SUBMISSION_SUBMITTED (writes 2 "b") mixed_emitter))
  = listener_count (Some EventType.SUBMISSION_SUBMITTED) mixed_emitter
  /\ S (listener_count None
          (off EventType.SUBMISSION_SUBMITTED (writes 2 "b") mixed_emitter))
     = listener_count None mixed_emitter.
Proof.
  apply (off_removes_one EventType.SUBMISSION_SUBMITTED (writes 2 "b")
                         mixed_emitter).
  unfold subscribed. apply (bool_decide_unpack _). vm_compute. exact I.
Defined.
End RegistryProps.

(** ** JSON lines *)

Module JsonProps.
Import Json.

(** Induction on JSON values, with the hypothesis for the elements of a
    list and the values of a dictionary. *)
Section Induction.
Variable P : json -> Prop.
Hypothesis HNull : P JNull.
Hypothesis HBool : forall b, P (JBool b).
Hypothesis HInt : forall n, P (JInt n).
Hypothesis HStr : forall s, P (JStr s).
Hypothesis HList : forall xs, Forall P xs -> P (JList xs).
Hypothesis HDict : forall kvs, Forall (fun kv => P (snd kv)) kvs -> P (JDict kvs).

End Induction.

(** A value all of whose dictionaries have pairwise different keys, as
    every Python [dict] has. *)
Fixpoint wf (j : json) : bool :=
  match j with
  | JList xs => forallb wf xs
  | JDict kvs =>
      bool_decide (NoDup (map fst kvs)) && forallb (fun kv => wf (snd kv)) kvs
  | _ => true
  end.


(** *** Strings *)



(** *** What may follow a value in compact output *)

Definition delim (rest : list ascii) : Prop :=
  match rest with
  | [] => True
  | c :: _ => c = ","%char \/ c = "]"%char \/ c = "}"%char
  end.

Lemma skip_ws_delim rest : delim rest -> skip_ws rest = rest.
Proof. destruct rest; [done |]. intros [-> | [-> | ->]]; reflexivity. Qed.


(** *** Numbers *)















(** *** The first character of a dumped value *)








(** *** Values *)


















(** *** Compactness of the dumped text *)

(** A character in [' '..'~']. *)
Definition printable (c : ascii) : bool :=
  ((32 <=? N_of_ascii c) && (N_of_ascii c <=? 126))%N.


















End JsonProps.

(** ** events.py: a line of the event stream read back *)

Module EventProps.
Import datetime.

(** *** Timestamps: [fromisoformat] undoes [isoformat] *)
Lemma digit_value_digit k : digit_value (digit k) = Some (k mod 10)%Z.
Proof.
  unfold digit.
  pose proof (Z.mod_pos_bound k 10 ltac:(lia)) as Hr.
  set (r := (k mod 10)%Z) in *.
  assert (r = 0 \/ r = 1 \/ r = 2 \/ r = 3 \/ r = 4 \/ r = 5 \/ r = 6
          \/ r = 7 \/ r = 8 \/ r = 9)%Z as Hc by lia.
  repeat (destruct Hc as [-> | Hc]; [reflexivity |]).
  rewrite Hc. reflexivity.
Qed.

Lemma eqb_digit c k : digit_value c = None -> Ascii.eqb c (digit k) = false.
Proof.
  intros Hc. destruct (Ascii.eqb c (digit k)) eqn:E; [| reflexivity].
  apply Ascii.eqb_eq in E. subst c. rewrite digit_value_digit in Hc.
  discriminate.
Qed.

Lemma num_fixed_2 n :
  (0 <= n < 100)%Z -> num (fixed 2 n) = Some n.
Proof.
  intros Hn. unfold num, fixed. cbn [rev seq app map fold_left].
  rewrite !digit_value_digit. f_equal.
  change (10 ^ Z.of_nat 1)%Z with 10%Z. change (10 ^ Z.of_nat 0)%Z with 1%Z.
  Z.to_euclidean_division_equations. lia.
Qed.

Lemma num_fixed_4 n :
  (0 <= n < 10000)%Z -> num (fixed 4 n) = Some n.
Proof.
  intros Hn. unfold num, fixed. cbn [rev seq app map fold_left].
  rewrite !digit_value_digit. f_equal.
  change (10 ^ Z.of_nat 3)%Z with 1000%Z.
  change (10 ^ Z.of_nat 2)%Z with 100%Z.
  change (10 ^ Z.of_nat 1)%Z with 10%Z. change (10 ^ Z.of_nat 0)%Z with 1%Z.
  Z.to_euclidean_division_equations. lia.
Qed.

Lemma num_fixed_6 n :
  (0 <= n < 1000000)%Z -> num (fixed 6 n) = Some n.
Proof.
  intros Hn. unfold num, fixed. cbn [rev seq app map fold_left].
  rewrite !digit_value_digit. f_equal.
  change (10 ^ Z.of_nat 5)%Z with 100000%Z.
  change (10 ^ Z.of_nat 4)%Z with 10000%Z.
  change (10 ^ Z.of_nat 3)%Z with 1000%Z.
  change (10 ^ Z.of_nat 2)%Z with 100%Z.
  change (10 ^ Z.of_nat 1)%Z with 10%Z. change (10 ^ Z.of_nat 0)%Z with 1%Z.
  Z.to_euclidean_division_equations. lia.
Qed.

(** [isoformat] writes no [Z], so [replace('Z', '+00:00')] leaves its
    result alone. *)
Definition plain (c : ascii) : Prop := Ascii.eqb c "Z"%char = false.

Lemma replace_Z_plain cs :
  Forall plain cs ->
  IntakeEvent.replace_Z (string_of_list_ascii cs) = string_of_list_ascii cs.
Proof.
  induction 1 as [| c cs Hc _ IH]; [reflexivity |].
  cbn [string_of_list_ascii IntakeEvent.replace_Z].
  unfold plain in Hc. rewrite Hc, IH. reflexivity.
Qed.

Lemma fixed_plain w n : Forall plain (fixed w n).
Proof.
  unfold fixed. apply List.Forall_forall. intros c Hc.
  apply in_map_iff in Hc as (i & <- & _).
  unfold plain. rewrite Ascii.eqb_sym. apply eqb_digit. reflexivity.
Qed.

Lemma isoformat_plain d :
  IntakeEvent.replace_Z (isoformat d) = isoformat d.
Proof.
  unfold isoformat. apply replace_Z_plain.
  repeat first
    [ apply Forall_app_2
    | apply fixed_plain
    | apply List.Forall_cons; [reflexivity |] ].
  - destruct (microsecond d =? 0)%Z; [constructor |].
    apply List.Forall_cons; [reflexivity | apply fixed_plain].
  - destruct (tzinfo d) as [off |]; [| constructor].
    unfold format_offset.
    apply List.Forall_cons; [destruct (off <? 0)%Z; reflexivity |].
    apply Forall_app_2; [apply fixed_plain |].
    apply List.Forall_cons; [reflexivity | apply fixed_plain].
Qed.

Lemma num2 n :
  (0 <= n < 100)%Z ->
  num [digit (n / 10 ^ Z.of_nat 1); digit (n / 10 ^ Z.of_nat 0)] = Some n.
Proof. exact (num_fixed_2 n). Qed.

Lemma num4 n :
  (0 <= n < 10000)%Z ->
  num [digit (n / 10 ^ Z.of_nat 3); digit (n / 10 ^ Z.of_nat 2);
       digit (n / 10 ^ Z.of_nat 1); digit (n / 10 ^ Z.of_nat 0)] = Some n.
Proof. exact (num_fixed_4 n). Qed.

Lemma num6 n :
  (0 <= n < 1000000)%Z ->
  num [digit (n / 10 ^ Z.of_nat 5); digit (n / 10 ^ Z.of_nat 4);
       digit (n / 10 ^ Z.of_nat 3); digit (n / 10 ^ Z.of_nat 2);
       digit (n / 10 ^ Z.of_nat 1); digit (n / 10 ^ Z.of_nat 0)] = Some n.
Proof. exact (num_fixed_6 n). Qed.

Lemma valid_bounds d :
  valid d = true ->
  (1 <= year d <= 9999 /\ 1 <= month d <= 12 /\ 1 <= day d <= 31
   /\ 0 <= hour d <= 23 /\ 0 <= minute d <= 59 /\ 0 <= second d <= 59
   /\ 0 <= microsecond d <= 999999
   /\ match tzinfo d with
      | Some off => -1439 <= off <= 1439
      | None => True
      end)%Z.
Proof.
  unfold valid, between, days_in_month. intros H.
  repeat (apply andb_true_iff in H as [H ?]).
  repeat match goal with
         | H : (_ && _)%bool = true |- _ => apply andb_true_iff in H as [? ?]
         | H : (_ <=? _)%Z = true |- _ => apply Z.leb_le in H
         end.
  repeat split; try lia.
  - repeat match goal with
           | H : context [if ?b then _ else _] |- _ => destruct b
           end; lia.
  - destruct (tzinfo d); [| exact I].
    repeat match goal with
         | H : (_ && _)%bool = true |- _ => apply andb_true_iff in H as [? ?]
         | H : (_ <=? _)%Z = true |- _ => apply Z.leb_le in H
         end. lia.
Qed.

Ltac eval_eqb :=
  repeat match goal with
         | |- context [Ascii.eqb ?a ?b] =>
             lazymatch a with Ascii _ _ _ _ _ _ _ _ => idtac end;
             lazymatch b with Ascii _ _ _ _ _ _ _ _ => idtac end;
             let v := eval vm_compute in (Ascii.eqb a b) in
             change (Ascii.eqb a b) with v
         end.

Ltac crunch :=
  cbn -[digit Z.div Z.pow Z.mul Z.add Z.modulo Z.abs Z.opp num checked
        Ascii.eqb];
  repeat first
    [ rewrite num2 by lia
    | rewrite num4 by lia
    | rewrite num6 by lia
    | rewrite (eqb_digit "-"%char) by reflexivity
    | rewrite (eqb_digit "+"%char) by reflexivity ];
  eval_eqb.

Theorem fromisoformat_isoformat d :
  valid d = true -> fromisoformat (isoformat d) = Some d.
Proof.
  intros Hv. pose proof (valid_bounds d Hv) as Hb.
  destruct d as [y m dd hh mm ss us tz].
  cbn [year month day hour minute second microsecond tzinfo] in Hb.
  destruct Hb as (Hy & Hm & Hd & Hhh & Hmm & Hss & Hus & Htz).
  unfold isoformat, fromisoformat.
  rewrite list_ascii_of_string_of_list_ascii.
  cbn [year month day hour minute second microsecond tzinfo].
  assert (forall off : Z, (-1439 <= off <= 1439)%Z ->
            (0 <= Z.abs off / 60 < 100 /\ 0 <= Z.abs off mod 60 < 100
             /\ Z.abs off / 60 * 60 + Z.abs off mod 60 = Z.abs off)%Z)
    as Hoff by (intros; Z.to_euclidean_division_equations; lia).
  destruct (Z.eqb_spec us 0) as [-> | Hnz];
    (destruct tz as [off |];
     [ destruct (Hoff off Htz) as (Ha & Hb & Hab);
       unfold format_offset; destruct (Z.ltb_spec off 0) |]);
    do 2 crunch; unfold parse_isoformat_time; do 4 crunch;
    unfold checked;
    match goal with
    | |- (if valid ?d then _ else _) = Some ?d' =>
        replace d with d' by (do 2 f_equal; lia)
    end; rewrite Hv; reflexivity.
Qed.

(** *** Enumeration members are found again by their values *)

Lemma EventType_of_value x : EventType.of_value (EventType.value x) = Some x.
Proof. destruct x; reflexivity. Qed.

Lemma SubmissionState_of_value x :
  SubmissionState.of_value (SubmissionState.value x) = Some x.
Proof. destruct x; reflexivity. Qed.

Lemma ActorKind_of_value x : ActorKind.of_value (ActorKind.value x) = Some x.
Proof. destruct x; reflexivity. Qed.

(** *** Actors *)

(** What [Actor.from_dict] makes of [Actor.to_dict a]: [to_dict] leaves
    the key [metadata] out for [None] as for [{}], and [from_dict] reads
    an absent key as [{}]. *)
Definition actor_read_back (a : Actor.t) : Actor.t :=
  {| Actor.kind := Actor.kind a; Actor.id := Actor.id a;
     Actor.name := Actor.name a;
     Actor.metadata := Some (default [] (Actor.metadata a)) |}.

Definition event_read_back (e : IntakeEvent.t) : IntakeEvent.t :=
  {| IntakeEvent.event_id := IntakeEvent.event_id e;
     IntakeEvent.type := IntakeEvent.type e;
     IntakeEvent.submission_id := IntakeEvent.submission_id e;
     IntakeEvent.ts := IntakeEvent.ts e;
     IntakeEvent.actor := actor_read_back (IntakeEvent.actor e);
     IntakeEvent.state := IntakeEvent.state e;
     IntakeEvent.payload := IntakeEvent.payload e |}.

(** The invariants of the Python values that the embedding's types do
    not enforce: the timestamp passes the checks of the [datetime]
    constructor, and the dictionaries in [payload] and in the actor's
    [metadata] have pairwise distinct keys. *)
Definition well_formed (e : IntakeEvent.t) : bool :=
  valid (IntakeEvent.ts e)
  && JsonProps.wf (JDict (default [] (Actor.metadata (IntakeEvent.actor e))))
  && JsonProps.wf (JDict (default [] (IntakeEvent.payload e))).

Lemma actor_from_dict_to_dict a :
  Actor.from_dict (Actor.to_dict a) = Return (actor_read_back a).
Proof.
  destruct a as [k i n m]. unfold Actor.from_dict, Actor.to_dict.
  cbn [Actor.kind Actor.id Actor.name Actor.metadata app dict_item dict_get
       String.eqb Ascii.eqb Bool.eqb mbind outcome_bind as_str].
  rewrite ActorKind_of_value.
  destruct n as [n |], m as [[| kv m] |]; reflexivity.
Qed.






Lemma from_dict_to_dict e :
  valid (IntakeEvent.ts e) = true ->
  IntakeEvent.from_dict (IntakeEvent.to_dict e) = Return (event_read_back e).
Proof.
  intros Hts. destruct e as [ei ty si t a st p].
  unfold IntakeEvent.from_dict, IntakeEvent.to_dict, event_read_back.
  cbn [IntakeEvent.event_id IntakeEvent.type IntakeEvent.submission_id
       IntakeEvent.ts IntakeEvent.actor IntakeEvent.state
       IntakeEvent.payload] in *.
  cbn [app dict_item dict_get String.eqb Ascii.eqb Bool.eqb mbind
       outcome_bind as_str].
  rewrite isoformat_plain, (fromisoformat_isoformat t Hts).
  cbn [mbind outcome_bind].
  rewrite actor_from_dict_to_dict, EventType_of_value,
    SubmissionState_of_value.
  destruct p as [p |]; reflexivity.
Qed.



(** An event as the state machine mints it on approval, by a human
    approver whose actor carries metadata. *)
Definition approved_event : IntakeEvent.t :=
  {| IntakeEvent.event_id := "evt_a7a7a7a7a7a747a7";
     IntakeEvent.type := EventType.REVIEW_APPROVED;
     IntakeEvent.submission_id := "sub_123";
     IntakeEvent.ts :=
       {| year := 2024; month := 2; day := 29;
          hour := 23; minute := 59; second := 7;
          microsecond := 120034; tzinfo := Some (-330)%Z |};
     IntakeEvent.actor :=
       {| Actor.kind := ActorKind.HUMAN; Actor.id := "user_123";
          Actor.name := Some "Jane Doe";
          Actor.metadata := Some [("team", JStr "ops"); ("level", JInt 2)] |};
     IntakeEvent.state := SubmissionState.APPROVED;
     IntakeEvent.payload :=
       Some [("from_state", JStr "needs_review");
             ("to_state", JStr "approved")] |}.

(** A line shown with ['] for the double quote. *)
Definition shown (line : string) : string :=
  string_of_list_ascii
    (map (fun c => if Ascii.eqb c Json.dq then "'"%char else c)
         (list_ascii_of_string line)).

Example approved_event_line :
  shown (IntakeEvent.to_jsonl approved_event)
  = "{'eventId':'evt_a7a7a7a7a7a747a7','type':'review.approved','submissionId':'sub_123','ts':'2024-02-29T23:59:07.120034-05:30','actor':{'kind':'human','id':'user_123','name':'Jane Doe','metadata':{'team':'ops','level':2}},'state':'approved','payload':{'from_state':'needs_review','to_state':'approved'}}".
Proof. vm_compute. reflexivity. Qed.


(** The same event by an actor whose [metadata] is [None], which is what
    [create_submission] builds from an actor given as a dictionary
    without the key [metadata]. *)
Definition bare_actor_event : IntakeEvent.t :=
  {| IntakeEvent.event_id := "evt_a7a7a7a7a7a747a7";
     IntakeEvent.type := EventType.REVIEW_APPROVED;
     IntakeEvent.submission_id := "sub_123";
     IntakeEvent.ts := StateMachineProps.sample_now;
     IntakeEvent.actor :=
       {| Actor.kind := ActorKind.HUMAN; Actor.id := "user_123";
          Actor.name := Some "Jane Doe"; Actor.metadata := None |};
     IntakeEvent.state := SubmissionState.APPROVED;
     IntakeEvent.payload := None |}.

End EventProps.

(** ** events.py: reading event dictionaries *)

Module EventReadingProps.
Import datetime EventProps.



Lemma well_formed_read_back e :
  well_formed e = true -> well_formed (event_read_back e) = true.
Proof.
  unfold well_formed. destruct e as [ei ty si t a st p].
  cbn [event_read_back IntakeEvent.ts IntakeEvent.actor IntakeEvent.payload
       actor_read_back Actor.metadata].
  by destruct (Actor.metadata a).
Qed.



(** *** Timestamps written with [Z] *)

(** The timestamp without its offset. *)
Definition naive (d : datetime.t) : datetime.t :=
  {| year := year d; month := month d; day := day d; hour := hour d;
     minute := minute d; second := second d; microsecond := microsecond d;
     tzinfo := None |}.

(** The dictionary of [e] with another text for [ts]. *)
Definition to_dict_with_ts (ts_text : string) (e : IntakeEvent.t) : pydict :=
  [("eventId", JStr (IntakeEvent.event_id e));
   ("type", JStr (EventType.value (IntakeEvent.type e)));
   ("submissionId", JStr (IntakeEvent.submission_id e));
   ("ts", JStr ts_text);
   ("actor", JDict (Actor.to_dict (IntakeEvent.actor e)));
   ("state", JStr (SubmissionState.value (IntakeEvent.state e)))]
  ++ match IntakeEvent.payload e with
     | Some p => [("payload", JDict p)]
     | None => []
     end.

Lemma string_of_list_ascii_app a b :
  string_of_list_ascii (a ++ b)
  = string_of_list_ascii a +:+ string_of_list_ascii b.
Proof. induction a as [| c a IH]; [reflexivity |]. simpl. by rewrite IH. Qed.

Lemma replace_Z_app a b :
  IntakeEvent.replace_Z (a +:+ b)
  = IntakeEvent.replace_Z a +:+ IntakeEvent.replace_Z b.
Proof.
  induction a as [| c a IH]; [reflexivity |]. simpl.
  destruct (Ascii.eqb c "Z"); simpl; by rewrite IH.
Qed.

Lemma isoformat_offset d :
  isoformat d
  = isoformat (naive d) +:+ string_of_list_ascii (format_offset (tzinfo d)).
Proof.
  unfold isoformat. rewrite <- string_of_list_ascii_app.
  cbn [naive year month day hour minute second microsecond tzinfo
       format_offset].
  rewrite app_nil_r.
  repeat (rewrite <- app_assoc; cbn [app]). reflexivity.
Qed.

Lemma replace_Z_zulu d :
  tzinfo d = Some 0%Z ->
  IntakeEvent.replace_Z (isoformat (naive d) +:+ "Z") = isoformat d.
Proof.
  intros Htz. rewrite replace_Z_app, isoformat_plain.
  rewrite (isoformat_offset d), Htz. reflexivity.
Qed.

(** X25. [from_dict] takes a timestamp written with the suffix [Z] for
    the same instant in UTC: an event whose [ts] is at offset zero is
    read from the dictionary with [ts] in the [Z] form exactly as from
    the dictionary [to_dict] writes, with [+00:00]. *)
Theorem zulu_timestamp_is_utc (e : IntakeEvent.t) :
  valid (IntakeEvent.ts e) = true ->
  tzinfo (IntakeEvent.ts e) = Some 0%Z ->
  IntakeEvent.from_dict
    (to_dict_with_ts (isoformat (naive (IntakeEvent.ts e)) +:+ "Z") e)
  = IntakeEvent.from_dict (IntakeEvent.to_dict e)
  /\ exists e',
       IntakeEvent.from_dict (IntakeEvent.to_dict e) = Return e'
       /\ IntakeEvent.ts e' = IntakeEvent.ts e.
Proof.
  intros Hv Htz. split.
  - unfold IntakeEvent.from_dict at 1 2.
    unfold to_dict_with_ts, IntakeEvent.to_dict.
    cbn [app dict_item dict_get String.eqb Ascii.eqb Bool.eqb mbind
         outcome_bind as_str].
    by rewrite (replace_Z_zulu _ Htz), isoformat_plain.
  - rewrite (from_dict_to_dict e Hv). by eexists.
Qed.

Lemma zulu_timestamp_is_utc_witness :
  IntakeEvent.from_dict
    (to_dict_with_ts "2024-01-15T10:30:00Z" bare_actor_event)
  = IntakeEvent.from_dict (IntakeEvent.to_dict bare_actor_event)
  /\ exists e',
       IntakeEvent.from_dict (IntakeEvent.to_dict bare_actor_event)
       = Return e'
       /\ IntakeEvent.ts e' = IntakeEvent.ts bare_actor_event.
Proof.
  apply (zulu_timestamp_is_utc bare_actor_event); reflexivity.
Defined.

(** *** Required keys *)

Lemma dict_item_returns k data v :
  dict_item k data = Return v -> dict_get k data = Some v.
Proof. unfold dict_item. destruct (dict_get k data); by intros [= <-]. Qed.

Lemma bind_returns {E A B} (m : outcome E A) (k : A -> outcome E B) b :
  m ≫= k = Return b -> exists a, m = Return a /\ k a = Return b.
Proof. destruct m as [a | e]; [by exists a | discriminate]. Qed.

(** X26. [from_dict] returns only for a dictionary that has the six
    keys [ts], [actor], [eventId], [type], [submissionId] and [state],
    with a dictionary under [actor] that has [kind] and [id]; [payload]
    may be absent, and then the event has none. *)
Theorem from_dict_needs_keys (data : pydict) (e : IntakeEvent.t) :
  IntakeEvent.from_dict data = Return e ->
  Forall (fun k => is_Some (dict_get k data))
         ["ts"; "actor"; "eventId"; "type"; "submissionId"; "state"]
  /\ (exists actor,
        dict_get "actor" data = Some (JDict actor)
        /\ is_Some (dict_get "kind" actor) /\ is_Some (dict_get "id" actor))
  /\ (dict_get "payload" data = None -> IntakeEvent.payload e = None).
Proof.
  intros H. unfold IntakeEvent.from_dict in H.
  apply bind_returns in H as (ts_value & Hts & H).
  apply bind_returns in H as (ts_str & _ & H).
  apply bind_returns in H as (ts & _ & H).
  apply bind_returns in H as (actor_value & Hactor & H).
  apply bind_returns in H as (actor & Hact & H).
  apply bind_returns in H as (event_id_value & Heid & H).
  apply bind_returns in H as (event_id & _ & H).
  apply bind_returns in H as (type_value & Hty & H).
  apply bind_returns in H as (type_str & _ & H).
  apply bind_returns in H as (type & _ & H).
  apply bind_returns in H as (submission_id_value & Hsid & H).
  apply bind_returns in H as (submission_id & _ & H).
  apply bind_returns in H as (state_value & Hst & H).
  apply bind_returns in H as (state_str & _ & H).
  apply bind_returns in H as (state & _ & H).
  apply bind_returns in H as (payload & Hp & H).
  apply dict_item_returns in Hts, Hactor, Heid, Hty, Hsid, Hst.
  split; [| split].
  - repeat constructor; by eexists.
  - destruct actor_value as [| | | | | kvs]; try discriminate Hact.
    exists kvs. split; [exact Hactor |].
    unfold Actor.from_dict in Hact.
    apply bind_returns in Hact as (kind_value & Hkind & Hact).
    apply bind_returns in Hact as (kind_str & _ & Hact).
    apply bind_returns in Hact as (kind & _ & Hact).
    apply bind_returns in Hact as (id_value & Hid & _).
    apply dict_item_returns in Hkind, Hid. split; by eexists.
  - intros Hnone. rewrite Hnone in Hp. cbn in Hp, H.
    injection Hp as <-. by injection H as <-.
Qed.

Lemma from_dict_needs_keys_witness :
  Forall (fun k => is_Some (dict_get k (IntakeEvent.to_dict bare_actor_event)))
         ["ts"; "actor"; "eventId"; "type"; "submissionId"; "state"]
  /\ (exists actor,
        dict_get "actor" (IntakeEvent.to_dict bare_actor_event)
        = Some (JDict actor)
        /\ is_Some (dict_get "kind" actor) /\ is_Some (dict_get "id" actor))
  /\ (dict_get "payload" (IntakeEvent.to_dict bare_actor_event) = None ->
      IntakeEvent.payload (event_read_back bare_actor_event) = None).
Proof.
  apply (from_dict_needs_keys (IntakeEvent.to_dict bare_actor_event)
           (event_read_back bare_actor_event)).
  vm_compute. reflexivity.
Defined.

Example event_without_state :
  IntakeEvent.from_dict
    [("eventId", JStr "evt_1"); ("type", JStr "field.updated");
     ("submissionId", JStr "sub_1"); ("ts", JStr "2024-01-15T10:30:00Z");
     ("actor", JDict [("kind", JStr "agent"); ("id", JStr "bot_1")])]
  = Raise (KeyError "state").
Proof. vm_compute. reflexivity. Qed.
End EventReadingProps.

